(** * company-mapping: geocoding retries, response parsing and the row processor

    A shallow embedding of [tasks/validation.py] and [tasks/mapping.py].

    Python values are modelled as follows.
    - [str] is [string]; a character is a code point below 256.
    - [dict] with string keys is [gmap string _].
    - An exception is a value of [exn]; code that can raise returns an
      [outcome]; code that also mutates state is a function
      [S -> S * outcome A], so the state reached when an exception is
      raised is still visible to the handler, as in Python.
    - Calls to the logger have no effect on any value computed by the
      program and are left out. *)

From Stdlib Require Import ZArith Ascii String List Bool Lia.
From Stdlib Require Import Floats.SpecFloat.
From stdpp Require Import base option list gmap strings pretty.

Open Scope string_scope.

(** ** Exceptions and outcomes *)

Record exn := mkExn { exn_class : string; exn_message : string }.

Inductive outcome (A : Type) : Type :=
| Ret (a : A)
| Raise (e : exn).
Arguments Ret {A} a.
Arguments Raise {A} e.

Definition is_ret {A} (o : outcome A) : bool :=
  match o with Ret _ => true | Raise _ => false end.

(** Pure code that may raise. *)
Definition obind {A B} (o : outcome A) (k : A -> outcome B) : outcome B :=
  match o with
  | Ret a => k a
  | Raise e => Raise e
  end.

(** Code over a mutable state [S] that may raise. *)
Definition M (S A : Type) : Type := S -> S * outcome A.

Definition ret {S A} (a : A) : M S A := fun s => (s, Ret a).
Definition raise {S A} (e : exn) : M S A := fun s => (s, Raise e).
Definition bind {S A B} (c : M S A) (k : A -> M S B) : M S B :=
  fun s =>
    match c s with
    | (s', Ret a) => k a s'
    | (s', Raise e) => (s', Raise e)
    end.
Definition lift {S A} (o : outcome A) : M S A := fun s => (s, o).
Definition gets {S A} (f : S -> A) : M S A := fun s => (s, Ret (f s)).
Definition modify {S} (f : S -> S) : M S unit := fun s => (f s, Ret tt).

(** [try: c except Exception as e: h e] *)
Definition try_except {S A} (c : M S A) (h : exn -> M S A) : M S A :=
  fun s =>
    match c s with
    | (s', Ret a) => (s', Ret a)
    | (s', Raise e) => h e s'
    end.

(** [for x in xs: body x] *)
Fixpoint for_each {S A} (xs : list A) (body : A -> M S unit) : M S unit :=
  match xs with
  | [] => ret tt
  | x :: xs' => bind (body x) (fun _ => for_each xs' body)
  end.

(** [c] never changes the part [f] of the state, whether it returns or
    raises. *)
Definition preserves {S A X} (f : S -> X) (c : M S A) : Prop :=
  forall s, f (fst (c s)) = f s.

(** [c] keeps the property [P] of the state, whether it returns or raises. *)
Definition invariant {S A} (P : S -> Prop) (c : M S A) : Prop :=
  forall s, P s -> P (fst (c s)).

Declare Scope py_scope.
Delimit Scope py_scope with py.
Notation "x <- c1 ;; c2" := (bind c1 (fun x => c2))
  (at level 100, c1 at next level, right associativity) : py_scope.
Notation "c1 ;; c2" := (bind c1 (fun _ => c2))
  (at level 100, right associativity) : py_scope.
Notation "x <-! c1 ;; c2" := (obind c1 (fun x => c2))
  (at level 100, c1 at next level, right associativity) : py_scope.
Open Scope py_scope.

(** ** Python built-ins used by the program *)

Module Py.

Definition IndexError : exn := mkExn "IndexError" "list index out of range".

(** [l[i]] for [i >= 0]. *)
Definition index {A} (l : list A) (i : nat) : outcome A :=
  match nth_error l i with
  | Some a => Ret a
  | None => Raise IndexError
  end.

Definition LF : string := String "010"%char "".

(** [str.split(sep)] for a non-empty [sep]: scan from the left, cut at
    every occurrence of [sep] that does not overlap the previous one.
    [skip] counts the characters of a separator still to be dropped. *)
Fixpoint split_from (sep : string) (skip : nat) (s : string) : list string :=
  match s with
  | EmptyString => [EmptyString]
  | String c s' =>
      match skip with
      | S k => split_from sep k s'
      | O =>
          if String.prefix sep s
          then EmptyString :: split_from sep (String.length sep - 1) s'
          else match split_from sep 0 s' with
               | piece :: rest => String c piece :: rest
               | [] => [String c EmptyString]
               end
      end
  end.

Definition split (s sep : string) : list string := split_from sep 0 s.

(** [str.isspace] on one character: the code points below 256 that
    Python counts as whitespace. *)
Definition isspace (c : ascii) : bool :=
  let n := nat_of_ascii c in
  (((9 <=? n) && (n <=? 13)) || ((28 <=? n) && (n <=? 32))
   || (n =? 133) || (n =? 160))%nat.

Fixpoint lstrip (s : string) : string :=
  match s with
  | EmptyString => EmptyString
  | String c s' => if isspace c then lstrip s' else s
  end.

Fixpoint rstrip (s : string) : string :=
  match s with
  | EmptyString => EmptyString
  | String c s' =>
      match rstrip s' with
      | EmptyString => if isspace c then EmptyString else String c EmptyString
      | r => String c r
      end
  end.

(** [str.strip()] *)
Definition strip (s : string) : string := rstrip (lstrip s).

(** [sub in s] *)
Fixpoint str_contains (sub s : string) : bool :=
  String.prefix sub s
  || match s with
     | EmptyString => false
     | String _ s' => str_contains sub s'
     end.

(** [sorted(l)] on strings, by insertion; [str] compares by code point. *)
Fixpoint insert_sorted (x : string) (l : list string) : list string :=
  match l with
  | [] => [x]
  | y :: l' => if String.leb x y then x :: l else y :: insert_sorted x l'
  end.

Definition sorted (l : list string) : list string := fold_right insert_sorted [] l.

(** [sep.join(l)] *)
Definition join (sep : string) (l : list string) : string := String.concat sep l.

(** [f == 0.0]: true of both zeros, [0.0] and [-0.0]. *)
Definition float_is_zero (f : spec_float) : bool :=
  match f with
  | S754_zero _ => true
  | _ => false
  end.

(** Truthiness of a float: every float but the two zeros. *)
Definition float_truthy (f : spec_float) : bool := negb (float_is_zero f).

Definition KeyError (k : string) : exn := mkExn "KeyError" k.

(** [d[k]] *)
Definition getitem {A} (d : gmap string A) (k : string) : outcome A :=
  match d !! k with
  | Some a => Ret a
  | None => Raise (KeyError k)
  end.

(** [k in d] *)
Definition contains {A} (d : gmap string A) (k : string) : bool :=
  bool_decide (is_Some (d !! k)).

(** Truthiness of a dict: [len(d) != 0]. *)
Definition dict_truthy {A} (d : gmap string A) : bool := negb (size d =? 0)%nat.

(** Truthiness of a list. *)
Definition list_truthy {A} (l : list A) : bool :=
  match l with
  | [] => false
  | _ :: _ => true
  end.

End Py.

(** ** tasks/validation.py *)

Module Validation.

(** The [try] block of [parse_openai_response]. *)
Definition extract_fields (response : string) : outcome (string * string * string) :=
  let lines := Py.split response Py.LF in
  line0 <-! Py.index lines 0 ;;
  field0 <-! Py.index (Py.split line0 ": ") 1 ;;
  let agreement := Py.strip field0 in
  line1 <-! Py.index lines 1 ;;
  field1 <-! Py.index (Py.split line1 ": ") 1 ;;
  let strategy := Py.strip field1 in
  explanation <-!
    (if String.eqb agreement "Disagree" && (2 <? length lines)%nat
     then line2 <-! Py.index lines 2 ;;
          field2 <-! Py.index (Py.split line2 ": ") 1 ;;
          Ret (Py.strip field2)
     else Ret "") ;;
  Ret (agreement, strategy, explanation).

Definition parse_openai_response (response : string) : string * string * string :=
  match extract_fields response with
  | Ret fields => fields
  | Raise _ => ("Error", "Error", "Error")
  end.

Definition sentinel : string * string * string := ("Error", "Error", "Error").

(** *** The row processor *)

(** A cell of the column [RE_Strategy_Codes]: pandas reads an empty cell
    as the float NaN, which has no method [split]. *)
Inductive cell :=
| Text (s : string)
| NaN.

Record row := mkRow {
  Company_Name : string;
  City : string;
  Country : string;
  RE_Strategy_Codes : cell;
  Short_Description : string
}.

Record dataframe := mkFrame {
  columns : list string;
  rows : list row
}.

(** The frame written by [to_csv]: the input rows and the three new columns. *)
Record output := mkOutput {
  out_rows : list row;
  openai_agreement : list string;
  openai_strategy : list string;
  openai_explanation : list string
}.

Definition required_columns : list string :=
  ["Company_Name"; "City"; "Country"; "RE_Strategy_Codes"; "RE_Strategy_Names";
   "Short_Description"].

Definition validate_columns (df : dataframe) (required : list string) : bool :=
  let missing_columns :=
    List.filter (fun col => negb (bool_decide (col ∈ columns df))) required in
  match missing_columns with
  | [] => true
  | _ => false
  end.

Definition handle_row_error (r : row) (error_message : string) : string :=
  "Error in OpenAI response".

Definition get_cache_key (company_name city country strategy_code : string) : string :=
  company_name ++ "_" ++ city ++ "_" ++ country ++ "_" ++ strategy_code.

Definition cell_split (c : cell) (sep : string) : outcome (list string) :=
  match c with
  | Text s => Ret (Py.split s sep)
  | NaN => Raise (mkExn "AttributeError" "'float' object has no attribute 'split'")
  end.

(** A line of the written CSV whose input cells are all empty. *)
Definition blank_row : row := mkRow "" "" "" NaN "".

(** A frame of [n] lines without a value: pandas holds NaN in each
    cell, and [to_csv] writes NaN as the empty string. *)
Definition blank (n : nat) : output :=
  mkOutput (repeat blank_row n) (repeat "" n) (repeat "" n) (repeat "" n).

Definition put_agreement (o : output) (values : list string) : output :=
  mkOutput (out_rows o) values (openai_strategy o) (openai_explanation o).

Definition put_strategy (o : output) (values : list string) : output :=
  mkOutput (out_rows o) (openai_agreement o) values (openai_explanation o).

Definition put_explanation (o : output) (values : list string) : output :=
  mkOutput (out_rows o) (openai_agreement o) (openai_strategy o) values.

Definition values_mismatch (values index : nat) : exn :=
  mkExn "ValueError"
    ("Length of values (" ++ pretty values ++ ") does not match length of index ("
     ++ pretty index ++ ")").

(** [df[name] = values] on the frame [o], of which [put] stores the
    column [name].  pandas wants as many values as the frame has rows
    and raises [ValueError] otherwise, with one exception: a frame
    without rows takes the index of a non-empty list of values, and the
    cells it had are NaN from then on. *)
Definition setitem (o : output) (put : output -> list string -> output)
    (values : list string) : outcome output :=
  match out_rows o, values with
  | [], _ :: _ => Ret (put (blank (length values)) values)
  | _, _ =>
      if (length values =? length (out_rows o))%nat
      then Ret (put o values)
      else Raise (values_mismatch (length values) (length (out_rows o)))
  end.

Section RowProcessor.

(** What this module imports from the rest of the repository: the
    strategy dictionary [Keywords.re_strategies] (only its keys are
    used), [construct_prompt], and the client with its own state. *)
Context {V P C : Type}.
Variable strategy_dict : gmap string V.
Variable construct_prompt : string -> string -> string -> string -> string -> outcome P.
Variable get_openai_response : C -> P -> C * outcome string.

(** The calls a run makes, in order. *)
Inductive call :=
| GetCacheKey (key : string)
| CacheRead (key : string)
| ConstructPrompt (company_name strategy_code : string)
| GetOpenAIResponse (messages : P)
| CacheWrite (key response : string)
| SaveCache.

Record state := mkState {
  cache_file : option (gmap string string);  (* cache/openai_cache.json *)
  client : C;
  calls : list call;
  output_csv : option output;
  cache : gmap string string;
  row_agreements : list string;
  row_strategies : list string;
  row_explanations : list string;
  openai_agreements : list string;
  openai_strategies : list string;
  openai_explanations : list string
}.

Definition record_call (c : call) : M state unit :=
  modify (fun s =>
    mkState (cache_file s) (client s) (calls s ++ [c]) (output_csv s) (cache s)
      (row_agreements s) (row_strategies s) (row_explanations s)
      (openai_agreements s) (openai_strategies s) (openai_explanations s)).

Definition set_cache (m : gmap string string) : M state unit :=
  modify (fun s =>
    mkState (cache_file s) (client s) (calls s) (output_csv s) m
      (row_agreements s) (row_strategies s) (row_explanations s)
      (openai_agreements s) (openai_strategies s) (openai_explanations s)).

Definition set_cache_file (f : option (gmap string string)) : M state unit :=
  modify (fun s =>
    mkState f (client s) (calls s) (output_csv s) (cache s)
      (row_agreements s) (row_strategies s) (row_explanations s)
      (openai_agreements s) (openai_strategies s) (openai_explanations s)).

Definition set_output_csv (o : output) : M state unit :=
  modify (fun s =>
    mkState (cache_file s) (client s) (calls s) (Some o) (cache s)
      (row_agreements s) (row_strategies s) (row_explanations s)
      (openai_agreements s) (openai_strategies s) (openai_explanations s)).

Definition set_row_lists (a st e : list string) : M state unit :=
  modify (fun s =>
    mkState (cache_file s) (client s) (calls s) (output_csv s) (cache s)
      a st e
      (openai_agreements s) (openai_strategies s) (openai_explanations s)).

Definition set_openai_lists (a st e : list string) : M state unit :=
  modify (fun s =>
    mkState (cache_file s) (client s) (calls s) (output_csv s) (cache s)
      (row_agreements s) (row_strategies s) (row_explanations s)
      a st e).

(** [row_agreements.append(a); row_strategies.append(st); row_explanations.append(e)] *)
Definition row_append (a st e : string) : M state unit :=
  fun s =>
    set_row_lists (row_agreements s ++ [a]) (row_strategies s ++ [st])
      (row_explanations s ++ [e]) s.

(** The same three appends on the [openai_*] lists. *)
Definition openai_append (a st e : string) : M state unit :=
  fun s =>
    set_openai_lists (openai_agreements s ++ [a]) (openai_strategies s ++ [st])
      (openai_explanations s ++ [e]) s.

Definition validate_strategy_code (strategy_code : string) : bool :=
  if negb (bool_decide (is_Some (strategy_dict !! strategy_code)))
  then false
  else true.

(** [openai_client.get_openai_response(messages)] *)
Definition call_client (messages : P) : M state string :=
  fun s =>
    let '(c', r) := get_openai_response (client s) messages in
    (mkState (cache_file s) c' (calls s ++ [GetOpenAIResponse messages])
       (output_csv s) (cache s)
       (row_agreements s) (row_strategies s) (row_explanations s)
       (openai_agreements s) (openai_strategies s) (openai_explanations s), r).

(** [load_cache]: the file's mapping, or [{}] when there is no file. *)
Definition load_cache : M state (gmap string string) :=
  gets (fun s => default ∅ (cache_file s)).

(** [save_cache(cache, cache_file)] *)
Definition save_cache : M state unit :=
  record_call SaveCache ;;
  m <- gets cache ;;
  set_cache_file (Some m).

(** The body of [for strategy_code in strategy_codes]. *)
Definition process_code (r : row) (strategy_code : string) : M state unit :=
  if negb (validate_strategy_code strategy_code)
  then row_append "Invalid" ("Invalid strategy code: " ++ strategy_code) ""
  else
    let cache_key :=
      get_cache_key (Company_Name r) (City r) (Country r) strategy_code in
    record_call (GetCacheKey cache_key) ;;
    record_call (CacheRead cache_key) ;;
    m <- gets cache ;;
    response <-
      match m !! cache_key with
      | Some response => ret response
      | None =>
          record_call (ConstructPrompt (Company_Name r) strategy_code) ;;
          messages <- lift (construct_prompt (Company_Name r) (City r) (Country r)
                              strategy_code (Short_Description r)) ;;
          response <- call_client messages ;;
          record_call (CacheWrite cache_key response) ;;
          set_cache (<[cache_key := response]> m) ;;
          save_cache ;;
          ret response
      end ;;
    let '(agreement, strategy, explanation) := parse_openai_response response in
    row_append agreement strategy explanation.

(** The [try] block of the loop over the rows. *)
Definition row_body (r : row) : M state unit :=
  strategy_codes <- lift (cell_split (RE_Strategy_Codes r) ", ") ;;
  set_row_lists [] [] [] ;;
  for_each strategy_codes (process_code r) ;;
  s <- gets id ;;
  openai_append (Py.join ", " (row_agreements s)) (Py.join ", " (row_strategies s))
    (Py.join ", " (row_explanations s)).

(** One iteration of [for _, row in df.iterrows()], with its handler. *)
Definition process_row (r : row) : M state unit :=
  try_except (row_body r)
    (fun e => openai_append "Error" "Error" (handle_row_error r (exn_message e))).

Definition length_mismatch : exn :=
  mkExn "ValueError"
    "Length of OpenAI responses does not match the number of rows in the DataFrame.".

(** Everything after the loop: the length check, the three column
    assignments and [to_csv].  A column that is not added yet is held as
    the empty list. *)
Definition finish (df : dataframe) : M state unit :=
  s <- gets id ;;
  if negb (length (openai_agreements s) =? length (rows df))%nat
  then raise length_mismatch
  else
    o <- lift (setitem (mkOutput (rows df) [] [] []) put_agreement
                 (openai_agreements s)) ;;
    o <- lift (setitem o put_strategy (openai_strategies s)) ;;
    o <- lift (setitem o put_explanation (openai_explanations s)) ;;
    set_output_csv o.

Definition process_csv_and_save (df : dataframe) : M state unit :=
  m <- load_cache ;;
  set_cache m ;;
  if negb (validate_columns df required_columns)
  then ret tt
  else
    set_openai_lists [] [] [] ;;
    for_each (rows df) process_row ;;
    finish df.

(** *** Vocabulary of the statements about the row processor *)

(** The three result lists of the job. *)
Definition results (s : state) : list string * list string * list string :=
  (openai_agreements s, openai_strategies s, openai_explanations s).

(** The calls that neither invoke the client nor change the cache. *)
Definition is_read (c : call) : bool :=
  match c with
  | GetCacheKey _ | CacheRead _ => true
  | _ => false
  end.

(** [code] needs no request for row [r]: it is unknown, or its
    composite key is in the mapping [m]. *)
Definition code_cached (m : gmap string string) (r : row) (code : string) : bool :=
  negb (validate_strategy_code code)
  || Py.contains m (get_cache_key (Company_Name r) (City r) (Country r) code).

Definition row_cached (m : gmap string string) (r : row) : bool :=
  match RE_Strategy_Codes r with
  | Text t => forallb (code_cached m r) (Py.split t ", ")
  | NaN => true
  end.

Definition all_cached (m : gmap string string) (df : dataframe) : bool :=
  forallb (row_cached m) (rows df).

(** The state after the calls [extra] were made and [la], [ls] and
    [le] were appended to the row's lists. *)
Definition advance (s : state) (extra : list call) (la ls le : list string) : state :=
  mkState (cache_file s) (client s) (calls s ++ extra) (output_csv s) (cache s)
    (row_agreements s ++ la) (row_strategies s ++ ls) (row_explanations s ++ le)
    (openai_agreements s) (openai_strategies s) (openai_explanations s).

(** From [s] to [s'] the cache, its file, the client and the written
    CSV are as they were, only reads were made, and the job's lists
    grew by [la], [ls] and [le]. *)
Definition extends (s s' : state) (la ls le : list string) : Prop :=
  cache_file s' = cache_file s
  /\ client s' = client s
  /\ cache s' = cache s
  /\ output_csv s' = output_csv s
  /\ (exists extra, calls s' = (calls s ++ extra)%list
                    /\ forallb is_read extra = true)
  /\ results s' =
      ((openai_agreements s ++ la)%list, (openai_strategies s ++ ls)%list,
       (openai_explanations s ++ le)%list).

End RowProcessor.

End Validation.

(** ** tasks/mapping.py *)

Module Mapping.

(** A value that is [None] or a float. *)
Inductive pyval :=
| PyNone
| PyFloat (f : spec_float).

Definition truthy (v : pyval) : bool :=
  match v with
  | PyNone => false
  | PyFloat f => Py.float_truthy f
  end.

(** One object of the JSON array the geocoding service answers with. *)
Record place := mkPlace { lat : string; lon : string }.

(** The fields of a [requests] response the program reads; [json] is
    the decoded body. *)
Record response := mkResponse { status_code : Z; json : list place }.

(** A row of the categorized CSV, with the columns the map reads. *)
Record company := mkCompany {
  City : string;
  Country : string;
  RE_Strategy_Names : string
}.

(** A call to [ax.scatter]; [point_city] names the city it was made for. *)
Record point := mkPoint {
  point_city : string;
  point_strategy : string;
  point_lon : pyval;
  point_lat : pyval;
  point_size : Z
}.

(** [Series.unique()]: the distinct values in order of first appearance. *)
Fixpoint unique_from (seen : list string) (l : list string) : list string :=
  match l with
  | [] => []
  | x :: l' =>
      if bool_decide (x ∈ seen) then unique_from seen l'
      else x :: unique_from (x :: seen) l'
  end.

Definition unique (l : list string) : list string := unique_from [] l.

Section Geocoding.

(** The transport behind [requests.get], with a state of its own, and
    Python's [float] on strings. *)
Context {T : Type}.
Variable requests_get : T -> string -> T * outcome response.
Variable float : string -> outcome spec_float.

Record state := mkState {
  net : T;
  requests : list string;        (* the URLs requested, in order *)
  sleeps : list Z;               (* the waits [time.sleep] made, in order *)
  cache_file : option (gmap string (pyval * pyval));
  city_coords_cache : gmap string (pyval * pyval);
  city_coords : gmap string (pyval * pyval);
  uncached_cities : list string
}.

Definition http_get (url : string) : M state response :=
  fun s =>
    let '(t', r) := requests_get (net s) url in
    (mkState t' (requests s ++ [url]) (sleeps s) (cache_file s)
       (city_coords_cache s) (city_coords s) (uncached_cities s), r).

(** [time.sleep(seconds)] with an integer: the argument is converted to
    a count of nanoseconds held in 64 bits, with [OverflowError] when it
    does not fit; a negative argument is then refused with [ValueError]. *)
Definition sleep (seconds : Z) : M state unit :=
  let nanoseconds := (seconds * 1000000000)%Z in
  if ((nanoseconds <? -9223372036854775808)
      || (9223372036854775807 <? nanoseconds))%Z
  then raise (mkExn "OverflowError" "timestamp too large to convert to C _PyTime_t")
  else if (seconds <? 0)%Z
  then raise (mkExn "ValueError" "sleep length must be non-negative")
  else
    modify (fun s =>
      mkState (net s) (requests s) (sleeps s ++ [seconds]) (cache_file s)
        (city_coords_cache s) (city_coords s) (uncached_cities s)).

Definition set_cache_file (f : option (gmap string (pyval * pyval))) : M state unit :=
  modify (fun s =>
    mkState (net s) (requests s) (sleeps s) f
      (city_coords_cache s) (city_coords s) (uncached_cities s)).

Definition set_city_coords_cache (m : gmap string (pyval * pyval)) : M state unit :=
  modify (fun s =>
    mkState (net s) (requests s) (sleeps s) (cache_file s)
      m (city_coords s) (uncached_cities s)).

Definition set_city_coords (m : gmap string (pyval * pyval)) : M state unit :=
  modify (fun s =>
    mkState (net s) (requests s) (sleeps s) (cache_file s)
      (city_coords_cache s) m (uncached_cities s)).

Definition set_uncached_cities (l : list string) : M state unit :=
  modify (fun s =>
    mkState (net s) (requests s) (sleeps s) (cache_file s)
      (city_coords_cache s) (city_coords s) l).

Definition search_url (city country : string) : string :=
  "https://nominatim.openstreetmap.org/search?q=" ++ city ++ "," ++ country
  ++ "&format=json&limit=1".

(** [for attempt in range(retries)] and the two lines after it;
    [n] counts the attempts left. *)
Fixpoint attempts (url : string) (n : nat) (backoff_factor : Z)
  : M state (pyval * pyval) :=
  match n with
  | O => ret (PyNone, PyNone)
  | S n' =>
      response <- http_get url ;;
      if (status_code response =? 200)%Z && Py.list_truthy (json response)
      then
        data <- lift (Py.index (json response) 0) ;;
        lat <- lift (float (lat data)) ;;
        lon <- lift (float (lon data)) ;;
        ret (PyFloat lat, PyFloat lon)
      else if (status_code response =? 429)%Z
      then
        sleep backoff_factor ;;
        attempts url n' (backoff_factor * 2)
      else
        sleep backoff_factor ;;
        attempts url n' (backoff_factor * 2)
  end.

Definition get_osm_coordinates (city country : string)
    (cache : option (gmap string (pyval * pyval)))
    (retries : Z) (backoff_factor : Z) : M state (pyval * pyval) :=
  let url := search_url city country in
  match cache with
  | Some m =>
      if Py.dict_truthy m && Py.contains m city
      then lift (Py.getitem m city)
      else attempts url (Z.to_nat retries) backoff_factor
  | None => attempts url (Z.to_nat retries) backoff_factor
  end.

Definition default_retries : Z := 5.
Definition default_backoff_factor : Z := 1.

Definition load_cache : M state (gmap string (pyval * pyval)) :=
  gets (fun s => default ∅ (cache_file s)).

Definition save_cache (m : gmap string (pyval * pyval)) : M state unit :=
  set_cache_file (Some m).

(** [uncached_cities.append(city)] *)
Definition append_uncached (city : string) : M state unit :=
  uncached <- gets uncached_cities ;;
  set_uncached_cities (uncached ++ [city]).

(** The body of [for city in df_germany['City'].unique()]. *)
Definition visit_city (city : string) : M state unit :=
  m <- gets city_coords_cache ;;
  if Py.contains m city
  then
    v <- lift (Py.getitem m city) ;;
    coords <- gets city_coords ;;
    set_city_coords (<[city := v]> coords)
  else
    append_uncached city ;;
    r <- get_osm_coordinates city "Germany" (Some m)
           default_retries default_backoff_factor ;;
    let '(lat, lon) := r in
    if truthy lat && truthy lon
    then
      coords <- gets city_coords ;;
      set_city_coords (<[city := (lat, lon)]> coords) ;;
      m' <- gets city_coords_cache ;;
      set_city_coords_cache (<[city := (lat, lon)]> m') ;;
      sleep 1
    else ret tt.

(** [city_counts] is the table of the sizes of the groups by city and
    strategy name, its index the sorted cities and its columns the
    sorted strategy names.  [strategy_points] is the inner loop over
    its rows: the calls to [ax.scatter] made for one strategy. *)
Definition strategy_points (df_germany : list company)
    (coords : gmap string (pyval * pyval)) (strategy : string) : list point :=
  flat_map
    (fun city =>
       let n :=
         length (List.filter
                   (fun r => String.eqb (City r) city
                             && String.eqb (RE_Strategy_Names r) strategy)
                   df_germany) in
       if (0 <? n)%nat
       then match coords !! city with
            | Some (lat, lon) =>
                [mkPoint city strategy lon lat (Z.of_nat n * 50)]
            | None => []
            end
       else [])
    (Py.sorted (unique (map City df_germany))).

(** The combined map: every strategy in turn. *)
Definition combined_points (df_germany : list company)
    (coords : gmap string (pyval * pyval)) : list point :=
  flat_map (strategy_points df_germany coords)
    (Py.sorted (unique (map RE_Strategy_Names df_germany))).

Definition germany (df : list company) : list company :=
  List.filter (fun r => String.eqb (Country r) "Germany") df.

(** [generate_germany_map] up to the loop over the cities. *)
Definition start_map : M state unit :=
  m <- load_cache ;;
  set_city_coords_cache m ;;
  set_city_coords ∅ ;;
  set_uncached_cities [].

(** [generate_germany_map]: the result is the list of points drawn on
    the combined map and, for each strategy, the points drawn on the map
    of its own. *)
Definition generate_germany_map (df : list company)
  : M state (list point * list (string * list point)) :=
  let df_germany := germany df in
  start_map ;;
  for_each (unique (map City df_germany)) visit_city ;;
  m <- gets city_coords_cache ;;
  save_cache m ;;
  coords <- gets city_coords ;;
  ret (combined_points df_germany coords,
       map (fun strategy => (strategy, strategy_points df_germany coords strategy))
         (Py.sorted (unique (map RE_Strategy_Names df_germany)))).

(** *** Vocabulary of the statements about the geocoding client *)

(** The first condition of the loop body: status 200 and a non-empty
    list of results. *)
Definition found (r : response) : bool :=
  (status_code r =? 200)%Z && Py.list_truthy (json r).

(** Each of the next [n] requests for [url] is answered, and none of
    the answers is a 200 with results. *)
Fixpoint all_fail (url : string) (n : nat) (t : T) : bool :=
  match n with
  | O => true
  | S n' =>
      match requests_get t url with
      | (t', Ret r) => negb (found r) && all_fail url n' t'
      | (_, Raise _) => false
      end
  end.

(** The transport after [n] requests for [url]. *)
Fixpoint net_after (url : string) (n : nat) (t : T) : T :=
  match n with
  | O => t
  | S n' => net_after url n' (fst (requests_get t url))
  end.

(** [n] waits, the first of [b] seconds, each twice the one before. *)
Fixpoint backoffs (b : Z) (n : nat) : list Z :=
  match n with
  | O => []
  | S n' => b :: backoffs (b * 2) n'
  end.

(** The waits the statements are about: not negative, and of at most
    [max_wait] seconds, which is some thirty years and far below what
    [time.sleep] and the clock of the platform accept. *)
Definition max_wait : Z := 1000000000.

Definition waitable (seconds : Z) : bool :=
  ((0 <=? seconds) && (seconds <=? max_wait))%Z.

(** The state after [n] failed attempts for [url] that began with a
    backoff of [b]. *)
Definition after_failures (url : string) (n : nat) (b : Z) (s : state) : state :=
  mkState (net_after url n (net s)) (requests s ++ repeat url n)
    (sleeps s ++ backoffs b n) (cache_file s)
    (city_coords_cache s) (city_coords s) (uncached_cities s).

(** [city] is not a key of the cache given to [get_osm_coordinates]. *)
Definition uncached (cache : option (gmap string (pyval * pyval))) (city : string)
  : bool :=
  match cache with
  | None => true
  | Some m => negb (Py.contains m city)
  end.

(** [city] has no coordinates, neither in the cache, nor in its file,
    nor among the cities to plot. *)
Definition unplaced (city : string) (s : state) : Prop :=
  city_coords_cache s !! city = None
  /\ city_coords s !! city = None
  /\ default ∅ (cache_file s) !! city = None.

(** *** The maps of the validated rows *)

(** A row of the CSV with the answers: the columns the map reads and
    the column [openai_agreement]. *)
Record judged := mkJudged {
  judged_row : company;
  openai_agreement : string
}.

(** [df[(df['Country'] == 'Germany') & (df['openai_agreement'].str.contains(word))]] *)
Definition matching (word : string) (df : list judged) : list company :=
  map judged_row
    (List.filter
       (fun j => String.eqb (Country (judged_row j)) "Germany"
                 && Py.str_contains word (openai_agreement j))
       df).

(** The body of the loop over the cities in the two maps of the
    validated rows: as [visit_city], without the list of uncached cities. *)
Definition resolve_city (city : string) : M state unit :=
  m <- gets city_coords_cache ;;
  if Py.contains m city
  then
    v <- lift (Py.getitem m city) ;;
    coords <- gets city_coords ;;
    set_city_coords (<[city := v]> coords)
  else
    r <- get_osm_coordinates city "Germany" (Some m)
           default_retries default_backoff_factor ;;
    let '(lat, lon) := r in
    if truthy lat && truthy lon
    then
      coords <- gets city_coords ;;
      set_city_coords (<[city := (lat, lon)]> coords) ;;
      m' <- gets city_coords_cache ;;
      set_city_coords_cache (<[city := (lat, lon)]> m') ;;
      sleep 1
    else ret tt.

(** [generate_germany_map_with_validation_disagree] and
    [generate_germany_map_with_validation_agree] differ in the word they
    look for, in the titles and in the names of the images; this is
    their common text.  The result is [None] when the function returns
    before drawing. *)
Definition validation_map (word : string) (df : list judged)
  : M state (option (list point * list (string * list point))) :=
  let rows := matching word df in
  match rows with
  | [] => ret None
  | _ :: _ =>
      m <- load_cache ;;
      set_city_coords_cache m ;;
      set_city_coords ∅ ;;
      for_each (unique (map City rows)) resolve_city ;;
      m <- gets city_coords_cache ;;
      save_cache m ;;
      coords <- gets city_coords ;;
      ret (Some (combined_points rows coords,
                 map (fun strategy => (strategy, strategy_points rows coords strategy))
                   (Py.sorted (unique (map RE_Strategy_Names rows)))))
  end.

Definition generate_germany_map_with_validation_disagree (df : list judged) :=
  validation_map "Disagree" df.

Definition generate_germany_map_with_validation_agree (df : list judged) :=
  validation_map "Agree" df.

(** *** More vocabulary *)

(** The seconds slept in all. *)
Definition total (l : list Z) : Z := fold_right Z.add 0%Z l.

End Geocoding.

End Mapping.

(** ** Stubs for the collaborators, and sample inputs *)

Module Sample.

(** A strategy dictionary with two codes. *)
Definition re_strategies : gmap string string :=
  <["R2" := "Reuse"]> (<["R3" := "Recycle"]> ∅).

Definition construct_prompt (company_name city country strategy_code
    short_description : string) : outcome string :=
  Ret (company_name ++ " / " ++ strategy_code ++ " / " ++ short_description).

(** A client that answers every prompt alike and counts its calls. *)
Definition agreeing_client (calls_made : nat) (messages : string)
  : nat * outcome string :=
  (S calls_made, Ret ("Agreement: Agree" ++ Py.LF ++ "Strategy: R2: Reuse")).

(** A client whose transport fails. *)
Definition connection_refused : exn := mkExn "ConnectionError" "connection refused".

Definition failing_client (calls_made : nat) (messages : string)
  : nat * outcome string :=
  (S calls_made, Raise connection_refused).

Definition acme : Validation.row :=
  Validation.mkRow "Acme" "Berlin" "Germany" (Validation.Text "R2, R9") "repairs bikes".

Definition bolt : Validation.row :=
  Validation.mkRow "Bolt" "Hamburg" "Germany" (Validation.Text "R3") "recycles steel".

Definition companies : Validation.dataframe :=
  Validation.mkFrame Validation.required_columns [acme; bolt].

(** A cache file that holds the answer for every known code of
    [companies]. *)
Definition full_cache : gmap string string :=
  <["Acme_Berlin_Germany_R2" := "Agreement: Agree" ++ Py.LF ++ "Strategy: R2"]>
    (<["Bolt_Hamburg_Germany_R3" :=
         "Agreement: Disagree" ++ Py.LF ++ "Strategy: R3" ++ Py.LF
         ++ "Explanation: wrong category"]> ∅).

Definition start (file : option (gmap string string)) : @Validation.state string nat :=
  Validation.mkState file 0 [] None ∅ [] [] [] [] [] [].

(** A job state in which one entry was accumulated. *)
Definition one_entry : @Validation.state string nat :=
  Validation.mkState None 0 [] None ∅ [] [] [] ["Agree"] ["R2"] [""].

(** A job state over two rows in which an entry of the strategies was
    lost. *)
Definition lost_strategy : @Validation.state string nat :=
  Validation.mkState None 0 [] None ∅ [] [] [] ["Agree"; "Agree"] ["R2"] [""; ""].

(** A transport that answers from a script, one response per request. *)
Definition scripted (script : list Mapping.response) (url : string)
  : list Mapping.response * outcome Mapping.response :=
  match script with
  | r :: script' => (script', Ret r)
  | [] => ([], Raise connection_refused)
  end.

Definition fifty_two : spec_float := S754_finite false 13 2.
Definition thirteen : spec_float := S754_finite false 13 0.

(** [float] on the three strings the samples use. *)
Definition float (s : string) : outcome spec_float :=
  if String.eqb s "0.0" then Ret (S754_zero false)
  else if String.eqb s "52.0" then Ret fifty_two
  else if String.eqb s "13.0" then Ret thirteen
  else Raise (mkExn "ValueError" ("could not convert string to float: " ++ s)).

Definition too_many_requests : Mapping.response := Mapping.mkResponse 429 [].

Definition null_island : Mapping.response :=
  Mapping.mkResponse 200 [Mapping.mkPlace "0.0" "13.0"].

Definition geo_start (script : list Mapping.response)
  : @Mapping.state (list Mapping.response) :=
  Mapping.mkState script [] [] None ∅ ∅ [].

Definition berlin_cache : gmap string (Mapping.pyval * Mapping.pyval) :=
  <["Berlin" := (Mapping.PyFloat fifty_two, Mapping.PyFloat thirteen)]> ∅.

Definition one_company : list Mapping.company :=
  [Mapping.mkCompany "Nullstadt" "Germany" "Reuse"].

(** A frame without the column of the strategy codes. *)
Definition headless : Validation.dataframe :=
  Validation.mkFrame ["Company_Name"; "City"; "Country"] [acme].

Definition berlin_found : Mapping.response :=
  Mapping.mkResponse 200 [Mapping.mkPlace "52.0" "13.0"].

Definition unparsable : Mapping.response :=
  Mapping.mkResponse 200 [Mapping.mkPlace "north" "13.0"].

Definition berlin_company : list Mapping.company :=
  [Mapping.mkCompany "Berlin" "Germany" "Reuse"].

Definition judged_companies : list Mapping.judged :=
  [Mapping.mkJudged (Mapping.mkCompany "Berlin" "Germany" "Reuse") "Agree"].

(** A start with a cache file. *)
Definition geo_start_with (file : gmap string (Mapping.pyval * Mapping.pyval))
    (script : list Mapping.response) : @Mapping.state (list Mapping.response) :=
  Mapping.mkState script [] [] (Some file) ∅ ∅ [].

End Sample.

(** * Properties *)

(** ** The built-ins *)

Section PyFacts.

Example split_lines :
  Py.split ("a" ++ Py.LF ++ "b: c: d") Py.LF = ["a"; "b: c: d"].
Proof. reflexivity. Qed.

Example split_at_every_separator : Py.split "b: c: d" ": " = ["b"; "c"; "d"].
Proof. reflexivity. Qed.

Example split_adjacent_separators : Py.split "a: : b" ": " = ["a"; ""; "b"].
Proof. reflexivity. Qed.

Example split_no_overlap : Py.split "aaa" "aa" = [""; "a"].
Proof. reflexivity. Qed.

Example split_only_separator : Py.split ": " ": " = [""; ""].
Proof. reflexivity. Qed.

Example split_empty : Py.split "" ": " = [""].
Proof. reflexivity. Qed.

Example strip_both_ends : Py.strip "  a b  " = "a b".
Proof. reflexivity. Qed.

Example sorted_by_code_point : Py.sorted ["b"; "a"; "B"] = ["B"; "a"; "b"].
Proof. reflexivity. Qed.

Lemma split_from_not_nil sep k s : Py.split_from sep k s <> [].
Proof.
  revert k. induction s as [|c s IH]; intros k; cbn [Py.split_from]; [done|].
  destruct k as [|k]; [|apply IH].
  destruct (String.prefix sep (String c s)); [done|].
  destruct (Py.split_from sep 0 s); done.
Qed.

(** A string without the separator is returned whole, so it has no
    piece of index 1. *)
Lemma split_without_separator sep s :
  Py.str_contains sep s = false -> Py.split s sep = [s].
Proof.
  unfold Py.split. induction s as [|c s IH]; intros H; [reflexivity|].
  cbn [Py.str_contains] in H. apply orb_false_iff in H as [Hp Hs].
  cbn [Py.split_from]. rewrite Hp, (IH Hs). reflexivity.
Qed.

(** A string with the separator has a piece of index 1. *)
Lemma split_with_separator sep s :
  sep <> "" ->
  Py.str_contains sep s = true -> is_Some (nth_error (Py.split s sep) 1).
Proof.
  intros Hsep. unfold Py.split. induction s as [|c s IH]; intros H.
  - cbn in H. rewrite orb_false_r in H. destruct sep; [done|discriminate].
  - cbn [Py.str_contains] in H. cbn [Py.split_from].
    destruct (String.prefix sep (String c s)) eqn:Hp.
    + pose proof (split_from_not_nil sep (String.length sep - 1) s) as Hn.
      destruct (Py.split_from sep (String.length sep - 1) s); [done|].
      cbn. eauto.
    + cbn in H. specialize (IH H).
      destruct (Py.split_from sep 0 s) as [|p [|q r]]; cbn in *; eauto.
  Qed.

Lemma index_1_raises_iff sep s :
  sep <> "" ->
  is_ret (Py.index (Py.split s sep) 1) = Py.str_contains sep s.
Proof.
  intros Hsep. unfold Py.index.
  destruct (Py.str_contains sep s) eqn:H.
  - destruct (split_with_separator sep s Hsep H) as [x ->]. reflexivity.
  - rewrite (split_without_separator sep s H). reflexivity.
Qed.

End PyFacts.

(** ** The response parser *)

Section ParserFacts.

Import Validation.

Example parse_agree :
  parse_openai_response ("Agreement: Agree" ++ Py.LF ++ "Strategy: R2")
  = ("Agree", "R2", "").
Proof. reflexivity. Qed.

Example parse_agree_ignores_third_line :
  parse_openai_response
    ("Agreement: Agree" ++ Py.LF ++ "Strategy: R2" ++ Py.LF ++ "Explanation: why")
  = ("Agree", "R2", "").
Proof. reflexivity. Qed.

Example parse_disagree_without_third_line :
  parse_openai_response ("Agreement: Disagree" ++ Py.LF ++ "Strategy: R3")
  = ("Disagree", "R3", "").
Proof. reflexivity. Qed.

Example parse_strips_fields :
  parse_openai_response ("Agreement:   Agree  " ++ Py.LF ++ "Strategy:  R2 ")
  = ("Agree", "R2", "").
Proof. reflexivity. Qed.

(** Every exception of the [try] block is the [IndexError] of a
    subscript. *)
Lemma extract_fields_raises_IndexError response e :
  extract_fields response = Raise e -> e = Py.IndexError.
Proof.
  unfold extract_fields, obind, Py.index.
  repeat match goal with
         | |- context [nth_error ?l ?i] => destruct (nth_error l i)
         | |- context [if ?b then _ else _] => destruct b
         end; congruence.
Qed.

(** A first line without [": "] makes the parser fail. *)
Lemma first_line_without_separator response line0 :
  nth_error (Py.split response Py.LF) 0 = Some line0 ->
  Py.str_contains ": " line0 = false ->
  parse_openai_response response = sentinel.
Proof.
  intros H0 Hs. unfold parse_openai_response, extract_fields, obind, Py.index.
  rewrite H0, (split_without_separator _ _ Hs). reflexivity.
Qed.

(** A response of one line makes the parser fail. *)
Lemma single_line response :
  Py.str_contains Py.LF response = false ->
  parse_openai_response response = sentinel.
Proof.
  intros Hs. unfold parse_openai_response, extract_fields, obind.
  rewrite (split_without_separator _ _ Hs). unfold Py.index. cbn [nth_error].
  destruct (Py.split response ": ") as [|? [|? ?]]; reflexivity.
Qed.

(** A second line without [": "] makes the parser fail. *)
Lemma second_line_without_separator response line1 :
  nth_error (Py.split response Py.LF) 1 = Some line1 ->
  Py.str_contains ": " line1 = false ->
  parse_openai_response response = sentinel.
Proof.
  intros H1 Hs. unfold parse_openai_response, extract_fields, obind, Py.index.
  destruct (nth_error (Py.split response Py.LF) 0) as [line0|]; [|reflexivity].
  destruct (nth_error (Py.split line0 ": ") 1); [|reflexivity].
  rewrite H1, (split_without_separator _ _ Hs). reflexivity.
Qed.

(** C1, on the code: a line that holds [": "] twice is cut at both, and
    the field is the text between the first and the second separator.
    For the two responses of the specification, the strategy returned is
    the code alone, without the name after the second separator; an
    explanation is cut in the same way. *)
Theorem parse_cuts_at_second_separator :
  parse_openai_response ("Agreement: Agree" ++ Py.LF ++ "Strategy: R2: Reuse")
  = ("Agree", "R2", "")
  /\ parse_openai_response ("Agreement: Agree" ++ Py.LF ++ "Strategy: R2: Reuse")
     <> ("Agree", "R2: Reuse", "")
  /\ parse_openai_response
       ("Agreement: Disagree" ++ Py.LF ++ "Strategy: R3: Recycle" ++ Py.LF
        ++ "Explanation: wrong category")
     = ("Disagree", "R3", "wrong category")
  /\ parse_openai_response
       ("Agreement: Disagree" ++ Py.LF ++ "Strategy: R3" ++ Py.LF
        ++ "Explanation: wrong: it recycles")
     = ("Disagree", "R3", "wrong").
Proof. repeat split; try reflexivity. discriminate. Qed.

(** C4: when the extraction raises nothing, the explanation is read from
    the third line exactly when the agreement is the literal [Disagree]
    and the response has more than two lines; in every other case it is
    the empty string, whatever the third line holds. *)
Theorem explanation_only_when_disagree response agreement strategy explanation :
  extract_fields response = Ret (agreement, strategy, explanation) ->
  parse_openai_response response = (agreement, strategy, explanation)
  /\ (agreement <> "Disagree" \/ length (Py.split response Py.LF) <= 2 ->
      explanation = "")
  /\ (agreement = "Disagree" -> 2 < length (Py.split response Py.LF) ->
      exists line2 field2,
        nth_error (Py.split response Py.LF) 2 = Some line2
        /\ nth_error (Py.split line2 ": ") 1 = Some field2
        /\ explanation = Py.strip field2).
Proof.
  intros H. split; [unfold parse_openai_response; rewrite H; reflexivity|].
  revert H. unfold extract_fields, obind, Py.index.
  set (lines := Py.split response Py.LF).
  destruct (nth_error lines 0) as [line0|]; [|discriminate].
  destruct (nth_error (Py.split line0 ": ") 1) as [field0|]; [|discriminate].
  destruct (nth_error lines 1) as [line1|]; [|discriminate].
  destruct (nth_error (Py.split line1 ": ") 1) as [field1|]; [|discriminate].
  destruct (String.eqb (Py.strip field0) "Disagree") eqn:Hd;
    destruct (2 <? length lines)%nat eqn:Hl; cbn [andb].
  - destruct (nth_error lines 2) as [line2|] eqn:H2; [|discriminate].
    destruct (nth_error (Py.split line2 ": ") 1) as [field2|] eqn:Hf; [|discriminate].
    intros [= <- <- <-]. apply String.eqb_eq in Hd. apply Nat.ltb_lt in Hl.
    split; [intros [Hn|Hn]; [congruence | lia]|].
    intros _ _. exists line2, field2. auto.
  - intros [= <- <- <-]. apply Nat.ltb_ge in Hl. split; [reflexivity | lia].
  - intros [= <- <- <-]. apply String.eqb_neq in Hd. split; [reflexivity | congruence].
  - intros [= <- <- <-]. apply String.eqb_neq in Hd. split; [reflexivity | congruence].
Qed.

Lemma explanation_only_when_disagree_witness :
  extract_fields
    ("Agreement: Agree" ++ Py.LF ++ "Strategy: R2" ++ Py.LF ++ "Explanation: why")
  = Ret ("Agree", "R2", "")
  /\ parse_openai_response
       ("Agreement: Agree" ++ Py.LF ++ "Strategy: R2" ++ Py.LF ++ "Explanation: why")
     = ("Agree", "R2", "").
Proof.
  assert (H : extract_fields
                ("Agreement: Agree" ++ Py.LF ++ "Strategy: R2" ++ Py.LF
                 ++ "Explanation: why")
              = Ret ("Agree", "R2", "")) by reflexivity.
  split; [exact H|].
  exact (proj1 (explanation_only_when_disagree _ _ _ _ H)).
Defined.

(** C5: when the extraction raises, whatever the exception,
    [parse_openai_response] returns the sentinel triple and raises
    nothing; and the exception is the [IndexError] of a missing line or
    of a line without separator. *)
Theorem parse_failure_gives_sentinel response e :
  extract_fields response = Raise e ->
  parse_openai_response response = ("Error", "Error", "Error")
  /\ e = Py.IndexError.
Proof.
  intros H. split; [|exact (extract_fields_raises_IndexError _ _ H)].
  unfold parse_openai_response. rewrite H. reflexivity.
Qed.

Lemma parse_failure_gives_sentinel_witness :
  extract_fields "garbage" = Raise Py.IndexError
  /\ parse_openai_response "garbage" = ("Error", "Error", "Error").
Proof.
  assert (H : extract_fields "garbage" = Raise Py.IndexError) by reflexivity.
  split; [exact H|].
  exact (proj1 (parse_failure_gives_sentinel "garbage" Py.IndexError H)).
Defined.

End ParserFacts.

(** ** Stateful code: what a computation leaves alone *)

Section MonadFacts.

Context {S : Type}.

Lemma preserves_ret {A X} (f : S -> X) (a : A) : preserves f (ret a).
Proof. intros s. reflexivity. Qed.

Lemma preserves_raise {A X} (f : S -> X) e : preserves f (@raise S A e).
Proof. intros s. reflexivity. Qed.

Lemma preserves_lift {A X} (f : S -> X) (o : outcome A) : preserves f (lift o).
Proof. intros s. reflexivity. Qed.

Lemma preserves_gets {A X} (f : S -> X) (g : S -> A) : preserves f (gets g).
Proof. intros s. reflexivity. Qed.

Lemma preserves_modify {X} (f : S -> X) (g : S -> S) :
  (forall s, f (g s) = f s) -> preserves f (modify g).
Proof. intros H s. apply H. Qed.

Lemma preserves_bind {A B X} (f : S -> X) (c : M S A) (k : A -> M S B) :
  preserves f c -> (forall a, preserves f (k a)) -> preserves f (bind c k).
Proof.
  intros Hc Hk s. unfold bind. specialize (Hc s).
  destruct (c s) as [s' [a|e]]; cbn in *; [|exact Hc].
  rewrite (Hk a s'). exact Hc.
Qed.

Lemma preserves_try_except {A X} (f : S -> X) (c : M S A) (h : exn -> M S A) :
  preserves f c -> (forall e, preserves f (h e)) -> preserves f (try_except c h).
Proof.
  intros Hc Hh s. unfold try_except. specialize (Hc s).
  destruct (c s) as [s' [a|e]]; cbn in *; [exact Hc|].
  rewrite (Hh e s'). exact Hc.
Qed.

Lemma preserves_for_each {A X} (f : S -> X) (xs : list A) (body : A -> M S unit) :
  (forall x, preserves f (body x)) -> preserves f (for_each xs body).
Proof.
  intros Hb. induction xs as [|x xs IH]; cbn [for_each].
  - apply preserves_ret.
  - apply preserves_bind; [apply Hb | intros _; exact IH].
Qed.

Lemma preserves_invariant {A X} (f : S -> X) (P : X -> Prop) (c : M S A) :
  preserves f c -> invariant (fun s => P (f s)) c.
Proof. intros H s Hs. rewrite (H s). exact Hs. Qed.

Lemma invariant_bind {A B} (P : S -> Prop) (c : M S A) (k : A -> M S B) :
  invariant P c -> (forall a, invariant P (k a)) -> invariant P (bind c k).
Proof.
  intros Hc Hk s Hs. unfold bind. specialize (Hc s Hs).
  destruct (c s) as [s' [a|e]]; cbn in *; [|exact Hc].
  exact (Hk a s' Hc).
Qed.

(** A property kept by the body for every element of the list is kept
    by the loop. *)
Lemma invariant_for_each {A} (P : S -> Prop) (xs : list A) (body : A -> M S unit) :
  (forall x, In x xs -> invariant P (body x)) -> invariant P (for_each xs body).
Proof.
  induction xs as [|x xs IH]; intros Hb; cbn [for_each].
  - intros s Hs. exact Hs.
  - apply invariant_bind; [apply Hb; left; reflexivity|].
    intros _. apply IH. intros y Hy. apply Hb. right. exact Hy.
Qed.

(** A loop whose body never raises never raises. *)
Lemma for_each_returns {A} (xs : list A) (body : A -> M S unit) :
  (forall x s, snd (body x s) = Ret tt) ->
  forall s, snd (for_each xs body s) = Ret tt.
Proof.
  intros Hb. induction xs as [|x xs IH]; intros s; cbn [for_each]; [reflexivity|].
  unfold bind. specialize (Hb x s). destruct (body x s) as [s' o]; cbn in Hb.
  subst o. apply IH.
Qed.

Lemma for_each_app {A} (xs ys : list A) (body : A -> M S unit) s :
  for_each (xs ++ ys) body s
  = match for_each xs body s with
    | (s', Ret _) => for_each ys body s'
    | (s', Raise e) => (s', Raise e)
    end.
Proof.
  revert s. induction xs as [|x xs IH]; intros s; cbn [for_each app]; [reflexivity|].
  unfold bind. destruct (body x s) as [s' [[]|e]]; [apply IH | reflexivity].
Qed.

End MonadFacts.

(** ** The row processor *)

Section RowProcessorFacts.

Import Validation.

Context {V P C : Type}.
Variable strategy_dict : gmap string V.
Variable construct_prompt : string -> string -> string -> string -> string -> outcome P.
Variable get_openai_response : C -> P -> C * outcome string.

Local Abbreviation state := (@state P C).
Local Abbreviation process_code :=
  (process_code strategy_dict construct_prompt get_openai_response).
Local Abbreviation row_body :=
  (row_body strategy_dict construct_prompt get_openai_response).
Local Abbreviation process_row :=
  (process_row strategy_dict construct_prompt get_openai_response).
Local Abbreviation process_csv_and_save :=
  (process_csv_and_save strategy_dict construct_prompt get_openai_response).

Local Abbreviation results := (@results P C).
Local Abbreviation extends := (@extends P C).
Local Abbreviation advance := (@advance P C).
Local Abbreviation code_cached := (@code_cached V strategy_dict).
Local Abbreviation row_cached := (@row_cached V strategy_dict).
Local Abbreviation all_cached := (@all_cached V strategy_dict).

Ltac run_state :=
  unfold row_append, openai_append, load_cache, save_cache in *;
  unfold bind, record_call, set_cache, set_cache_file, set_output_csv, set_row_lists,
    set_openai_lists, call_client, modify, gets, lift, ret, raise in *;
  cbn in *.


Lemma validate_known code v :
  strategy_dict !! code = Some v -> validate_strategy_code strategy_dict code = true.
Proof.
  intros H. unfold validate_strategy_code. rewrite H.
  rewrite bool_decide_eq_true_2; [reflexivity | eauto].
Qed.


(** A known code whose key is in the cache: the response is read from
    the cache and parsed; neither the client nor the file is touched. *)
Lemma process_code_hit (r : row) (code : string) (s : state) response :
  validate_strategy_code strategy_dict code = true ->
  cache s !! get_cache_key (Company_Name r) (City r) (Country r) code = Some response ->
  process_code r code s =
    (let key := get_cache_key (Company_Name r) (City r) (Country r) code in
     mkState (cache_file s) (client s) (calls s ++ [GetCacheKey key; CacheRead key])
       (output_csv s) (cache s)
       (row_agreements s ++ [(parse_openai_response response).1.1])
       (row_strategies s ++ [(parse_openai_response response).1.2])
       (row_explanations s ++ [(parse_openai_response response).2])
       (openai_agreements s) (openai_strategies s) (openai_explanations s), Ret tt).
Proof.
  intros H Hc. unfold Validation.process_code. rewrite H.
  cbn [negb]. run_state. rewrite Hc.
  destruct (parse_openai_response response) as [[a st] e].
  cbn. rewrite <- app_assoc. reflexivity.
Qed.

Lemma process_code_preserves_results r code :
  preserves results (process_code r code).
Proof.
  intros s. unfold Validation.process_code, results.
  destruct (validate_strategy_code strategy_dict code); cbn [negb]; [|reflexivity].
  run_state. repeat case_match; simplify_eq; reflexivity.
Qed.

Lemma process_code_preserves_output r code :
  preserves output_csv (process_code r code).
Proof.
  intros s. unfold Validation.process_code.
  destruct (validate_strategy_code strategy_dict code); cbn [negb]; [|reflexivity].
  run_state. repeat case_match; simplify_eq; reflexivity.
Qed.

(** A code that is processed without exception adds one entry to each
    of the row's lists. *)
Lemma process_code_appends r code (s s' : state) :
  process_code r code s = (s', Ret tt) ->
  exists a st e,
    row_agreements s' = (row_agreements s ++ [a])%list
    /\ row_strategies s' = (row_strategies s ++ [st])%list
    /\ row_explanations s' = (row_explanations s ++ [e])%list.
Proof.
  unfold Validation.process_code.
  destruct (validate_strategy_code strategy_dict code); cbn [negb].
  - run_state. repeat case_match; simplify_eq; intros; simplify_eq; cbn;
      do 3 eexists; auto.
  - intros [= <-]. cbn. do 3 eexists; auto.
Qed.

Lemma codes_loop_appends r codes (s s' : state) :
  for_each codes (process_code r) s = (s', Ret tt) ->
  exists la ls le,
    length la = length codes /\ length ls = length codes /\ length le = length codes
    /\ row_agreements s' = (row_agreements s ++ la)%list
    /\ row_strategies s' = (row_strategies s ++ ls)%list
    /\ row_explanations s' = (row_explanations s ++ le)%list.
Proof.
  revert s. induction codes as [|c codes IH]; intros s; cbn [for_each].
  - intros [= <-]. exists [], [], []. rewrite !app_nil_r. repeat split; reflexivity.
  - unfold bind. destruct (process_code r c s) as [s1 [[]|e]] eqn:Hc; [|discriminate].
    intros H. apply process_code_appends in Hc as (a & st & e & Ha & Hs & He).
    apply IH in H as (la & ls & le & Hla & Hls & Hle & Ha' & Hs' & He').
    exists (a :: la), (st :: ls), (e :: le). cbn [length].
    rewrite Ha', Hs', He', Ha, Hs, He, <- !app_assoc.
    repeat split; auto.
Qed.


(** The row's [try] block leaves the job's lists alone when it raises,
    and adds the row's joined entries when it returns. *)
Lemma row_body_results r (s : state) :
  match row_body r s with
  | (s', Raise _) => results s' = results s
  | (s', Ret _) =>
      results s' =
        ((openai_agreements s ++ [Py.join ", " (row_agreements s')])%list,
         (openai_strategies s ++ [Py.join ", " (row_strategies s')])%list,
         (openai_explanations s ++ [Py.join ", " (row_explanations s')])%list)
  end.
Proof.
  unfold Validation.row_body. unfold bind at 1. unfold lift.
  destruct (RE_Strategy_Codes r) as [t|]; cbn [cell_split]; [|reflexivity].
  unfold bind at 1. unfold set_row_lists, modify.
  set (s0 := mkState _ _ _ _ _ _ _ _ _ _ _).
  unfold bind at 1.
  pose proof (preserves_for_each results (Py.split t ", ") (process_code r)
                (process_code_preserves_results r) s0) as Hp.
  destruct (for_each (Py.split t ", ") (process_code r) s0) as [s1 [[]|e]];
    cbn [fst] in Hp; [|exact Hp].
  run_state. unfold Validation.results in *. cbn. injection Hp as -> -> ->. reflexivity.
Qed.

Lemma process_row_returns r (s : state) : snd (process_row r s) = Ret tt.
Proof.
  unfold Validation.process_row, try_except.
  destruct (row_body r s) as [s' [[]|e]]; reflexivity.
Qed.

(** Each row adds exactly one entry to each of the job's lists. *)
Lemma process_row_appends r (s : state) :
  exists a st e,
    results (fst (process_row r s)) =
      ((openai_agreements s ++ [a])%list, (openai_strategies s ++ [st])%list,
       (openai_explanations s ++ [e])%list).
Proof.
  unfold Validation.process_row, try_except.
  pose proof (row_body_results r s) as H.
  destruct (row_body r s) as [s' [[]|e]].
  - cbn [fst]. rewrite H. eauto.
  - unfold Validation.results in *. run_state. injection H as -> -> ->. eauto.
Qed.

Lemma rows_loop_returns rs (s : state) : snd (for_each rs process_row s) = Ret tt.
Proof. apply for_each_returns. apply process_row_returns. Qed.

Lemma rows_loop_lengths rs (s : state) :
  let s' := fst (for_each rs process_row s) in
  length (openai_agreements s') = length (openai_agreements s) + length rs
  /\ length (openai_strategies s') = length (openai_strategies s) + length rs
  /\ length (openai_explanations s') = length (openai_explanations s) + length rs.
Proof.
  revert s. induction rs as [|r rs IH]; intros s; cbn [for_each].
  - cbn. lia.
  - unfold bind. pose proof (process_row_returns r s) as Hr.
    destruct (process_row_appends r s) as (a & st & e & Ha).
    destruct (process_row r s) as [s1 o]. cbn in Hr, Ha. subst o.
    specialize (IH s1). cbn zeta in *. unfold Validation.results in Ha.
    injection Ha as Ha Hs He.
    rewrite Ha, Hs, He, !length_app in IH. cbn [length fst] in *. lia.
Qed.



(** C7, as the code has it: when an exception escapes the processing of
    a row, the handler records ["Error"], ["Error"] and the fixed text
    ["Error in OpenAI response"] for that row (the message of the
    exception is only logged), no exception leaves the row, and the loop
    goes on with the next row; a loop over any rows returns normally. *)
Theorem row_error_recorded (r : row) (s s' : state) (e : exn) :
  row_body r s = (s', Raise e) ->
  process_row r s =
    (fst (openai_append "Error" "Error" "Error in OpenAI response" s'), Ret tt)
  /\ results (fst (process_row r s)) =
       ((openai_agreements s ++ ["Error"])%list,
        (openai_strategies s ++ ["Error"])%list,
        (openai_explanations s ++ ["Error in OpenAI response"])%list)
  /\ forall rest,
       for_each (r :: rest) process_row s
       = for_each rest process_row (fst (process_row r s))
       /\ snd (for_each (r :: rest) process_row s) = Ret tt.
Proof.
  intros H.
  assert (Hrow : process_row r s =
            (fst (openai_append "Error" "Error" "Error in OpenAI response" s'), Ret tt)).
  { unfold Validation.process_row, try_except. rewrite H. reflexivity. }
  split; [exact Hrow|]. split.
  - rewrite Hrow. pose proof (row_body_results r s) as Hres. rewrite H in Hres.
    unfold Validation.results in *. run_state. injection Hres as -> -> ->. reflexivity.
  - intros rest. split; [|apply rows_loop_returns].
    cbn [for_each]. unfold bind. rewrite Hrow. reflexivity.
Qed.

Lemma setitem_aligned (o : output) put values :
  length values = length (out_rows o) -> setitem o put values = Ret (put o values).
Proof.
  intros H. unfold setitem.
  destruct (out_rows o) as [|r rs], values as [|v vs]; try discriminate H;
    rewrite H, Nat.eqb_refl; reflexivity.
Qed.

Lemma setitem_mismatch (o : output) put values :
  out_rows o <> [] -> length values <> length (out_rows o) ->
  setitem o put values = Raise (values_mismatch (length values) (length (out_rows o))).
Proof.
  intros Hr H. unfold setitem. apply Nat.eqb_neq in H.
  destruct (out_rows o) as [|r rs]; [contradiction|]. rewrite H. reflexivity.
Qed.

(** With one entry per row in each list, the code after the loop writes
    the rows and the three columns. *)
Lemma finish_writes (df : dataframe) (s : state) :
  length (openai_agreements s) = length (rows df) ->
  length (openai_strategies s) = length (rows df) ->
  length (openai_explanations s) = length (rows df) ->
  finish df s =
    (fst (set_output_csv
            (mkOutput (rows df) (openai_agreements s) (openai_strategies s)
               (openai_explanations s)) s), Ret tt).
Proof.
  intros Ha Hs He. unfold finish, bind, gets, id, lift.
  rewrite (proj2 (Nat.eqb_eq _ _) Ha). cbn [negb].
  rewrite (setitem_aligned (mkOutput (rows df) [] [] []) put_agreement _ Ha).
  cbv beta iota.
  rewrite (setitem_aligned (put_agreement (mkOutput (rows df) [] [] []) _)
             put_strategy _ Hs).
  cbv beta iota.
  rewrite (setitem_aligned
             (put_strategy (put_agreement (mkOutput (rows df) [] [] []) _) _)
             put_explanation _ He).
  reflexivity.
Qed.

(** From a state in which a list has not one entry per row, the code
    after the loop raises and writes nothing. *)
Lemma finish_refuses (df : dataframe) (s : state) :
  length (openai_agreements s) <> length (rows df)
  \/ rows df <> []
     /\ (length (openai_strategies s) <> length (rows df)
         \/ length (openai_explanations s) <> length (rows df)) ->
  exists e, exn_class e = "ValueError" /\ finish df s = (s, Raise e).
Proof.
  intros H.
  destruct (Nat.eq_dec (length (openai_agreements s)) (length (rows df))) as [Ha|Ha].
  - destruct H as [H|[Hr H]]; [contradiction|].
    unfold finish, bind, gets, id, lift.
    rewrite (proj2 (Nat.eqb_eq _ _) Ha). cbn [negb].
    rewrite (setitem_aligned (mkOutput (rows df) [] [] []) put_agreement _ Ha).
    cbv beta iota.
    destruct (Nat.eq_dec (length (openai_strategies s)) (length (rows df))) as [Hs|Hs].
    + destruct H as [H|He]; [contradiction|].
      rewrite (setitem_aligned (put_agreement (mkOutput (rows df) [] [] []) _)
                 put_strategy _ Hs).
      cbv beta iota.
      rewrite (setitem_mismatch
                 (put_strategy (put_agreement (mkOutput (rows df) [] [] []) _) _)
                 put_explanation _ Hr He).
      eexists. split; [|reflexivity]. reflexivity.
    + rewrite (setitem_mismatch (put_agreement (mkOutput (rows df) [] [] []) _)
                 put_strategy _ Hr Hs).
      eexists. split; [|reflexivity]. reflexivity.
  - exists length_mismatch. split; [reflexivity|].
    unfold finish, bind, gets, id. apply Nat.eqb_neq in Ha. rewrite Ha. reflexivity.
Qed.

(** C8: the loop over the rows leaves one entry per input row in each
    of the three lists, and the job ends with the code that checks it:
    on a frame with the required columns the job is that code run in
    the state the loop left, it returns normally, and the CSV it writes
    holds the rows with one entry per row in each new column.  From any
    state in which one of the lists has fewer entries than there are
    rows, that code raises [ValueError] and leaves the state as it is,
    so no CSV is written; and so it does whenever the count of the
    agreements differs from the number of rows, or there are rows and
    the count of the strategies or of the explanations differs from it.
    (A frame without rows is the one place where pandas takes a list of
    another length.) *)
Theorem row_count_checked (df : dataframe) (s s' : state) :
  let s1 := fst (for_each (rows df) process_row
                   (fst (set_openai_lists [] [] []
                           (fst (set_cache (default ∅ (cache_file s)) s))))) in
  (length (openai_agreements s1) = length (rows df)
   /\ length (openai_strategies s1) = length (rows df)
   /\ length (openai_explanations s1) = length (rows df))
  /\ snd (process_csv_and_save df s) = Ret tt
  /\ (validate_columns df required_columns = true ->
      process_csv_and_save df s = finish df s1
      /\ output_csv (fst (process_csv_and_save df s))
         = Some (mkOutput (rows df) (openai_agreements s1) (openai_strategies s1)
                   (openai_explanations s1)))
  /\ (length (openai_agreements s') < length (rows df)
      \/ length (openai_strategies s') < length (rows df)
      \/ length (openai_explanations s') < length (rows df) ->
      exists e, exn_class e = "ValueError" /\ finish df s' = (s', Raise e))
  /\ (length (openai_agreements s') <> length (rows df)
      \/ rows df <> []
         /\ (length (openai_strategies s') <> length (rows df)
             \/ length (openai_explanations s') <> length (rows df)) ->
      exists e, exn_class e = "ValueError" /\ finish df s' = (s', Raise e)).
Proof.
  intros s1.
  pose proof (rows_loop_lengths (rows df)
                (fst (set_openai_lists [] [] []
                        (fst (set_cache (default ∅ (cache_file s)) s))))) as Hlen.
  cbn zeta in Hlen. fold s1 in Hlen.
  cbn [set_openai_lists modify fst openai_agreements openai_strategies
         openai_explanations length Nat.add] in Hlen.
  destruct Hlen as (Ha & Hs & He).
  assert (Hrun : process_csv_and_save df s
                 = if negb (validate_columns df required_columns)
                   then (fst (set_cache (default ∅ (cache_file s)) s), Ret tt)
                   else finish df s1).
  { unfold Validation.process_csv_and_save. unfold bind at 1. cbn [load_cache gets].
    unfold bind at 1. cbn [set_cache modify fst].
    destruct (validate_columns df required_columns); cbn [negb]; [|reflexivity].
    unfold bind at 1. cbn [set_openai_lists modify].
    unfold bind at 1.
    pose proof (rows_loop_returns (rows df)
                  (fst (set_openai_lists [] [] []
                          (fst (set_cache (default ∅ (cache_file s)) s))))) as Hr.
    unfold s1. cbn [set_openai_lists set_cache modify fst] in Hr |- *.
    destruct (for_each (rows df) process_row _) as [s2 o]. cbn [fst snd] in *.
    subst o. reflexivity. }
  split; [exact (conj Ha (conj Hs He))|]. split; [|split; [|split]].
  - rewrite Hrun. destruct (validate_columns df required_columns); cbn [negb];
      [|reflexivity].
    rewrite (finish_writes df s1 Ha Hs He). reflexivity.
  - intros Hv. rewrite Hrun, Hv. cbn [negb]. split; [reflexivity|].
    rewrite (finish_writes df s1 Ha Hs He). reflexivity.
  - intros Hlt. apply finish_refuses.
    assert (Hrows : length (rows df) <> 0 -> rows df <> [])
      by (intros Hn Heq; apply Hn; rewrite Heq; reflexivity).
    destruct Hlt as [Hlt|[Hlt|Hlt]].
    + left. lia.
    + right. split; [apply Hrows; lia | left; lia].
    + right. split; [apply Hrows; lia | right; lia].
  - apply finish_refuses.
Qed.


(** *** Runs over a cache that already holds every key *)

Lemma extends_trans (s s1 s2 : state) la ls le la' ls' le' :
  extends s s1 la ls le -> extends s1 s2 la' ls' le' ->
  extends s s2 (la ++ la') (ls ++ ls') (le ++ le').
Proof.
  intros (Hf & Hc & Hm & Ho & (x & Hx & Hrx) & Hr)
         (Hf' & Hc' & Hm' & Ho' & (x' & Hx' & Hrx') & Hr').
  unfold Validation.extends, Validation.results in *.
  injection Hr as Ha Hs He. injection Hr' as Ha' Hs' He'.
  repeat split; try congruence.
  - exists (x ++ x')%list. split; [rewrite Hx', Hx, app_assoc; reflexivity|].
    rewrite forallb_app, Hrx, Hrx'. reflexivity.
  - rewrite Ha', Hs', He', Ha, Hs, He, <- !app_assoc. reflexivity.
Qed.

Lemma advance_advance (s : state) x la ls le x' la' ls' le' :
  advance (advance s x la ls le) x' la' ls' le'
  = advance s (x ++ x') (la ++ la') (ls ++ ls') (le ++ le').
Proof. unfold Validation.advance. cbn. rewrite <- !app_assoc. reflexivity. Qed.

(** A code that needs no request is processed in the same way from any
    two states with the same cache: the same reads, the same triple. *)
Lemma process_code_cached r code (s t : state) :
  cache s = cache t ->
  code_cached (cache s) r code = true ->
  exists extra a st e,
    forallb is_read extra = true
    /\ process_code r code s = (advance s extra [a] [st] [e], Ret tt)
    /\ process_code r code t = (advance t extra [a] [st] [e], Ret tt).
Proof.
  intros Hst Hc. unfold Validation.code_cached in Hc.
  destruct (validate_strategy_code strategy_dict code) eqn:Hv; cbn [negb orb] in Hc.
  - unfold Py.contains in Hc. apply bool_decide_eq_true_1 in Hc as [response Hr].
    exists [GetCacheKey (get_cache_key (Company_Name r) (City r) (Country r) code);
            CacheRead (get_cache_key (Company_Name r) (City r) (Country r) code)].
    do 3 eexists. split; [reflexivity|].
    rewrite (process_code_hit r code s response Hv Hr).
    rewrite Hst in Hr. rewrite (process_code_hit r code t response Hv Hr).
    split; reflexivity.
  - exists [], "Invalid", ("Invalid strategy code: " ++ code), "".
    split; [reflexivity|].
    unfold Validation.process_code. rewrite Hv. cbn [negb].
    unfold Validation.advance. rewrite !app_nil_r. split; reflexivity.
Qed.

Lemma codes_loop_cached r codes :
  forall s t : state,
    cache s = cache t ->
    forallb (code_cached (cache s) r) codes = true ->
    exists extra la ls le,
      forallb is_read extra = true
      /\ for_each codes (process_code r) s = (advance s extra la ls le, Ret tt)
      /\ for_each codes (process_code r) t = (advance t extra la ls le, Ret tt).
Proof.
  induction codes as [|c codes IH]; intros s t Hst Hall; cbn [for_each forallb] in *.
  - exists [], [], [], []. unfold Validation.advance, ret. rewrite !app_nil_r.
    destruct s, t; repeat split; reflexivity.
  - apply andb_true_iff in Hall as [Hc Hall].
    destruct (process_code_cached r c s t Hst Hc) as (x & a & st & e & Hx & Hs & Ht).
    unfold bind. rewrite Hs, Ht.
    destruct (IH (advance s x [a] [st] [e]) (advance t x [a] [st] [e]))
      as (x' & la & ls & le & Hx' & Hs' & Ht'); [exact Hst | exact Hall |].
    rewrite Hs', Ht', !advance_advance.
    exists (x ++ x')%list, (a :: la), (st :: ls), (e :: le).
    rewrite forallb_app, Hx, Hx'. repeat split; reflexivity.
Qed.

Lemma process_row_text r txt (s s1 : state) :
  RE_Strategy_Codes r = Text txt ->
  for_each (Py.split txt ", ") (process_code r) (fst (set_row_lists [] [] [] s))
  = (s1, Ret tt) ->
  process_row r s =
    (fst (openai_append (Py.join ", " (row_agreements s1))
            (Py.join ", " (row_strategies s1))
            (Py.join ", " (row_explanations s1)) s1), Ret tt).
Proof.
  intros Hr Hl. unfold Validation.process_row, try_except, Validation.row_body.
  unfold bind at 1. unfold lift. rewrite Hr. cbn [cell_split].
  unfold bind at 1. unfold bind at 1. cbn [set_row_lists modify fst] in *.
  rewrite Hl. reflexivity.
Qed.

Lemma process_row_nan r (s : state) :
  RE_Strategy_Codes r = NaN ->
  process_row r s =
    (fst (openai_append "Error" "Error" "Error in OpenAI response" s), Ret tt).
Proof.
  intros Hr. unfold Validation.process_row, try_except, Validation.row_body.
  unfold bind at 1. unfold lift. rewrite Hr. reflexivity.
Qed.

Lemma process_row_cached r (s t : state) :
  cache s = cache t ->
  row_cached (cache s) r = true ->
  exists a st e,
    extends s (fst (process_row r s)) [a] [st] [e]
    /\ extends t (fst (process_row r t)) [a] [st] [e].
Proof.
  intros Hst Hc. unfold Validation.row_cached in Hc.
  destruct (RE_Strategy_Codes r) as [txt|] eqn:Hr.
  - destruct (codes_loop_cached r (Py.split txt ", ")
                (fst (set_row_lists [] [] [] s)) (fst (set_row_lists [] [] [] t))
                Hst Hc) as (x & la & ls & le & Hx & Hs & Ht).
    rewrite (process_row_text r txt s _ Hr Hs), (process_row_text r txt t _ Hr Ht).
    exists (Py.join ", " la), (Py.join ", " ls), (Py.join ", " le).
    split; unfold Validation.extends, Validation.results; run_state;
      repeat split; eauto.
  - rewrite !(process_row_nan r _ Hr).
    exists "Error", "Error", "Error in OpenAI response".
    split; unfold Validation.extends, Validation.results; run_state;
      repeat split; try reflexivity; exists []; rewrite app_nil_r; split; reflexivity.
Qed.

Lemma rows_loop_cached rs :
  forall s t : state,
    cache s = cache t ->
    forallb (row_cached (cache s)) rs = true ->
    exists la ls le,
      extends s (fst (for_each rs process_row s)) la ls le
      /\ extends t (fst (for_each rs process_row t)) la ls le.
Proof.
  induction rs as [|r rs IH]; intros s t Hst Hall; cbn [for_each forallb] in *.
  - exists [], [], []. unfold Validation.extends, Validation.results. cbn.
    rewrite !app_nil_r.
    split; repeat split; try reflexivity; exists []; rewrite app_nil_r;
      split; reflexivity.
  - apply andb_true_iff in Hall as [Hc Hall].
    destruct (process_row_cached r s t Hst Hc) as (a & st & e & Hs & Ht).
    unfold bind.
    pose proof (process_row_returns r s) as Hrs.
    pose proof (process_row_returns r t) as Hrt.
    destruct (process_row r s) as [s1 os], (process_row r t) as [t1 ot].
    cbn [fst snd] in *. subst os ot.
    assert (Hst1 : cache s1 = cache t1).
    { destruct Hs as (_ & _ & -> & _), Ht as (_ & _ & -> & _). exact Hst. }
    assert (Hall1 : forallb (row_cached (cache s1)) rs = true).
    { destruct Hs as (_ & _ & -> & _). exact Hall. }
    destruct (IH s1 t1 Hst1 Hall1) as (la & ls & le & Hs' & Ht').
    exists (a :: la), (st :: ls), (e :: le).
    split; [exact (extends_trans _ _ _ _ _ _ _ _ _ Hs Hs')
           | exact (extends_trans _ _ _ _ _ _ _ _ _ Ht Ht')].
Qed.


(** The job, with the binds of its straight-line part carried out. *)
Lemma run_unfold df (s : state) :
  process_csv_and_save df s =
    let s0 := fst (set_cache (default ∅ (cache_file s)) s) in
    if validate_columns df required_columns
    then finish df (fst (for_each (rows df) process_row
                           (fst (set_openai_lists [] [] [] s0))))
    else (s0, Ret tt).
Proof.
  unfold Validation.process_csv_and_save.
  unfold bind at 1. cbn [load_cache gets]. unfold bind at 1.
  cbn [set_cache modify fst].
  destruct (validate_columns df required_columns); cbn [negb]; [|reflexivity].
  unfold bind at 1. cbn [set_openai_lists modify fst].
  set (s0 := mkState _ _ _ _ _ _ _ _ _ _ _).
  pose proof (rows_loop_returns (rows df) s0) as Hr.
  unfold bind at 1.
  destruct (for_each (rows df) process_row s0) as [s1 o]. cbn [fst snd] in *.
  subst o. reflexivity.
Qed.

(** The job from two states with the same cache file, when the file
    holds every key the input needs. *)
Lemma run_cached df (s t : state) :
  cache_file s = cache_file t ->
  all_cached (default ∅ (cache_file s)) df = true ->
  let s1 := fst (process_csv_and_save df s) in
  let t1 := fst (process_csv_and_save df t) in
  cache_file s1 = cache_file s
  /\ client s1 = client s
  /\ cache s1 = default ∅ (cache_file s)
  /\ (exists extra, calls s1 = (calls s ++ extra)%list /\ forallb is_read extra = true)
  /\ if validate_columns df required_columns
     then results s1 = results t1 /\ output_csv s1 = output_csv t1
          /\ is_Some (output_csv s1)
     else results s1 = results s /\ output_csv s1 = output_csv s.
Proof.
  intros Hst Hall. unfold Validation.all_cached in Hall.
  rewrite !run_unfold. rewrite <- Hst. cbn zeta.
  destruct (validate_columns df required_columns).
  2:{ cbn. repeat split; try reflexivity. exists []. rewrite app_nil_r. split; reflexivity. }
  set (s0 := fst (set_openai_lists [] [] [] (fst (set_cache _ s)))).
  set (t0 := fst (set_openai_lists [] [] [] (fst (set_cache _ t)))).
  destruct (rows_loop_cached (rows df) s0 t0 eq_refl Hall) as (la & ls & le & Hs & Ht).
  pose proof (rows_loop_lengths (rows df) s0) as (Hls & Hls2 & Hls3).
  pose proof (rows_loop_lengths (rows df) t0) as (Hlt & Hlt2 & Hlt3).
  destruct (for_each (rows df) process_row s0) as [s1 os].
  destruct (for_each (rows df) process_row t0) as [t1 ot].
  cbn [fst snd] in *.
  rewrite (finish_writes df s1 Hls Hls2 Hls3), (finish_writes df t1 Hlt Hlt2 Hlt3).
  cbn [set_output_csv modify fst].
  destruct Hs as (Hf & Hc & Hm & Ho & Hx & Hr), Ht as (Hf' & Hc' & Hm' & Ho' & Hx' & Hr').
  unfold Validation.results in *. cbn in Hr, Hr'.
  injection Hr as Ha Hb Hd. injection Hr' as Ha' Hb' Hd'.
  cbn. repeat split; try assumption; try congruence. eauto.
Qed.

(** C9: when the cache file holds the key of every known code of every
    row, a run makes no request to the client, writes neither the cache
    nor its file, and only reads; a second run over the same input
    leaves the cache as it is again and produces the same three columns
    and the same CSV as the first; and so does a run from any other
    state that has the same cache file. *)
Theorem cached_run_idempotent (df : dataframe) (s : state) :
  all_cached (default ∅ (cache_file s)) df = true ->
  let s1 := fst (process_csv_and_save df s) in
  let s2 := fst (process_csv_and_save df s1) in
  (cache_file s1 = cache_file s
   /\ cache s1 = default ∅ (cache_file s)
   /\ client s1 = client s
   /\ exists extra, calls s1 = (calls s ++ extra)%list /\ forallb is_read extra = true)
  /\ (cache_file s2 = cache_file s1
      /\ cache s2 = cache s1
      /\ client s2 = client s1
      /\ exists extra, calls s2 = (calls s1 ++ extra)%list
                       /\ forallb is_read extra = true)
  /\ results s2 = results s1
  /\ output_csv s2 = output_csv s1
  /\ (validate_columns df required_columns = true ->
      forall t : state,
        cache_file t = cache_file s ->
        results (fst (process_csv_and_save df t)) = results s1
        /\ output_csv (fst (process_csv_and_save df t)) = output_csv s1).
Proof.
  intros Hall s1 s2.
  destruct (run_cached df s s eq_refl Hall) as (Hf & Hc & Hm & Hx & _).
  fold s1 in Hf, Hc, Hm, Hx.
  assert (Hall1 : all_cached (default ∅ (cache_file s1)) df = true)
    by (rewrite Hf; exact Hall).
  destruct (run_cached df s1 s Hf Hall1) as (Hf2 & Hc2 & Hm2 & Hx2 & H2).
  fold s1 s2 in Hf2, Hc2, Hm2, Hx2, H2.
  split; [tauto|].
  split; [split; [exact Hf2 | split; [congruence | split; [exact Hc2 | exact Hx2]]]|].
  assert (Hres : results s2 = results s1 /\ output_csv s2 = output_csv s1).
  { revert H2. destruct (validate_columns df required_columns).
    - intros (? & ? & _). split; assumption.
    - intros (? & ?). split; assumption. }
  destruct Hres as [Hr Ho]. split; [exact Hr|]. split; [exact Ho|].
  intros Hv t Ht.
  destruct (run_cached df t s Ht) as (_ & _ & _ & _ & H); [rewrite Ht; exact Hall|].
  rewrite Hv in H. destruct H as (? & ? & _). split; assumption.
Qed.

End RowProcessorFacts.

(** ** The geocoding client and the map *)

Section GeocodingFacts.

Import Mapping.

Context {T : Type}.
Variable requests_get : T -> string -> T * outcome response.
Variable float : string -> outcome spec_float.

Local Abbreviation state := (@state T).
Local Abbreviation http_get := (http_get requests_get).
Local Abbreviation attempts := (attempts requests_get float).
Local Abbreviation get_osm_coordinates := (get_osm_coordinates requests_get float).
Local Abbreviation visit_city := (visit_city requests_get float).
Local Abbreviation generate_germany_map := (generate_germany_map requests_get float).
Local Abbreviation all_fail := (all_fail requests_get).
Local Abbreviation after_failures := (after_failures requests_get).
Local Abbreviation net_after := (net_after requests_get).

(** The part of the state the client never writes. *)
Local Abbreviation data :=
  (fun s : state => (cache_file s, city_coords_cache s, city_coords s, uncached_cities s)).

Example backoffs_default :
  backoffs default_backoff_factor (Z.to_nat default_retries) = [1; 2; 4; 8; 16]%Z.
Proof. reflexivity. Qed.

Lemma backoffs_lookup n : forall b i,
  i < n -> backoffs b n !! i = Some (b * 2 ^ Z.of_nat i)%Z.
Proof.
  induction n as [|n IH]; intros b i Hi; [lia|].
  destruct i as [|i]; cbn [backoffs].
  - change ((b :: backoffs (b * 2) n) !! 0) with (Some b). f_equal. cbn. lia.
  - change ((b :: backoffs (b * 2) n) !! S i) with (backoffs (b * 2) n !! i).
    rewrite (IH (b * 2)%Z i) by lia. f_equal.
    rewrite Nat2Z.inj_succ, Z.pow_succ_r by lia. lia.
Qed.

Lemma dict_truthy_of_lookup {A} (m : gmap string A) k v :
  m !! k = Some v -> Py.dict_truthy m = true.
Proof.
  intros H. unfold Py.dict_truthy. apply negb_true_iff, Nat.eqb_neq.
  intros H0. apply map_size_empty_iff in H0. subst m.
  rewrite lookup_empty in H. discriminate.
Qed.

(** C2: for a city that is a key of the cache given to
    [get_osm_coordinates], the call returns the cached value and leaves
    the whole state as it was: no request is sent and no sleep is made,
    whatever the transport would answer. *)
Theorem cached_city_no_request (city country : string)
    (m : gmap string (pyval * pyval)) (v : pyval * pyval)
    (retries backoff_factor : Z) (s : state) :
  m !! city = Some v ->
  get_osm_coordinates city country (Some m) retries backoff_factor s = (s, Ret v).
Proof.
  intros H. unfold Mapping.get_osm_coordinates.
  rewrite (dict_truthy_of_lookup m city v H). unfold Py.contains.
  rewrite bool_decide_eq_true_2 by eauto. cbn [andb].
  unfold lift, Py.getitem. rewrite H. reflexivity.
Qed.

Lemma found_false_iff (r : response) :
  found r = false <-> status_code r <> 200%Z \/ json r = [].
Proof.
  unfold found. rewrite andb_false_iff, Z.eqb_neq.
  destruct (json r); cbn; split; intros [H|H]; auto; discriminate.
Qed.

(** A wait within the bounds is made and recorded. *)
Lemma sleep_waitable b (s : state) :
  waitable b = true ->
  sleep b s =
    (mkState (net s) (requests s) (sleeps s ++ [b]) (cache_file s)
       (city_coords_cache s) (city_coords s) (uncached_cities s), Ret tt).
Proof.
  unfold waitable, max_wait. intros [H0 H1]%andb_true_iff.
  apply Z.leb_le in H0, H1. unfold sleep. cbv zeta.
  rewrite (proj2 (Z.ltb_ge _ _)) by lia.
  rewrite (proj2 (Z.ltb_ge _ _)) by lia.
  rewrite (proj2 (Z.ltb_ge _ _)) by lia.
  reflexivity.
Qed.

Lemma sleep_preserves_data b : preserves data (sleep b).
Proof.
  intros s. unfold sleep. cbv zeta.
  destruct (_ || _); [reflexivity|]. destruct (b <? 0)%Z; reflexivity.
Qed.

(** What a wait leaves: the state as it was when it raises, and one
    more recorded wait when it returns. *)
Lemma sleep_cases b (s : state) :
  sleep b s =
    (mkState (net s) (requests s) (sleeps s ++ [b]) (cache_file s)
       (city_coords_cache s) (city_coords s) (uncached_cities s), Ret tt)
  \/ exists e, sleep b s = (s, Raise e).
Proof.
  unfold sleep. cbv zeta.
  destruct (_ || _); [right; eexists; reflexivity|].
  destruct (b <? 0)%Z; [right; eexists; reflexivity | left; reflexivity].
Qed.

Lemma sleep_one (s : state) :
  sleep 1 s =
    (mkState (net s) (requests s) (sleeps s ++ [1%Z]) (cache_file s)
       (city_coords_cache s) (city_coords s) (uncached_cities s), Ret tt).
Proof. apply sleep_waitable. reflexivity. Qed.

Lemma backoffs_waitable_cons b n :
  forallb waitable (backoffs b (S n)) = true ->
  waitable b = true /\ forallb waitable (backoffs (b * 2) n) = true.
Proof. cbn [backoffs forallb]. intros H%andb_true_iff. exact H. Qed.

(** One failed attempt: the answer is not a 200 with results, so the
    loop sleeps for the current backoff, doubles it and goes on. *)
Lemma attempt_fails url n b (s : state) t' r :
  waitable b = true ->
  requests_get (net s) url = (t', Ret r) ->
  found r = false ->
  attempts url (S n) b s = attempts url n (b * 2) (after_failures url 1 b s).
Proof.
  intros Hb Hg Hf. cbn [Mapping.attempts]. unfold bind at 1. unfold Mapping.http_get.
  rewrite Hg. fold (found r). rewrite Hf.
  unfold Mapping.after_failures. cbn [Mapping.net_after repeat backoffs].
  rewrite Hg. cbn [fst].
  destruct (status_code r =? 429)%Z; unfold bind at 1; rewrite (sleep_waitable b _ Hb);
    reflexivity.
Qed.

Lemma after_failures_succ url k b (s : state) :
  after_failures url k (b * 2) (after_failures url 1 b s) = after_failures url (S k) b s.
Proof.
  unfold Mapping.after_failures. cbn -[Z.mul]. rewrite <- !app_assoc. reflexivity.
Qed.

(** [k] failed attempts in a row. *)
Lemma attempts_fail_prefix url k : forall n b (s : state),
  forallb waitable (backoffs b k) = true ->
  all_fail url k (net s) = true ->
  attempts url (k + n) b s
  = attempts url n (b * 2 ^ Z.of_nat k) (after_failures url k b s).
Proof.
  induction k as [|k IH]; intros n b s Hw Hall.
  - cbn [Nat.add]. replace (b * 2 ^ Z.of_nat 0)%Z with b by (cbn; lia).
    unfold Mapping.after_failures. cbn. rewrite !app_nil_r. destruct s; reflexivity.
  - cbn [Mapping.all_fail] in Hall.
    destruct (requests_get (net s) url) as [t' [r|e]] eqn:Hg; [|discriminate].
    apply andb_true_iff in Hall as [Hf Hall]. apply negb_true_iff in Hf.
    apply backoffs_waitable_cons in Hw as [Hb Hw].
    cbn [Nat.add]. rewrite (attempt_fails url (k + n) b s t' r Hb Hg Hf).
    rewrite IH.
    + rewrite after_failures_succ. f_equal.
      rewrite Nat2Z.inj_succ, Z.pow_succ_r by lia. lia.
    + exact Hw.
    + unfold Mapping.after_failures. cbn. rewrite Hg. exact Hall.
Qed.

(** C3: for a city that is not in the cache, an attempt answered with
    429, with another status than 200, or with a 200 without results
    sleeps for the current backoff and doubles it; when each of the
    [retries] attempts is answered so, [get_osm_coordinates] has sent
    [retries] requests, has slept for the backoff, twice the backoff,
    and so on, and returns [(None, None)].  The waits are those that
    [time.sleep] makes: not negative and of at most [max_wait] seconds.
    With the default arguments that is five attempts and sleeps of 1, 2,
    4, 8 and 16 seconds. *)
Theorem failed_attempts_back_off (city country : string)
    (cache : option (gmap string (pyval * pyval)))
    (retries backoff_factor : Z) (s : state) :
  uncached cache city = true ->
  let url := search_url city country in
  (forall n b (s' : state) t' r,
      waitable b = true ->
      requests_get (net s') url = (t', Ret r) ->
      status_code r = 429%Z \/ status_code r <> 200%Z \/ json r = [] ->
      attempts url (S n) b s' = attempts url n (b * 2) (after_failures url 1 b s'))
  /\ (forallb waitable (backoffs backoff_factor (Z.to_nat retries)) = true ->
      all_fail url (Z.to_nat retries) (net s) = true ->
      get_osm_coordinates city country cache retries backoff_factor s
      = (after_failures url (Z.to_nat retries) backoff_factor s, Ret (PyNone, PyNone)))
  /\ backoffs default_backoff_factor (Z.to_nat default_retries) = [1; 2; 4; 8; 16]%Z
  /\ forallb waitable (backoffs default_backoff_factor (Z.to_nat default_retries)) = true.
Proof.
  intros Hu url. split; [|split; [|split; reflexivity]].
  - intros n b s' t' r Hb Hg Hr. apply (attempt_fails url n b s' t' r Hb Hg).
    apply found_false_iff. destruct Hr as [Hr|[Hr|Hr]]; [left; lia | auto | auto].
  - intros Hw Hall.
    assert (Hat : attempts url (Z.to_nat retries) backoff_factor s
                  = (after_failures url (Z.to_nat retries) backoff_factor s,
                     Ret (PyNone, PyNone))).
    { rewrite <- (Nat.add_0_r (Z.to_nat retries)) at 1.
      rewrite (attempts_fail_prefix url _ 0 _ s Hw Hall). reflexivity. }
    unfold Mapping.get_osm_coordinates. fold url.
    destruct cache as [m|]; [|exact Hat].
    cbn [uncached] in Hu. apply negb_true_iff in Hu. rewrite Hu, andb_false_r.
    exact Hat.
Qed.


(** *** The loop over the cities *)

Lemma http_get_preserves_data url : preserves data (http_get url).
Proof.
  intros s. unfold Mapping.http_get.
  destruct (requests_get (net s) url) as [t' o]. reflexivity.
Qed.

Lemma attempts_preserves_data url n : forall b, preserves data (attempts url n b).
Proof.
  induction n as [|n IH]; intros b; cbn [Mapping.attempts].
  - apply preserves_ret.
  - apply preserves_bind; [apply http_get_preserves_data|]. intros r.
    destruct ((status_code r =? 200)%Z && Py.list_truthy (json r)).
    + repeat (apply preserves_bind; [apply preserves_lift | intros ?]).
      apply preserves_ret.
    + destruct (status_code r =? 429)%Z;
        (apply preserves_bind; [apply sleep_preserves_data | intros _; apply IH]).
Qed.

Lemma get_osm_coordinates_preserves_data city country cache retries b :
  preserves data (get_osm_coordinates city country cache retries b).
Proof.
  unfold Mapping.get_osm_coordinates. destruct cache as [m|].
  - destruct (Py.dict_truthy m && Py.contains m city);
      [apply preserves_lift | apply attempts_preserves_data].
  - apply attempts_preserves_data.
Qed.

Lemma unplaced_data c (s s' : state) : data s' = data s -> unplaced c s -> unplaced c s'.
Proof. unfold unplaced. intros [= -> -> -> _]. auto. Qed.

(** Visiting another city leaves [c] without coordinates. *)
Lemma visit_other_city c city :
  city <> c -> invariant (unplaced c) (visit_city city).
Proof.
  intros Hne s (Hc & Hp & Hf). unfold Mapping.visit_city.
  unfold bind at 1. cbn [gets].
  destruct (Py.contains (city_coords_cache s) city).
  - unfold bind, lift, gets, set_city_coords, modify.
    destruct (Py.getitem (city_coords_cache s) city) as [v|e]; cbn [fst].
    + unfold unplaced. cbn. rewrite lookup_insert_ne by exact Hne. auto.
    + unfold unplaced. auto.
  - unfold bind at 1. unfold append_uncached, bind at 1.
    cbn [gets set_uncached_cities modify].
    set (s0 := mkState _ _ _ _ _ _ _).
    assert (H0 : unplaced c s0) by (unfold unplaced; cbn; auto).
    pose proof (get_osm_coordinates_preserves_data city "Germany"
                  (Some (city_coords_cache s)) default_retries
                  default_backoff_factor s0) as Hd.
    unfold bind at 1.
    destruct (get_osm_coordinates _ _ _ _ _ s0) as [s1 [[lat lon]|e]]; cbn [fst] in *.
    + apply (unplaced_data c _ _ Hd) in H0. destruct H0 as (Hc1 & Hp1 & Hf1).
      destruct (truthy lat && truthy lon); [|unfold unplaced; auto].
      unfold bind, gets, set_city_coords, set_city_coords_cache, modify.
      rewrite sleep_one.
      unfold unplaced. cbn. rewrite !lookup_insert_ne by exact Hne. auto.
    + exact (unplaced_data c _ _ Hd H0).
Qed.

(** Visiting [c] itself when the lookup returns a zero latitude or a
    zero longitude: nothing is stored and no courtesy sleep is made. *)
Lemma visit_zero_coordinate c (s1 s2 : state) la lo :
  city_coords_cache s1 !! c = None ->
  get_osm_coordinates c "Germany" (Some (city_coords_cache s1))
    default_retries default_backoff_factor (fst (append_uncached c s1))
  = (s2, Ret (PyFloat la, PyFloat lo)) ->
  Py.float_is_zero la || Py.float_is_zero lo = true ->
  visit_city c s1 = (s2, Ret tt).
Proof.
  intros Hc Hg Hz. unfold Mapping.visit_city. unfold bind at 1. cbn [gets].
  unfold Py.contains. rewrite Hc.
  rewrite bool_decide_eq_false_2 by (intros [? ?]; discriminate).
  unfold bind at 1.
  pose proof (eq_refl : snd (append_uncached c s1) = Ret tt) as Ho.
  destruct (append_uncached c s1) as [s0 o]. cbn [fst snd] in Hg, Ho. subst o.
  unfold bind at 1. rewrite Hg.
  unfold truthy, Py.float_truthy.
  apply orb_true_iff in Hz as [-> | ->]; cbn [negb andb]; [|rewrite andb_false_r];
    reflexivity.
Qed.

Lemma unique_from_fresh seen l x :
  x ∈ unique_from seen l -> x ∉ seen.
Proof.
  revert seen. induction l as [|y l IH]; intros seen; cbn [unique_from].
  - intros H. inversion H.
  - case_bool_decide as Hy.
    + apply IH.
    + intros [->|H]%elem_of_cons; [exact Hy|].
      apply IH in H. intros Hx. apply H. right. exact Hx.
Qed.

Lemma unique_from_NoDup seen l : NoDup (unique_from seen l).
Proof.
  revert seen. induction l as [|y l IH]; intros seen; cbn [unique_from].
  - constructor.
  - case_bool_decide as Hy; [apply IH|].
    constructor; [|apply IH].
    intros H%unique_from_fresh. apply H. left.
Qed.

Lemma unique_NoDup l : NoDup (unique l).
Proof. apply unique_from_NoDup. Qed.

(** A point is drawn only for a city that has coordinates. *)
Lemma strategy_points_placed dfg (coords : gmap string (pyval * pyval)) strategy p :
  In p (strategy_points dfg coords strategy) -> is_Some (coords !! point_city p).
Proof.
  unfold strategy_points. rewrite in_flat_map. intros (city & _ & Hp).
  destruct (0 <? _)%nat; [|destruct Hp].
  destruct (coords !! city) as [[lat lon]|] eqn:Hc; [|destruct Hp].
  destruct Hp as [<-|[]]. cbn. rewrite Hc. eauto.
Qed.

Lemma combined_points_placed dfg (coords : gmap string (pyval * pyval)) p :
  In p (combined_points dfg coords) -> is_Some (coords !! point_city p).
Proof.
  unfold combined_points. rewrite in_flat_map. intros (strategy & _ & Hp).
  exact (strategy_points_placed _ _ _ _ Hp).
Qed.


Lemma start_map_eq (s : state) :
  start_map s =
    (mkState (net s) (requests s) (sleeps s) (cache_file s)
       (default ∅ (cache_file s)) ∅ [], Ret tt).
Proof. reflexivity. Qed.

Lemma visit_cities_unplaced c cities :
  c ∉ cities -> invariant (unplaced c) (for_each cities visit_city).
Proof.
  intros Hc. apply invariant_for_each. intros city Hin.
  apply visit_other_city. intros ->. apply Hc, list_elem_of_In, Hin.
Qed.

(** C10: a city that is not in the cache and whose lookup returns a
    latitude or a longitude equal to zero is treated like a city that
    was not found.  Visiting it ends in the state the lookup returned,
    so nothing is stored and the one-second sleep is not made; the
    city has coordinates neither in the cache, nor in the cache file,
    nor among the cities to plot, when [generate_germany_map] ends; and
    no point is drawn for it, on the combined map or on the map of a
    strategy. *)
Theorem zero_coordinate_city_skipped (df : list company) (s0 s1 s2 : state)
    (pre post : list string) (c : string) (la lo : spec_float) :
  unique (map City (germany df)) = (pre ++ c :: post)%list ->
  default ∅ (cache_file s0) !! c = None ->
  (start_map ;; for_each pre visit_city) s0 = (s1, Ret tt) ->
  get_osm_coordinates c "Germany" (Some (city_coords_cache s1))
    default_retries default_backoff_factor (fst (append_uncached c s1))
  = (s2, Ret (PyFloat la, PyFloat lo)) ->
  Py.float_is_zero la || Py.float_is_zero lo = true ->
  visit_city c s1 = (s2, Ret tt)
  /\ unplaced c s2
  /\ unplaced c (fst (generate_germany_map df s0))
  /\ forall maps,
       snd (generate_germany_map df s0) = Ret maps ->
       (forall p, In p (fst maps) -> point_city p <> c)
       /\ (forall strategy points,
             In (strategy, points) (snd maps) ->
             forall p, In p points -> point_city p <> c).
Proof.
  intros Hu Hfile Hpre Hg Hz.
  pose proof (unique_NoDup (map City (germany df))) as Hnd. rewrite Hu in Hnd.
  apply NoDup_app in Hnd as (_ & Hpre_c & Hnd).
  apply NoDup_cons in Hnd as (Hpost_c & _).
  assert (Hc_pre : c ∉ pre) by (intros Hin; apply (Hpre_c c Hin); left).
  unfold bind in Hpre. rewrite start_map_eq in Hpre.
  set (sA := mkState _ _ _ _ _ _ _) in Hpre.
  assert (HA : unplaced c sA)
    by (unfold unplaced; cbn; split; [exact Hfile | split; [apply lookup_empty | exact Hfile]]).
  assert (H1 : unplaced c s1).
  { pose proof (visit_cities_unplaced c pre Hc_pre sA HA) as H.
    rewrite Hpre in H. exact H. }
  assert (Hv : visit_city c s1 = (s2, Ret tt))
    by (destruct H1 as (Hc1 & _); exact (visit_zero_coordinate c s1 s2 la lo Hc1 Hg Hz)).
  assert (H2 : unplaced c s2).
  { pose proof (get_osm_coordinates_preserves_data c "Germany"
                  (Some (city_coords_cache s1)) default_retries
                  default_backoff_factor (fst (append_uncached c s1))) as Hd.
    rewrite Hg in Hd. cbn [fst] in Hd.
    apply (unplaced_data c _ _ Hd). unfold unplaced, append_uncached, bind.
    cbn. exact H1. }
  split; [exact Hv|]. split; [exact H2|].
  destruct (generate_germany_map df s0) as [sf res] eqn:Hgen. cbn [fst snd].
  revert Hgen. unfold Mapping.generate_germany_map. rewrite Hu.
  unfold bind at 1. rewrite start_map_eq. fold sA.
  unfold bind at 1. rewrite for_each_app, Hpre.
  cbn [for_each]. unfold bind at 1. rewrite Hv.
  pose proof (visit_cities_unplaced c post Hpost_c s2 H2) as H3.
  destruct (for_each post visit_city s2) as [s3 [[]|e]]; cbn [fst] in H3.
  - destruct H3 as (Hc3 & Hp3 & Hf3).
    unfold bind, gets, save_cache, set_cache_file, modify, ret. cbn.
    intros [= <- <-]. split; [unfold unplaced; cbn; auto|].
    intros maps [= <-]. cbn [fst snd]. split.
    + intros p Hp Heq.
      apply combined_points_placed in Hp as [v Hv']. rewrite Heq, Hp3 in Hv'.
      discriminate.
    + intros strategy points Hin p Hp Heq.
      apply in_map_iff in Hin as (strategy' & [= _ <-] & _).
      apply strategy_points_placed in Hp as [v Hv']. rewrite Heq, Hp3 in Hv'.
      discriminate.
  - intros [= <- <-]. split; [exact H3 | intros maps Hm; discriminate].
Qed.

End GeocodingFacts.

(** ** The statements at sample inputs *)

Section Samples.

Import Sample.

Local Abbreviation run :=
  (Validation.process_csv_and_save re_strategies construct_prompt agreeing_client).

(** Two rows, the first with an unknown code in its second slot. *)
Example unknown_code_among_known :
  let s := fst (run companies (start None)) in
  Validation.output_csv s
  = Some (Validation.mkOutput [acme; bolt]
            ["Agree, Invalid"; "Agree"]
            ["R2, Invalid strategy code: R9"; "R2"]
            [", "; ""])
  /\ Validation.client s = 2.
Proof. vm_compute. split; reflexivity. Qed.


(** C7, as stated, fails: the client raises "connection refused" while
    the row is processed, and the explanation recorded for the row is
    the fixed text of [handle_row_error], not that message. *)
Lemma row_error_message_not_recorded :
  let r := Validation.process_row re_strategies construct_prompt failing_client
             bolt (start None) in
  snd (Validation.row_body re_strategies construct_prompt failing_client
         bolt (start None)) = Raise connection_refused
  /\ Validation.results (fst r) = (["Error"], ["Error"], ["Error in OpenAI response"])
  /\ Validation.results (fst r)
     <> (["Error"], ["Error"], [exn_message connection_refused]).
Proof. vm_compute. split; [reflexivity | split; [reflexivity | discriminate]]. Qed.

Lemma row_error_recorded_witness :
  Validation.row_body re_strategies construct_prompt failing_client bolt (start None)
  = (fst (Validation.row_body re_strategies construct_prompt failing_client
            bolt (start None)), Raise connection_refused)
  /\ Validation.results
       (fst (Validation.process_row re_strategies construct_prompt failing_client
               bolt (start None)))
     = (["Error"], ["Error"], ["Error in OpenAI response"]).
Proof.
  assert (H : Validation.row_body re_strategies construct_prompt failing_client
                bolt (start None)
              = (fst (Validation.row_body re_strategies construct_prompt
                        failing_client bolt (start None)), Raise connection_refused))
    by (vm_compute; reflexivity).
  split; [exact H|].
  exact (proj1 (proj2 (row_error_recorded re_strategies construct_prompt
                         failing_client bolt (start None) _ _ H))).
Defined.

Lemma row_count_checked_witness :
  Validation.validate_columns companies Validation.required_columns = true
  /\ (length (Validation.openai_agreements lost_strategy)
      < length (Validation.rows companies)
      \/ length (Validation.openai_strategies lost_strategy)
         < length (Validation.rows companies)
      \/ length (Validation.openai_explanations lost_strategy)
         < length (Validation.rows companies))
  /\ (length (Validation.openai_agreements one_entry)
      <> length (Validation.rows companies)
      \/ Validation.rows companies <> []
         /\ (length (Validation.openai_strategies one_entry)
             <> length (Validation.rows companies)
             \/ length (Validation.openai_explanations one_entry)
                <> length (Validation.rows companies)))
  /\ Validation.output_csv (fst (run companies (start None)))
     = Some (Validation.mkOutput [acme; bolt]
               ["Agree, Invalid"; "Agree"]
               ["R2, Invalid strategy code: R9"; "R2"]
               [", "; ""])
  /\ (exists e,
        exn_class e = "ValueError"
        /\ Validation.finish companies lost_strategy = (lost_strategy, Raise e))
  /\ exists e,
       exn_class e = "ValueError"
       /\ Validation.finish companies one_entry = (one_entry, Raise e).
Proof.
  assert (Hv : Validation.validate_columns companies Validation.required_columns
               = true) by (vm_compute; reflexivity).
  assert (Hlt : length (Validation.openai_agreements lost_strategy)
                < length (Validation.rows companies)
                \/ length (Validation.openai_strategies lost_strategy)
                   < length (Validation.rows companies)
                \/ length (Validation.openai_explanations lost_strategy)
                   < length (Validation.rows companies))
    by (right; left; cbn; lia).
  assert (Hm : length (Validation.openai_agreements one_entry)
               <> length (Validation.rows companies)
               \/ Validation.rows companies <> []
                  /\ (length (Validation.openai_strategies one_entry)
                      <> length (Validation.rows companies)
                      \/ length (Validation.openai_explanations one_entry)
                         <> length (Validation.rows companies)))
    by (left; cbn; lia).
  split; [exact Hv|]. split; [exact Hlt|]. split; [exact Hm|]. split; [|split].
  - exact (proj2 (proj1 (proj2 (proj2
             (row_count_checked re_strategies construct_prompt agreeing_client
                companies (start None) lost_strategy))) Hv)).
  - exact (proj1 (proj2 (proj2 (proj2
             (row_count_checked re_strategies construct_prompt agreeing_client
                companies (start None) lost_strategy)))) Hlt).
  - exact (proj2 (proj2 (proj2 (proj2
             (row_count_checked re_strategies construct_prompt agreeing_client
                companies (start None) one_entry)))) Hm).
Defined.

(** The entry that was lost is found by pandas, when the column of the
    strategies is added: the check of the program passes, as it counts
    the agreements. *)
Example lost_strategy_not_written :
  Validation.finish companies lost_strategy
  = (lost_strategy,
     Raise (mkExn "ValueError"
              "Length of values (1) does not match length of index (2)")).
Proof. vm_compute. reflexivity. Qed.

(** A frame without rows takes the index of the first non-empty list:
    two lines are written, empty but for the last column. *)
Example empty_frame_takes_index :
  Validation.setitem
    (Validation.mkOutput [] [] [] []) Validation.put_explanation ["a"; "b"]
  = Ret (Validation.mkOutput [Validation.blank_row; Validation.blank_row]
           [""; ""] [""; ""] ["a"; "b"]).
Proof. reflexivity. Qed.

Lemma cached_run_idempotent_witness :
  Validation.all_cached re_strategies full_cache companies = true
  /\ Validation.output_csv (fst (run companies (fst (run companies (start (Some full_cache))))))
     = Validation.output_csv (fst (run companies (start (Some full_cache)))).
Proof.
  assert (H : Validation.all_cached re_strategies
                (default ∅ (Validation.cache_file (start (Some full_cache))))
                companies = true) by (vm_compute; reflexivity).
  split; [exact H|].
  exact (proj1 (proj2 (proj2 (proj2
           (cached_run_idempotent re_strategies construct_prompt agreeing_client
              companies (start (Some full_cache)) H))))).
Defined.

(** The run over the full cache: the client is never called. *)
Example cached_run_columns :
  let s := fst (run companies (start (Some full_cache))) in
  Validation.output_csv s
  = Some (Validation.mkOutput [acme; bolt]
            ["Agree, Invalid"; "Disagree"]
            ["R2, Invalid strategy code: R9"; "R3"]
            [", "; "wrong category"])
  /\ Validation.client s = 0.
Proof. vm_compute. split; reflexivity. Qed.

Lemma cached_city_no_request_witness :
  berlin_cache !! "Berlin" = Some (Mapping.PyFloat fifty_two, Mapping.PyFloat thirteen)
  /\ Mapping.get_osm_coordinates scripted float "Berlin" "Germany" (Some berlin_cache)
       5 1 (geo_start [too_many_requests])
     = (geo_start [too_many_requests],
        Ret (Mapping.PyFloat fifty_two, Mapping.PyFloat thirteen)).
Proof.
  assert (H : berlin_cache !! "Berlin"
              = Some (Mapping.PyFloat fifty_two, Mapping.PyFloat thirteen))
    by (vm_compute; reflexivity).
  split; [exact H|].
  exact (cached_city_no_request scripted float "Berlin" "Germany" berlin_cache _
           5 1 (geo_start [too_many_requests]) H).
Defined.

Lemma failed_attempts_back_off_witness :
  Mapping.uncached (@None (gmap string (Mapping.pyval * Mapping.pyval))) "Berlin" = true
  /\ forallb Mapping.waitable (Mapping.backoffs 1 (Z.to_nat 5)) = true
  /\ Mapping.all_fail scripted (Mapping.search_url "Berlin" "Germany") 5
       (repeat too_many_requests 5) = true
  /\ Mapping.get_osm_coordinates scripted float "Berlin" "Germany" None 5 1
       (geo_start (repeat too_many_requests 5))
     = (Mapping.after_failures scripted (Mapping.search_url "Berlin" "Germany") 5 1
          (geo_start (repeat too_many_requests 5)),
        Ret (Mapping.PyNone, Mapping.PyNone)).
Proof.
  assert (Hu : Mapping.uncached
                 (@None (gmap string (Mapping.pyval * Mapping.pyval))) "Berlin" = true)
    by reflexivity.
  assert (Hw : forallb Mapping.waitable (Mapping.backoffs 1 (Z.to_nat 5)) = true)
    by (vm_compute; reflexivity).
  assert (Hf : Mapping.all_fail scripted (Mapping.search_url "Berlin" "Germany")
                 (Z.to_nat 5)
                 (Mapping.net (geo_start (repeat too_many_requests 5))) = true)
    by (vm_compute; reflexivity).
  split; [exact Hu|]. split; [exact Hw|]. split; [exact Hf|].
  exact (proj1 (proj2 (failed_attempts_back_off scripted float "Berlin" "Germany"
                         None 5 1 (geo_start (repeat too_many_requests 5)) Hu))
           Hw Hf).
Defined.

(** A negative backoff: the first wait is refused by [time.sleep], and
    the exception leaves [get_osm_coordinates] after one request. *)
Example negative_backoff_raises :
  Mapping.get_osm_coordinates scripted float "Berlin" "Germany" None 5 (-2)
    (geo_start (repeat too_many_requests 5))
  = (Mapping.mkState (repeat too_many_requests 4)
       [Mapping.search_url "Berlin" "Germany"] [] None ∅ ∅ [],
     Raise (mkExn "ValueError" "sleep length must be non-negative")).
Proof. vm_compute. reflexivity. Qed.

(** Five answers 429 with the default arguments: five requests, and
    sleeps of 1, 2, 4, 8 and 16 seconds. *)
Example five_rate_limits :
  let r := Mapping.get_osm_coordinates scripted float "Berlin" "Germany" None
             Mapping.default_retries Mapping.default_backoff_factor
             (geo_start (repeat too_many_requests 5)) in
  snd r = Ret (Mapping.PyNone, Mapping.PyNone)
  /\ Mapping.sleeps (fst r) = [1; 2; 4; 8; 16]%Z
  /\ length (Mapping.requests (fst r)) = 5.
Proof. vm_compute. repeat split; reflexivity. Qed.

(** Two answers 429, then a result: two sleeps, and the coordinates. *)
Example two_rate_limits_then_found :
  let r := Mapping.get_osm_coordinates scripted float "Berlin" "Germany" None
             Mapping.default_retries Mapping.default_backoff_factor
             (geo_start [too_many_requests; too_many_requests;
                         Mapping.mkResponse 200 [Mapping.mkPlace "52.0" "13.0"]]) in
  snd r = Ret (Mapping.PyFloat fifty_two, Mapping.PyFloat thirteen)
  /\ Mapping.sleeps (fst r) = [1; 2]%Z
  /\ length (Mapping.requests (fst r)) = 3.
Proof. vm_compute. repeat split; reflexivity. Qed.

Lemma zero_coordinate_city_skipped_witness :
  Mapping.unplaced "Nullstadt"
    (fst (Mapping.generate_germany_map scripted float one_company
            (geo_start [null_island]))).
Proof.
  pose (s0 := geo_start [null_island]).
  pose (s1 := fst (Mapping.start_map s0)).
  pose (s2 := fst (Mapping.get_osm_coordinates scripted float "Nullstadt" "Germany"
                     (Some (Mapping.city_coords_cache s1)) Mapping.default_retries
                     Mapping.default_backoff_factor
                     (fst (Mapping.append_uncached "Nullstadt" s1)))).
  assert (Hu : Mapping.unique (map Mapping.City (Mapping.germany one_company))
               = ([] ++ "Nullstadt" :: [])%list) by reflexivity.
  assert (Hf : default ∅ (Mapping.cache_file s0) !! "Nullstadt" = None)
    by reflexivity.
  assert (Hp : (Mapping.start_map ;; for_each [] (Mapping.visit_city scripted float)) s0
               = (s1, Ret tt)) by reflexivity.
  assert (Hg : Mapping.get_osm_coordinates scripted float "Nullstadt" "Germany"
                 (Some (Mapping.city_coords_cache s1)) Mapping.default_retries
                 Mapping.default_backoff_factor
                 (fst (Mapping.append_uncached "Nullstadt" s1))
               = (s2, Ret (Mapping.PyFloat (S754_zero false),
                           Mapping.PyFloat thirteen)))
    by (vm_compute; reflexivity).
  assert (Hz : Py.float_is_zero (S754_zero false) || Py.float_is_zero thirteen = true)
    by reflexivity.
  exact (proj1 (proj2 (proj2
           (zero_coordinate_city_skipped scripted float one_company s0 s1 s2
              [] [] "Nullstadt" _ _ Hu Hf Hp Hg Hz)))).
Defined.

(** The same run: one request, no sleep, nothing stored, nothing drawn. *)
Example null_island_run :
  let r := Mapping.generate_germany_map scripted float one_company
             (geo_start [null_island]) in
  snd r = Ret ([], [("Reuse", [])])
  /\ Mapping.sleeps (fst r) = []
  /\ length (Mapping.requests (fst r)) = 1
  /\ Mapping.uncached_cities (fst r) = ["Nullstadt"]
  /\ Mapping.cache_file (fst r) = Some ∅.
Proof. vm_compute. repeat split; reflexivity. Qed.

End Samples.

(** * Further properties *)

(** ** The parser and the helpers of the row processor *)

Section HelperFacts.

Import Validation.

Lemma string_app_assoc (a b c : string) : (a ++ b) ++ c = a ++ b ++ c.
Proof.
  induction a as [|x a IH]; [reflexivity|].
  change (String x ((a ++ b) ++ c) = String x (a ++ b ++ c)). f_equal. exact IH.
Qed.

(** The extraction returns exactly for the responses that have a first
    line with a separator, a second line with a separator and, when the
    agreement is [Disagree] and a third line is there, a separator in
    the third line too.  So a [Disagree] answer that ends in a line
    break, or whose third line has no ["Explanation: "] in front, is
    turned into the sentinel although its first two lines are well
    formed. *)
Theorem extraction_succeeds_iff (response : string) :
  is_ret (extract_fields response) = true <->
  exists line0 line1 rest field0,
    Py.split response Py.LF = line0 :: line1 :: rest
    /\ nth_error (Py.split line0 ": ") 1 = Some field0
    /\ Py.str_contains ": " line1 = true
    /\ (Py.strip field0 = "Disagree" ->
        forall line2, head rest = Some line2 -> Py.str_contains ": " line2 = true).
Proof.
  assert (Hsep : ": " <> "") by discriminate.
  unfold extract_fields, obind.
  destruct (Py.split response Py.LF) as [|line0 [|line1 rest]] eqn:Hl.
  - split; [discriminate | intros (? & ? & ? & ? & ? & _); discriminate].
  - change (Py.index [line0] 0) with (Ret line0).
    change (Py.index [line0] 1) with (@Raise string Py.IndexError).
    cbv beta iota.
    split; [|intros (? & ? & ? & ? & ? & _); discriminate].
    destruct (Py.index (Py.split line0 ": ") 1); discriminate.
  - change (Py.index (line0 :: line1 :: rest) 0) with (Ret line0).
    change (Py.index (line0 :: line1 :: rest) 1) with (Ret line1).
    cbv beta iota.
    pose proof (index_1_raises_iff ": " line1 Hsep) as H1.
    unfold Py.index at 1.
    destruct (nth_error (Py.split line0 ": ") 1) as [field0|] eqn:H0.
    2:{ split; [discriminate | intros (? & ? & ? & ? & [= <- <- <-] & Hf & _)].
        congruence. }
    destruct (Py.index (Py.split line1 ": ") 1) as [field1|e1] eqn:Hi1; cbn [is_ret] in H1.
    2:{ split; [discriminate | intros (? & ? & ? & ? & [= <- <- <-] & _ & Hc & _)].
        congruence. }
    destruct (String.eqb (Py.strip field0) "Disagree") eqn:Hd; cbn [andb].
    + apply String.eqb_eq in Hd.
      destruct rest as [|line2 rest'].
      * cbn [length Nat.ltb Nat.leb is_ret]. split; [intros _ | reflexivity].
        exists line0, line1, [], field0. repeat split; auto.
        intros _ line2 [=].
      * cbn [length Nat.ltb Nat.leb].
        change (Py.index (line0 :: line1 :: line2 :: rest') 2) with (Ret line2).
        cbv beta iota.
        pose proof (index_1_raises_iff ": " line2 Hsep) as H2.
        destruct (Py.index (Py.split line2 ": ") 1) as [field2|e2]; cbn [is_ret] in *.
        -- split; [intros _ | reflexivity].
           exists line0, line1, (line2 :: rest'), field0. repeat split; auto.
           intros _ l [= <-]. auto.
        -- split; [discriminate|].
           intros (? & ? & ? & f & [= <- <- <-] & Hf & _ & Hc).
           assert (f = field0) as -> by congruence.
           rewrite (Hc Hd line2 eq_refl) in H2. discriminate.
    + apply String.eqb_neq in Hd. cbn [is_ret]. split; [intros _ | reflexivity].
      exists line0, line1, rest, field0. repeat split; auto.
Qed.

(** [validate_columns] accepts a frame exactly when each required column
    is one of its columns. *)
Theorem validate_columns_iff (df : dataframe) (required : list string) :
  validate_columns df required = true <->
  forall col, In col required -> col ∈ columns df.
Proof.
  unfold validate_columns. induction required as [|c required IH]; cbn [List.filter].
  - split; [intros _ col [] | reflexivity].
  - case_bool_decide as Hc; cbn [negb].
    + rewrite IH. split.
      * intros H col [<-|Hin]; [exact Hc | exact (H col Hin)].
      * intros H col Hin. apply H. right. exact Hin.
    + split; [discriminate|]. intros H. exfalso. apply Hc, H. left. reflexivity.
Qed.

Lemma no_underscore_cons c a :
  Py.str_contains "_" (String c a) = false ->
  c <> "_"%char /\ Py.str_contains "_" a = false.
Proof.
  cbn [Py.str_contains]. intros [Hp Ha]%orb_false_iff. split; [|exact Ha].
  intros ->. cbn in Hp. destruct a; discriminate.
Qed.

(** Two fields without underscore are cut off at the same place. *)
Lemma cut_at_underscore a : forall a' x x',
  Py.str_contains "_" a = false -> Py.str_contains "_" a' = false ->
  a ++ "_" ++ x = a' ++ "_" ++ x' -> a = a' /\ x = x'.
Proof.
  induction a as [|c a IH]; intros [|c' a'] x x' Ha Ha' H; simpl in H.
  - injection H as H. subst. auto.
  - injection H as Hc _. apply no_underscore_cons in Ha' as [Hc' _]. congruence.
  - injection H as Hc _. apply no_underscore_cons in Ha as [Hc' _]. congruence.
  - injection H as Hc H. subst c'.
    apply no_underscore_cons in Ha as [_ Ha]. apply no_underscore_cons in Ha' as [_ Ha'].
    destruct (IH a' x x' Ha Ha' H) as [-> ->]. auto.
Qed.

(** When company name, city and country hold no underscore, the cache
    key determines the four fields it was built from. *)
Theorem cache_key_injective (company city country code
                              company' city' country' code' : string) :
  Py.str_contains "_" company = false -> Py.str_contains "_" city = false ->
  Py.str_contains "_" country = false ->
  Py.str_contains "_" company' = false -> Py.str_contains "_" city' = false ->
  Py.str_contains "_" country' = false ->
  get_cache_key company city country code = get_cache_key company' city' country' code' ->
  company = company' /\ city = city' /\ country = country' /\ code = code'.
Proof.
  intros H1 H2 H3 H1' H2' H3' H. unfold get_cache_key in H.
  apply cut_at_underscore in H as [-> H]; [|assumption..].
  apply cut_at_underscore in H as [-> H]; [|assumption..].
  apply cut_at_underscore in H as [-> ->]; [|assumption..].
  auto.
Qed.

(** With an underscore in a field the key is ambiguous: a company
    [a_b] in city [c] and a company [a] in city [b_c] share one key, and
    with it one cached answer. *)
Theorem cache_key_collision (a b c country code : string) :
  get_cache_key (a ++ "_" ++ b) c country code
  = get_cache_key a (b ++ "_" ++ c) country code
  /\ a ++ "_" ++ b <> a.
Proof.
  unfold get_cache_key. split.
  - rewrite !string_app_assoc. reflexivity.
  - induction a as [|x a IH]; cbn; [discriminate | intros [= H]; auto].
Qed.

End HelperFacts.

(** ** The row processor: the cache and the written CSV *)

Section RowProcessorMore.

Import Validation.

Context {V P C : Type}.
Variable strategy_dict : gmap string V.
Variable construct_prompt : string -> string -> string -> string -> string -> outcome P.
Variable get_openai_response : C -> P -> C * outcome string.

Local Abbreviation state := (@state P C).
Local Abbreviation process_code :=
  (process_code strategy_dict construct_prompt get_openai_response).
Local Abbreviation row_body :=
  (row_body strategy_dict construct_prompt get_openai_response).
Local Abbreviation process_row :=
  (process_row strategy_dict construct_prompt get_openai_response).
Local Abbreviation process_csv_and_save :=
  (process_csv_and_save strategy_dict construct_prompt get_openai_response).
Local Abbreviation results := (@results P C).
Local Abbreviation extends := (@extends P C).
Local Abbreviation advance := (@advance P C).

Ltac step_state :=
  unfold row_append, openai_append, load_cache, save_cache in *;
  unfold bind, record_call, set_cache, set_cache_file, set_output_csv, set_row_lists,
    set_openai_lists, call_client, modify, gets, lift, ret, raise in *;
  cbn in *.

(** What one code does to the cache and to its file: nothing, or one new
    key that is saved at once. *)
Lemma process_code_stores r code (s : state) :
  let s' := fst (process_code r code s) in
  (cache s' = cache s /\ cache_file s' = cache_file s)
  \/ (exists key response,
        cache s !! key = None
        /\ cache s' = <[key := response]> (cache s)
        /\ cache_file s' = Some (cache s')).
Proof.
  unfold Validation.process_code.
  destruct (validate_strategy_code strategy_dict code); cbn [negb]; [|left; split; reflexivity].
  step_state.
  repeat case_match; simplify_eq; cbn; try (left; split; reflexivity).
  right. do 2 eexists. split; [eassumption | split; reflexivity].
Qed.

(** A property of the cache and its file that each code keeps is kept by
    the loop over the rows. *)
Lemma rows_loop_stores (Q : gmap string string -> option (gmap string string) -> Prop) :
  (forall r code, invariant (fun s : state => Q (cache s) (cache_file s))
                    (process_code r code)) ->
  forall rs, invariant (fun s : state => Q (cache s) (cache_file s))
               (for_each rs process_row).
Proof.
  intros Hcode rs. apply invariant_for_each. intros r _ s Hs.
  destruct (process_row r s) as [s' o] eqn:E. cbn [fst]. revert E.
  unfold Validation.process_row, try_except, Validation.row_body.
  unfold bind at 1. unfold lift.
  destruct (RE_Strategy_Codes r) as [txt|]; cbn [cell_split];
    [|intros [= <- _]; exact Hs].
  unfold bind at 1. cbn [set_row_lists modify].
  set (s0 := mkState _ _ _ _ _ _ _ _ _ _ _).
  assert (H0 : Q (cache s0) (cache_file s0)) by exact Hs.
  pose proof (invariant_for_each _ (Py.split txt ", ") (process_code r)
                (fun code _ => Hcode r code) s0 H0) as H1.
  unfold bind at 1.
  destruct (for_each (Py.split txt ", ") (process_code r) s0) as [s1 [[]|e]];
    cbn [fst] in H1; unfold bind, gets, openai_append, set_openai_lists, modify;
    cbn; intros [= <- _]; exact H1.
Qed.

Lemma run_stores (Q : gmap string string -> option (gmap string string) -> Prop)
    df (s : state) :
  (forall r code, invariant (fun s : state => Q (cache s) (cache_file s))
                    (process_code r code)) ->
  Q (default ∅ (cache_file s)) (cache_file s) ->
  let s' := fst (process_csv_and_save df s) in
  Q (cache s') (cache_file s').
Proof.
  intros Hcode H0. cbn zeta. rewrite run_unfold. cbn zeta.
  destruct (validate_columns df required_columns); [|exact H0].
  set (s0 := fst (set_openai_lists [] [] [] (fst (set_cache _ s)))).
  pose proof (rows_loop_stores Q Hcode (rows df) s0 H0) as H1.
  destruct (for_each (rows df) process_row s0) as [s1 o]. cbn [fst] in *.
  destruct (finish df s1) as [s2 o2] eqn:E. cbn [fst]. revert E.
  unfold finish, bind, gets, id, lift.
  destruct (negb _); [intros [= <- _]; exact H1|].
  repeat (destruct (setitem _ _ _); [|intros [= <- _]; exact H1]).
  intros [= <- _]. exact H1.
Qed.

(** At the end of a job the cache file holds the cache the job has in
    memory: each answer received was saved when it arrived. *)
Theorem cache_file_in_sync (df : dataframe) (s : state) :
  let s' := fst (process_csv_and_save df s) in
  default ∅ (cache_file s') = cache s'.
Proof.
  apply (run_stores (fun m f => default ∅ f = m)); [|reflexivity].
  intros r code t Ht. cbn beta in *.
  destruct (process_code_stores r code t) as [[-> ->]|(key & response & _ & _ & ->)];
    [exact Ht | reflexivity].
Qed.

(** A job never removes or changes an entry of the cache file. *)
Theorem cached_answers_kept (df : dataframe) (s : state) :
  let s' := fst (process_csv_and_save df s) in
  default ∅ (cache_file s) ⊆ default ∅ (cache_file s').
Proof.
  assert (H : let s' := fst (process_csv_and_save df s) in
              default ∅ (cache_file s) ⊆ cache s'
              /\ default ∅ (cache_file s') = cache s').
  { apply (run_stores (fun m f => default ∅ (cache_file s) ⊆ m /\ default ∅ f = m)
             df s); [|split; reflexivity].
    intros r code t [Hsub Hsync]. cbn beta in *.
    destruct (process_code_stores r code t)
      as [[-> ->]|(key & response & Hnone & Hc & ->)]; [auto|].
    split; [|reflexivity]. rewrite Hc. apply insert_subseteq_r; [|exact Hsub].
    exact (lookup_weaken_None _ _ _ Hnone Hsub). }
  cbn zeta in *. destruct H as [Hsub ->]. exact Hsub.
Qed.

(** *** A second run after a first one *)

Local Abbreviation key_of r code :=
  (get_cache_key (Company_Name r) (City r) (Country r) code).

(** A known code whose key is not in the cache, when the prompt is built
    and the client answers: one request, the answer stored under the key
    and saved, and its parsed fields appended. *)
Lemma process_code_miss r code (s : state) messages c' response :
  validate_strategy_code strategy_dict code = true ->
  cache s !! key_of r code = None ->
  construct_prompt (Company_Name r) (City r) (Country r) code (Short_Description r)
  = Ret messages ->
  get_openai_response (client s) messages = (c', Ret response) ->
  process_code r code s =
    (mkState (Some (<[key_of r code := response]> (cache s))) c'
       (calls s ++ [GetCacheKey (key_of r code); CacheRead (key_of r code);
                    ConstructPrompt (Company_Name r) code; GetOpenAIResponse messages;
                    CacheWrite (key_of r code) response; SaveCache])
       (output_csv s) (<[key_of r code := response]> (cache s))
       (row_agreements s ++ [(parse_openai_response response).1.1])
       (row_strategies s ++ [(parse_openai_response response).1.2])
       (row_explanations s ++ [(parse_openai_response response).2])
       (openai_agreements s) (openai_strategies s) (openai_explanations s), Ret tt).
Proof.
  intros Hv Hk Hp Hc. unfold Validation.process_code. rewrite Hv. cbn [negb].
  step_state. rewrite Hk. cbn. rewrite Hp. cbn. rewrite Hc. cbn.
  destruct (parse_openai_response response) as [[a st] e]. cbn.
  rewrite <- !app_assoc. reflexivity.
Qed.

(** What a code that was processed without exception has left behind:
    from any state whose cache holds at least the entries of the cache
    it left, the same code is processed by reads alone, with the same
    three fields. *)
Lemma process_code_replay r code (s s1 : state) :
  process_code r code s = (s1, Ret tt) ->
  exists a st e,
    row_agreements s1 = (row_agreements s ++ [a])%list
    /\ row_strategies s1 = (row_strategies s ++ [st])%list
    /\ row_explanations s1 = (row_explanations s ++ [e])%list
    /\ cache s ⊆ cache s1
    /\ forall t : state,
         cache s1 ⊆ cache t ->
         exists extra,
           forallb is_read extra = true
           /\ process_code r code t = (advance t extra [a] [st] [e], Ret tt).
Proof.
  intros H.
  destruct (validate_strategy_code strategy_dict code) eqn:Hv.
  - destruct (cache s !! key_of r code) as [response|] eqn:Hk.
    + rewrite (process_code_hit strategy_dict construct_prompt get_openai_response
                 r code s response Hv Hk) in H.
      injection H as <-. do 3 eexists. cbn.
      split; [reflexivity|]. split; [reflexivity|]. split; [reflexivity|].
      split; [reflexivity|]. intros t Ht.
      exists [GetCacheKey (key_of r code); CacheRead (key_of r code)].
      split; [reflexivity|].
      apply (process_code_hit strategy_dict construct_prompt get_openai_response
               r code t response Hv).
      exact (lookup_weaken _ _ _ _ Hk Ht).
    + destruct (construct_prompt (Company_Name r) (City r) (Country r) code
                  (Short_Description r)) as [messages|e] eqn:Hp.
      2:{ revert H. unfold Validation.process_code. rewrite Hv. cbn [negb].
          step_state. rewrite Hk. cbn. rewrite Hp. discriminate. }
      destruct (get_openai_response (client s) messages) as [c' [response|e]] eqn:Hc.
      2:{ revert H. unfold Validation.process_code. rewrite Hv. cbn [negb].
          step_state. rewrite Hk. cbn. rewrite Hp. cbn. rewrite Hc. discriminate. }
      rewrite (process_code_miss r code s messages c' response Hv Hk Hp Hc) in H.
      injection H as <-. do 3 eexists. cbn.
      split; [reflexivity|]. split; [reflexivity|]. split; [reflexivity|].
      split; [apply insert_subseteq; exact Hk|]. intros t Ht.
      exists [GetCacheKey (key_of r code); CacheRead (key_of r code)].
      split; [reflexivity|].
      apply (process_code_hit strategy_dict construct_prompt get_openai_response
               r code t response Hv).
      apply (lookup_weaken _ _ _ _ (lookup_insert_eq _ _ _) Ht).
  - revert H. unfold Validation.process_code. rewrite Hv. cbn [negb].
    intros [= <-]. do 3 eexists. cbn.
    split; [reflexivity|]. split; [reflexivity|]. split; [reflexivity|].
    split; [reflexivity|]. intros t Ht. exists []. split; [reflexivity|].
    unfold Validation.advance. rewrite app_nil_r. reflexivity.
Qed.

(** A code of a row that appears a second time in the row is not
    requested again: after a code was processed without exception,
    processing it once more only reads, and adds the same three fields. *)
Theorem repeated_code_only_reads (r : row) (code : string) (s s1 : state) :
  process_code r code s = (s1, Ret tt) ->
  exists extra a st e,
    forallb is_read extra = true
    /\ row_agreements s1 = (row_agreements s ++ [a])%list
    /\ row_strategies s1 = (row_strategies s ++ [st])%list
    /\ row_explanations s1 = (row_explanations s ++ [e])%list
    /\ process_code r code s1 = (advance s1 extra [a] [st] [e], Ret tt).
Proof.
  intros H.
  destruct (process_code_replay r code s s1 H) as (a & st & e & Ha & Hs & He & _ & Ht).
  destruct (Ht s1 (reflexivity _)) as (extra & Hx & Hrun).
  exists extra, a, st, e. auto.
Qed.

(** With a prompt builder and a client that never raise, no code raises. *)
Lemma process_code_returns r code (s : state) :
  (forall a b c d e, is_ret (construct_prompt a b c d e) = true) ->
  (forall c p, is_ret (snd (get_openai_response c p)) = true) ->
  snd (process_code r code s) = Ret tt.
Proof.
  intros Hp Hc. unfold Validation.process_code.
  destruct (validate_strategy_code strategy_dict code); cbn [negb]; [|reflexivity].
  step_state.
  destruct (cache s !! key_of r code) as [response|].
  - destruct (parse_openai_response response) as [[a st] e]. reflexivity.
  - specialize (Hp (Company_Name r) (City r) (Country r) code (Short_Description r)).
    destruct (construct_prompt _ _ _ _ _) as [messages|e]; [|discriminate]. cbn.
    specialize (Hc (client s) messages).
    destruct (get_openai_response (client s) messages) as [c' [response|e]];
      [|discriminate]. cbn.
    destruct (parse_openai_response response) as [[a st] e]. reflexivity.
Qed.

Lemma codes_loop_replay r codes :
  (forall a b c d e, is_ret (construct_prompt a b c d e) = true) ->
  (forall c p, is_ret (snd (get_openai_response c p)) = true) ->
  forall s : state,
  exists s1 la ls le,
    for_each codes (process_code r) s = (s1, Ret tt)
    /\ row_agreements s1 = (row_agreements s ++ la)%list
    /\ row_strategies s1 = (row_strategies s ++ ls)%list
    /\ row_explanations s1 = (row_explanations s ++ le)%list
    /\ cache s ⊆ cache s1
    /\ forall t : state,
         cache s1 ⊆ cache t ->
         exists extra,
           forallb is_read extra = true
           /\ for_each codes (process_code r) t = (advance t extra la ls le, Ret tt).
Proof.
  intros Hp Hc. induction codes as [|code codes IH]; intros s; cbn [for_each].
  - exists s, [], [], []. rewrite !app_nil_r.
    split; [reflexivity|]. split; [reflexivity|]. split; [reflexivity|].
    split; [reflexivity|]. split; [reflexivity|]. intros t _. exists [].
    split; [reflexivity|]. unfold Validation.advance, ret. rewrite !app_nil_r.
    destruct t; reflexivity.
  - pose proof (process_code_returns r code s Hp Hc) as Hr.
    destruct (process_code r code s) as [s1 o] eqn:H1. cbn [snd] in Hr. subst o.
    destruct (process_code_replay r code s s1 H1)
      as (a & st & e & Ha & Hs & He & Hsub & Ht).
    destruct (IH s1) as (s2 & la & ls & le & H2 & Ha' & Hs' & He' & Hsub' & Ht').
    exists s2, (a :: la), (st :: ls), (e :: le).
    unfold bind at 1. rewrite H1, H2.
    rewrite Ha', Hs', He', Ha, Hs, He, <- !app_assoc.
    split; [reflexivity|]. split; [reflexivity|]. split; [reflexivity|].
    split; [reflexivity|]. split; [etrans; eassumption|].
    intros t Hst.
    destruct (Ht t (transitivity Hsub' Hst)) as (x & Hx & Hrun).
    destruct (Ht' (advance t x [a] [st] [e]) Hst) as (x' & Hx' & Hrun').
    exists (x ++ x')%list. rewrite forallb_app, Hx, Hx'. split; [reflexivity|].
    unfold bind. rewrite Hrun, Hrun', advance_advance. reflexivity.
Qed.

Lemma process_row_replay r :
  (forall a b c d e, is_ret (construct_prompt a b c d e) = true) ->
  (forall c p, is_ret (snd (get_openai_response c p)) = true) ->
  forall s : state,
  exists a st e,
    results (fst (process_row r s))
    = ((openai_agreements s ++ [a])%list, (openai_strategies s ++ [st])%list,
       (openai_explanations s ++ [e])%list)
    /\ cache s ⊆ cache (fst (process_row r s))
    /\ forall t : state,
         cache (fst (process_row r s)) ⊆ cache t ->
         extends t (fst (process_row r t)) [a] [st] [e].
Proof.
  intros Hp Hc s. destruct (RE_Strategy_Codes r) as [txt|] eqn:Hr.
  - destruct (codes_loop_replay r (Py.split txt ", ") Hp Hc
                (fst (set_row_lists [] [] [] s)))
      as (s1 & la & ls & le & H1 & Ha & Hs & He & Hsub & Ht).
    pose proof (preserves_for_each results (Py.split txt ", ") (process_code r)
                  (process_code_preserves_results strategy_dict construct_prompt
                     get_openai_response r)
                  (fst (set_row_lists [] [] [] s))) as Hres.
    rewrite H1 in Hres. cbn in Hres, Ha, Hs, He, Hsub.
    unfold Validation.results in Hres. injection Hres as Hra Hrs Hre.
    rewrite (process_row_text strategy_dict construct_prompt get_openai_response
               r txt s s1 Hr H1).
    exists (Py.join ", " la), (Py.join ", " ls), (Py.join ", " le).
    split; [|split].
    + unfold Validation.results. step_state. rewrite Ha, Hs, He, Hra, Hrs, Hre.
      reflexivity.
    + step_state. exact Hsub.
    + intros t Hst.
      destruct (Ht (fst (set_row_lists [] [] [] t))) as (x & Hx & Hrun);
        [step_state; exact Hst|].
      rewrite (process_row_text strategy_dict construct_prompt get_openai_response
                 r txt t _ Hr Hrun).
      unfold Validation.extends, Validation.results. step_state.
      repeat split; eauto.
  - rewrite (process_row_nan strategy_dict construct_prompt get_openai_response r s Hr).
    exists "Error", "Error", "Error in OpenAI response".
    split; [reflexivity|]. split; [reflexivity|]. intros t _.
    rewrite (process_row_nan strategy_dict construct_prompt get_openai_response r t Hr).
    unfold Validation.extends, Validation.results. step_state.
    repeat split; try reflexivity. exists []. rewrite app_nil_r. split; reflexivity.
Qed.

Lemma rows_loop_replay rs :
  (forall a b c d e, is_ret (construct_prompt a b c d e) = true) ->
  (forall c p, is_ret (snd (get_openai_response c p)) = true) ->
  forall s : state,
  exists la ls le,
    results (fst (for_each rs process_row s))
    = ((openai_agreements s ++ la)%list, (openai_strategies s ++ ls)%list,
       (openai_explanations s ++ le)%list)
    /\ cache s ⊆ cache (fst (for_each rs process_row s))
    /\ forall t : state,
         cache (fst (for_each rs process_row s)) ⊆ cache t ->
         extends t (fst (for_each rs process_row t)) la ls le.
Proof.
  intros Hp Hc. induction rs as [|r rs IH]; intros s; cbn [for_each].
  - exists [], [], []. unfold Validation.results. cbn. rewrite !app_nil_r.
    split; [reflexivity|]. split; [reflexivity|]. intros t _.
    unfold Validation.extends, Validation.results. cbn. rewrite !app_nil_r.
    repeat split; try reflexivity. exists []. rewrite app_nil_r. split; reflexivity.
  - destruct (process_row_replay r Hp Hc s) as (a & st & e & Hres & Hsub & Ht).
    pose proof (process_row_returns strategy_dict construct_prompt
                  get_openai_response r s) as Hr.
    unfold bind at 1 2 3.
    destruct (process_row r s) as [s1 o]. cbn [fst snd] in *. subst o.
    destruct (IH s1) as (la & ls & le & Hres' & Hsub' & Ht').
    exists (a :: la), (st :: ls), (e :: le).
    unfold Validation.results in Hres. injection Hres as Ha Hs He.
    split; [|split].
    + rewrite Hres', Ha, Hs, He, <- !app_assoc. reflexivity.
    + etrans; eassumption.
    + intros t Hst.
      pose proof (Ht t (transitivity Hsub' Hst)) as Hx.
      pose proof (process_row_returns strategy_dict construct_prompt
                    get_openai_response r t) as Hrt.
      unfold bind.
      destruct (process_row r t) as [t1 ot]. cbn [fst snd] in *. subst ot.
      assert (Hst1 : cache (fst (for_each rs process_row s1)) ⊆ cache t1).
      { destruct Hx as (_ & _ & -> & _). exact Hst. }
      exact (extends_trans _ _ _ _ _ _ _ _ _ Hx (Ht' t1 Hst1)).
Qed.

(** With valid columns, and a prompt builder and a client that never
    raise, a second job over the same input reproduces the CSV of the
    first one from the cache alone: it sends no request, leaves the
    client and the cache file as they are, and only reads. *)
Theorem second_run_reproduces_first (df : dataframe) (s : state) :
  (forall a b c d e, is_ret (construct_prompt a b c d e) = true) ->
  (forall c p, is_ret (snd (get_openai_response c p)) = true) ->
  validate_columns df required_columns = true ->
  let s1 := fst (process_csv_and_save df s) in
  let s2 := fst (process_csv_and_save df s1) in
  is_Some (output_csv s1)
  /\ output_csv s2 = output_csv s1
  /\ client s2 = client s1
  /\ cache_file s2 = cache_file s1
  /\ exists extra, calls s2 = (calls s1 ++ extra)%list /\ forallb is_read extra = true.
Proof.
  intros Hp Hc Hv s1 s2.
  pose proof (cache_file_in_sync df s) as Hsync. cbn zeta in Hsync. fold s1 in Hsync.
  subst s2. revert Hsync. subst s1. rewrite !run_unfold, Hv. cbn zeta.
  set (s0 := fst (set_openai_lists [] [] [] (fst (set_cache _ s)))).
  destruct (rows_loop_replay (rows df) Hp Hc s0) as (la & ls & le & Hres & _ & Ht).
  pose proof (rows_loop_lengths strategy_dict construct_prompt get_openai_response
                (rows df) s0) as (Hlen & Hlen2 & Hlen3).
  destruct (for_each (rows df) process_row s0) as [sA oA]. cbn [fst] in *.
  assert (Hfin : finish df sA
                 = (fst (set_output_csv
                           (mkOutput (rows df) (openai_agreements sA)
                              (openai_strategies sA) (openai_explanations sA)) sA),
                    Ret tt)).
  { exact (finish_writes df sA Hlen Hlen2 Hlen3). }
  rewrite Hfin. cbn [fst set_output_csv modify]. intros Hsync. cbn in Hsync.
  set (s1 := mkState (cache_file sA) _ _ _ _ _ _ _ _ _ _).
  set (t0 := fst (set_openai_lists [] [] [] (fst (set_cache _ s1)))).
  assert (Hsub : cache sA ⊆ cache t0) by (cbn; rewrite Hsync; reflexivity).
  specialize (Ht t0 Hsub).
  pose proof (rows_loop_lengths strategy_dict construct_prompt get_openai_response
                (rows df) t0) as (Hlen' & Hlen2' & Hlen3').
  destruct (for_each (rows df) process_row t0) as [tA oB]. cbn [fst] in *.
  assert (Hfin' : finish df tA
                  = (fst (set_output_csv
                            (mkOutput (rows df) (openai_agreements tA)
                               (openai_strategies tA) (openai_explanations tA)) tA),
                     Ret tt)).
  { exact (finish_writes df tA Hlen' Hlen2' Hlen3'). }
  rewrite Hfin'. cbn [fst set_output_csv modify].
  destruct Ht as (Hf & Hcl & Hm & Ho & Hx & Hr).
  unfold Validation.results in Hres, Hr. cbn in Hres, Hr.
  injection Hres as Ha Hs He. injection Hr as Ha' Hs' He'.
  cbn. split; [eauto|]. split; [congruence|]. split; [exact Hcl|].
  split; [exact Hf | exact Hx].
Qed.

(** When a required column is missing, the job returns without a CSV,
    without a request and without touching the cache file: the loaded
    cache is the only thing it has changed. *)
Theorem missing_column_writes_nothing (df : dataframe) (s : state) (col : string) :
  In col required_columns ->
  col ∉ columns df ->
  process_csv_and_save df s = (fst (set_cache (default ∅ (cache_file s)) s), Ret tt).
Proof.
  intros Hin Hcol. rewrite run_unfold. cbn zeta.
  destruct (validate_columns df required_columns) eqn:Hv; [|reflexivity].
  exfalso. apply Hcol. exact (proj1 (validate_columns_iff df required_columns) Hv col Hin).
Qed.

(** A row that is processed without exception has a text in
    [RE_Strategy_Codes], and each of its three lists holds one entry
    per code of that text, never none; the entries joined with [", "]
    are what the row adds to the job's lists. *)
Theorem one_entry_per_code (r : row) (s s' : state) :
  row_body r s = (s', Ret tt) ->
  exists txt,
    RE_Strategy_Codes r = Text txt
    /\ 0 < length (Py.split txt ", ")
    /\ length (row_agreements s') = length (Py.split txt ", ")
    /\ length (row_strategies s') = length (Py.split txt ", ")
    /\ length (row_explanations s') = length (Py.split txt ", ")
    /\ results s' =
         ((openai_agreements s ++ [Py.join ", " (row_agreements s')])%list,
          (openai_strategies s ++ [Py.join ", " (row_strategies s')])%list,
          (openai_explanations s ++ [Py.join ", " (row_explanations s')])%list).
Proof.
  unfold Validation.row_body. unfold bind at 1. unfold lift.
  destruct (RE_Strategy_Codes r) as [txt|]; cbn [cell_split]; [|discriminate].
  unfold bind at 1. cbn [set_row_lists modify].
  set (s0 := mkState _ _ _ _ _ _ _ _ _ _ _). unfold bind at 1.
  pose proof (preserves_for_each results (Py.split txt ", ") (process_code r)
                (process_code_preserves_results strategy_dict construct_prompt
                   get_openai_response r) s0) as Hp.
  destruct (for_each (Py.split txt ", ") (process_code r) s0) as [s1 [[]|e]] eqn:Hl;
    [|discriminate].
  apply (codes_loop_appends strategy_dict construct_prompt get_openai_response) in Hl
    as (la & ls & le & Hla & Hls & Hle & Ha & Hs & He).
  unfold Validation.results in Hp. cbn in Hp, Ha, Hs, He. injection Hp as Hpa Hps Hpe.
  unfold bind, gets, id, openai_append, set_openai_lists, modify.
  intros [= <-]. exists txt. unfold Validation.results. cbn.
  rewrite Ha, Hs, He, Hpa, Hps, Hpe.
  split; [reflexivity|]. split.
  { pose proof (split_from_not_nil ", " 0 txt) as Hn. unfold Py.split.
    destruct (Py.split_from ", " 0 txt); [contradiction | cbn; lia]. }
  repeat split; assumption.
Qed.

(** With all required columns the job always ends normally and writes a
    CSV: the input rows, unchanged and in order, and three columns with
    one entry per row. *)
Theorem written_csv_shape (df : dataframe) (s : state) :
  validate_columns df required_columns = true ->
  snd (process_csv_and_save df s) = Ret tt
  /\ exists out,
       output_csv (fst (process_csv_and_save df s)) = Some out
       /\ out_rows out = rows df
       /\ length (openai_agreement out) = length (rows df)
       /\ length (openai_strategy out) = length (rows df)
       /\ length (openai_explanation out) = length (rows df).
Proof.
  intros Hv. rewrite run_unfold, Hv. cbn zeta.
  set (s0 := fst (set_openai_lists [] [] [] (fst (set_cache _ s)))).
  pose proof (rows_loop_lengths strategy_dict construct_prompt get_openai_response
                (rows df) s0) as (Ha & Hs & He).
  destruct (for_each (rows df) process_row s0) as [sA oA]. cbn [fst] in *.
  cbn [length openai_agreements openai_strategies openai_explanations] in Ha, Hs, He.
  rewrite (finish_writes df sA Ha Hs He). cbn.
  split; [reflexivity|]. eexists. split; [reflexivity|]. cbn. auto.
Qed.

End RowProcessorMore.

(** ** The geocoding client: bounds, errors and waiting time *)

Section GeocodingMore.

Import Mapping.

Context {T : Type}.
Variable requests_get : T -> string -> T * outcome response.
Variable float : string -> outcome spec_float.

Local Abbreviation state := (@state T).
Local Abbreviation http_get := (http_get requests_get).
Local Abbreviation attempts := (attempts requests_get float).
Local Abbreviation get_osm_coordinates := (get_osm_coordinates requests_get float).
Local Abbreviation visit_city := (visit_city requests_get float).
Local Abbreviation resolve_city := (resolve_city requests_get float).
Local Abbreviation generate_germany_map := (generate_germany_map requests_get float).
Local Abbreviation validation_map := (validation_map requests_get float).
Local Abbreviation all_fail := (all_fail requests_get).
Local Abbreviation after_failures := (after_failures requests_get).
Local Abbreviation net_after := (net_after requests_get).
Local Abbreviation data :=
  (fun s : state => (cache_file s, city_coords_cache s, city_coords s, uncached_cities s)).

Lemma attempts_shape url n : forall b (s s' : state) o,
  attempts url n b s = (s', o) ->
  exists k j,
    j <= n /\ k <= j /\ j <= S k
    /\ requests s' = (requests s ++ repeat url j)%list
    /\ sleeps s' = (sleeps s ++ backoffs b k)%list.
Proof.
  induction n as [|n IH]; intros b s s' o.
  - intros [= <- _]. exists 0, 0. cbn. rewrite !app_nil_r.
    repeat split; first [lia | reflexivity].
  - cbn [Mapping.attempts]. unfold bind at 1. unfold Mapping.http_get.
    destruct (requests_get (net s) url) as [t' [r|e]].
    2:{ intros [= <- _]. exists 0, 1. cbn. rewrite app_nil_r.
        repeat split; first [lia | reflexivity]. }
    destruct ((status_code r =? 200)%Z && Py.list_truthy (json r)).
    { unfold bind, lift.
      destruct (Py.index (json r) 0) as [d|e].
      2:{ intros [= <- _]. exists 0, 1. cbn. rewrite app_nil_r.
          repeat split; first [lia | reflexivity]. }
      destruct (float (lat d)) as [la|e].
      2:{ intros [= <- _]. exists 0, 1. cbn. rewrite app_nil_r.
          repeat split; first [lia | reflexivity]. }
      destruct (float (lon d)) as [lo|e]; intros [= <- _]; exists 0, 1; cbn;
        rewrite app_nil_r; repeat split; first [lia | reflexivity]. }
    assert (Hstep : forall X : M state (pyval * pyval),
               (if (status_code r =? 429)%Z
                then (sleep b ;; X) else (sleep b ;; X))
               = (sleep b ;; X)) by (intros X; destruct (status_code r =? 429)%Z; reflexivity).
    rewrite Hstep. unfold bind at 1.
    set (s1 := mkState _ _ _ _ _ _ _).
    destruct (sleep_cases b s1) as [Hsl|[e Hsl]]; rewrite Hsl.
    2:{ intros [= <- _]. exists 0, 1. cbn. rewrite app_nil_r.
        repeat split; first [lia | reflexivity]. }
    intros H.
    destruct (IH (b * 2)%Z _ s' o H) as (k & j & Hj & Hk & Hjk & Hr & Hs).
    exists (S k), (S j). rewrite Hr, Hs. cbn. rewrite <- !app_assoc.
    repeat split; first [lia | reflexivity].
Qed.

(** Whatever the transport answers, a call sends at most [retries]
    requests, all for the same URL; it sleeps after each request but
    possibly the last, for the backoff, twice the backoff, and so on; and
    it changes neither the cache nor the cities to plot. *)
Theorem requests_are_bounded (city country : string)
    (cache : option (gmap string (pyval * pyval)))
    (retries backoff_factor : Z) (s : state) :
  let s' := fst (get_osm_coordinates city country cache retries backoff_factor s) in
  (exists k j,
      j <= Z.to_nat retries /\ k <= j /\ j <= S k
      /\ requests s' = (requests s ++ repeat (search_url city country) j)%list
      /\ sleeps s' = (sleeps s ++ backoffs backoff_factor k)%list)
  /\ data s' = data s.
Proof.
  cbn zeta. split.
  - destruct (get_osm_coordinates city country cache retries backoff_factor s)
      as [s' o] eqn:E. cbn [fst]. revert E.
    assert (Hhit : forall x, (s, x) = (s', o) -> exists k j,
               j <= Z.to_nat retries /\ k <= j /\ j <= S k
               /\ requests s' = (requests s ++ repeat (search_url city country) j)%list
               /\ sleeps s' = (sleeps s ++ backoffs backoff_factor k)%list).
    { intros x [= <- _]. exists 0, 0. cbn. rewrite !app_nil_r.
      repeat split; first [lia | reflexivity]. }
    unfold Mapping.get_osm_coordinates. destruct cache as [m|].
    + destruct (Py.dict_truthy m && Py.contains m city); [apply Hhit|].
      apply attempts_shape.
    + apply attempts_shape.
  - apply (get_osm_coordinates_preserves_data requests_get float).
Qed.

(** After [k] failed attempts, with an attempt left, an answer 200 with
    results whose coordinates are numbers ends the call: [k + 1]
    requests, [k] sleeps, none after the success, and the coordinates of
    the first result.  The [k] waits are not negative and of at most
    [max_wait] seconds. *)
Theorem found_after_failures (city country : string)
    (cache : option (gmap string (pyval * pyval)))
    (retries backoff_factor : Z) (s : state) (k : nat) t' r d rest la lo :
  uncached cache city = true ->
  let url := search_url city country in
  k < Z.to_nat retries ->
  forallb waitable (backoffs backoff_factor k) = true ->
  all_fail url k (net s) = true ->
  requests_get (net_after url k (net s)) url = (t', Ret r) ->
  status_code r = 200%Z ->
  json r = d :: rest ->
  float (lat d) = Ret la ->
  float (lon d) = Ret lo ->
  get_osm_coordinates city country cache retries backoff_factor s
  = (mkState t' (requests s ++ repeat url (S k)) (sleeps s ++ backoffs backoff_factor k)
       (cache_file s) (city_coords_cache s) (city_coords s) (uncached_cities s),
     Ret (PyFloat la, PyFloat lo)).
Proof.
  intros Hu url Hk Hw Hall Hg Hst Hj Hla Hlo.
  assert (Hat : attempts url (Z.to_nat retries) backoff_factor s
                = (mkState t' (requests s ++ repeat url (S k))
                     (sleeps s ++ backoffs backoff_factor k)
                     (cache_file s) (city_coords_cache s) (city_coords s)
                     (uncached_cities s),
                   Ret (PyFloat la, PyFloat lo))).
  { replace (Z.to_nat retries) with (k + S (Z.to_nat retries - S k)) by lia.
    rewrite (attempts_fail_prefix requests_get float url k _ _ s Hw Hall).
    cbn [Mapping.attempts]. unfold bind at 1. unfold Mapping.http_get.
    unfold Mapping.after_failures at 1. cbn [net]. rewrite Hg.
    rewrite Hst, Hj. cbn [Z.eqb Pos.eqb Py.list_truthy andb].
    unfold bind, lift. cbn [Py.index nth_error]. rewrite Hla, Hlo.
    unfold ret, Mapping.after_failures. cbn.
    rewrite <- app_assoc, repeat_cons. reflexivity. }
  unfold Mapping.get_osm_coordinates. fold url.
  destruct cache as [m|]; [|exact Hat].
  cbn [uncached] in Hu. apply negb_true_iff in Hu. rewrite Hu, andb_false_r. exact Hat.
Qed.

(** An exception of the transport is not retried: after [k] failed
    attempts it leaves [get_osm_coordinates] as it is, with the [k]
    sleeps made so far.  The [k] waits are not negative and of at most
    [max_wait] seconds. *)
Theorem transport_error_not_retried (city country : string)
    (cache : option (gmap string (pyval * pyval)))
    (retries backoff_factor : Z) (s : state) (k : nat) t' e :
  uncached cache city = true ->
  let url := search_url city country in
  k < Z.to_nat retries ->
  forallb waitable (backoffs backoff_factor k) = true ->
  all_fail url k (net s) = true ->
  requests_get (net_after url k (net s)) url = (t', Raise e) ->
  get_osm_coordinates city country cache retries backoff_factor s
  = (mkState t' (requests s ++ repeat url (S k)) (sleeps s ++ backoffs backoff_factor k)
       (cache_file s) (city_coords_cache s) (city_coords s) (uncached_cities s),
     Raise e).
Proof.
  intros Hu url Hk Hw Hall Hg.
  assert (Hat : attempts url (Z.to_nat retries) backoff_factor s
                = (mkState t' (requests s ++ repeat url (S k))
                     (sleeps s ++ backoffs backoff_factor k)
                     (cache_file s) (city_coords_cache s) (city_coords s)
                     (uncached_cities s),
                   Raise e)).
  { replace (Z.to_nat retries) with (k + S (Z.to_nat retries - S k)) by lia.
    rewrite (attempts_fail_prefix requests_get float url k _ _ s Hw Hall).
    cbn [Mapping.attempts]. unfold bind at 1. unfold Mapping.http_get.
    unfold Mapping.after_failures at 1. cbn [net]. rewrite Hg.
    unfold Mapping.after_failures. cbn.
    rewrite <- app_assoc, repeat_cons. reflexivity. }
  unfold Mapping.get_osm_coordinates. fold url.
  destruct cache as [m|]; [|exact Hat].
  cbn [uncached] in Hu. apply negb_true_iff in Hu. rewrite Hu, andb_false_r. exact Hat.
Qed.

Lemma total_backoffs n : forall b, total (backoffs b n) = (b * (2 ^ Z.of_nat n - 1))%Z.
Proof.
  induction n as [|n IH]; intros b; cbn [backoffs total fold_right].
  - cbn. lia.
  - fold (total (backoffs (b * 2) n)). rewrite IH.
    rewrite Nat2Z.inj_succ, Z.pow_succ_r by lia. lia.
Qed.

Lemma total_app l1 l2 : total (l1 ++ l2) = (total l1 + total l2)%Z.
Proof.
  unfold total. induction l1 as [|x l1 IH]; cbn; [reflexivity | rewrite IH; lia].
Qed.

(** The time a city that cannot be resolved costs: when each attempt
    fails, and the waits are not negative and of at most [max_wait]
    seconds, the call has slept [backoff * (2 ^ retries - 1)] seconds
    in all, 31 seconds with the default arguments. *)
Theorem waiting_time_when_exhausted (city country : string)
    (cache : option (gmap string (pyval * pyval)))
    (retries backoff_factor : Z) (s : state) :
  uncached cache city = true ->
  (0 <= retries)%Z ->
  forallb waitable (backoffs backoff_factor (Z.to_nat retries)) = true ->
  all_fail (search_url city country) (Z.to_nat retries) (net s) = true ->
  total (sleeps (fst (get_osm_coordinates city country cache retries backoff_factor s)))
  = (total (sleeps s) + backoff_factor * (2 ^ retries - 1))%Z
  /\ (default_backoff_factor * (2 ^ default_retries - 1) = 31)%Z.
Proof.
  intros Hu Hr Hw Hall. split; [|reflexivity].
  assert (Hat : attempts (search_url city country) (Z.to_nat retries) backoff_factor s
                = (after_failures (search_url city country) (Z.to_nat retries)
                     backoff_factor s, Ret (PyNone, PyNone))).
  { rewrite <- (Nat.add_0_r (Z.to_nat retries)) at 1.
    rewrite (attempts_fail_prefix requests_get float _ _ 0 _ s Hw Hall). reflexivity. }
  assert (Hget : get_osm_coordinates city country cache retries backoff_factor s
                 = (after_failures (search_url city country) (Z.to_nat retries)
                      backoff_factor s, Ret (PyNone, PyNone))).
  { unfold Mapping.get_osm_coordinates. destruct cache as [m|]; [|exact Hat].
    cbn [uncached] in Hu. apply negb_true_iff in Hu. rewrite Hu, andb_false_r.
    exact Hat. }
  rewrite Hget. cbn [fst]. unfold Mapping.after_failures. cbn [sleeps].
  rewrite total_app, total_backoffs, Z2Nat.id by exact Hr. reflexivity.
Qed.

(** With [retries] at zero or below, a city that is not in the cache is
    given up at once: no request, no sleep, [(None, None)]. *)
Theorem no_attempt_without_retries (city country : string)
    (cache : option (gmap string (pyval * pyval)))
    (retries backoff_factor : Z) (s : state) :
  uncached cache city = true ->
  (retries <= 0)%Z ->
  get_osm_coordinates city country cache retries backoff_factor s
  = (s, Ret (PyNone, PyNone)).
Proof.
  intros Hu Hr. unfold Mapping.get_osm_coordinates.
  replace (Z.to_nat retries) with 0 by lia.
  destruct cache as [m|]; [|reflexivity].
  cbn [uncached] in Hu. apply negb_true_iff in Hu. rewrite Hu, andb_false_r.
  reflexivity.
Qed.

(** An answer 200 whose first result has a latitude or a longitude that
    [float] rejects makes the call raise that exception: it is neither
    retried nor turned into [(None, None)]. *)
Theorem unparsable_coordinate_raises (city country : string)
    (cache : option (gmap string (pyval * pyval)))
    (retries backoff_factor : Z) (s : state) t' r d rest e :
  uncached cache city = true ->
  (0 < retries)%Z ->
  requests_get (net s) (search_url city country) = (t', Ret r) ->
  status_code r = 200%Z ->
  json r = d :: rest ->
  float (lat d) = Raise e \/ (is_ret (float (lat d)) = true /\ float (lon d) = Raise e) ->
  get_osm_coordinates city country cache retries backoff_factor s
  = (mkState t' (requests s ++ [search_url city country]) (sleeps s)
       (cache_file s) (city_coords_cache s) (city_coords s) (uncached_cities s),
     Raise e).
Proof.
  intros Hu Hr Hg Hst Hj He.
  assert (Hat : attempts (search_url city country) (Z.to_nat retries) backoff_factor s
                = (mkState t' (requests s ++ [search_url city country]) (sleeps s)
                     (cache_file s) (city_coords_cache s) (city_coords s)
                     (uncached_cities s), Raise e)).
  { replace (Z.to_nat retries) with (S (Z.to_nat retries - 1)) by lia.
    cbn [Mapping.attempts]. unfold bind at 1. unfold Mapping.http_get. rewrite Hg.
    rewrite Hst, Hj. cbn [Z.eqb Pos.eqb Py.list_truthy andb].
    unfold bind, lift. cbn [Py.index nth_error].
    destruct He as [->|[Hla ->]]; [reflexivity|].
    destruct (float (lat d)); [reflexivity | discriminate]. }
  unfold Mapping.get_osm_coordinates.
  destruct cache as [m|]; [|exact Hat].
  cbn [uncached] in Hu. apply negb_true_iff in Hu. rewrite Hu, andb_false_r. exact Hat.
Qed.

End GeocodingMore.

(** ** The loop over the cities: what is stored and what is drawn *)

Section MapMore.

Import Mapping.

Context {T : Type}.
Variable requests_get : T -> string -> T * outcome response.
Variable float : string -> outcome spec_float.

Local Abbreviation state := (@state T).
Local Abbreviation get_osm_coordinates := (get_osm_coordinates requests_get float).
Local Abbreviation visit_city := (visit_city requests_get float).
Local Abbreviation resolve_city := (resolve_city requests_get float).
Local Abbreviation generate_germany_map := (generate_germany_map requests_get float).
Local Abbreviation validation_map := (validation_map requests_get float).
Local Abbreviation data :=
  (fun s : state => (cache_file s, city_coords_cache s, city_coords s, uncached_cities s)).

(** The transport, the requests sent and the sleeps made. *)
Local Abbreviation traffic := (fun s : state => (net s, requests s, sleeps s)).

(** A city that is in the cache is taken from it: its cached coordinates
    become its coordinates on the map, and nothing else changes, so no
    request is sent and no sleep is made. *)
Theorem cached_city_taken_from_cache (city : string) (v : pyval * pyval) (s : state) :
  city_coords_cache s !! city = Some v ->
  visit_city city s
  = (mkState (net s) (requests s) (sleeps s) (cache_file s) (city_coords_cache s)
       (<[city := v]> (city_coords s)) (uncached_cities s), Ret tt).
Proof.
  intros H. unfold Mapping.visit_city. unfold bind at 1. cbn [gets].
  unfold Py.contains. rewrite H, bool_decide_eq_true_2 by eauto.
  unfold bind, lift, gets, set_city_coords, modify, Py.getitem. rewrite H. reflexivity.
Qed.

(** A city that is not in the cache and whose lookup returns a truthy
    latitude and a truthy longitude is added, with these coordinates, to
    the cities to plot and to the cache, and the visit ends with a sleep
    of one second. *)
Theorem found_city_is_stored (city : string) (s s1 : state) (la lo : pyval) :
  city_coords_cache s !! city = None ->
  get_osm_coordinates city "Germany" (Some (city_coords_cache s))
    default_retries default_backoff_factor (fst (append_uncached city s))
  = (s1, Ret (la, lo)) ->
  truthy la = true -> truthy lo = true ->
  visit_city city s
  = (mkState (net s1) (requests s1) (sleeps s1 ++ [1%Z]) (cache_file s1)
       (<[city := (la, lo)]> (city_coords_cache s1))
       (<[city := (la, lo)]> (city_coords s1)) (uncached_cities s1), Ret tt).
Proof.
  intros Hc Hg Hla Hlo. unfold Mapping.visit_city. unfold bind at 1. cbn [gets].
  unfold Py.contains. rewrite Hc.
  rewrite bool_decide_eq_false_2 by (intros [? ?]; discriminate).
  unfold bind at 1.
  pose proof (eq_refl : snd (append_uncached city s) = Ret tt) as Ho.
  destruct (append_uncached city s) as [s0 o]. cbn [fst snd] in Hg, Ho. subst o.
  unfold bind at 1. rewrite Hg, Hla, Hlo. cbn [andb].
  unfold bind, gets, set_city_coords, set_city_coords_cache, sleep, modify.
  reflexivity.
Qed.

(** What a visit does to the cache and to the cities to plot: it takes
    the city from the cache, or leaves both as they are, or adds to both
    the same new pair of truthy coordinates. *)
Lemma visit_city_stores city (s : state) :
  let s' := fst (visit_city city s) in
  (exists v, city_coords_cache s !! city = Some v
             /\ city_coords_cache s' = city_coords_cache s
             /\ city_coords s' = <[city := v]> (city_coords s))
  \/ (city_coords_cache s !! city = None
      /\ city_coords_cache s' = city_coords_cache s
      /\ city_coords s' = city_coords s)
  \/ (exists la lo,
        city_coords_cache s !! city = None
        /\ truthy la = true /\ truthy lo = true
        /\ city_coords_cache s' = <[city := (la, lo)]> (city_coords_cache s)
        /\ city_coords s' = <[city := (la, lo)]> (city_coords s)).
Proof.
  cbn zeta. destruct (city_coords_cache s !! city) as [v|] eqn:Hc.
  - left. exists v. rewrite (cached_city_taken_from_cache city v s Hc). cbn. auto.
  - right. destruct (visit_city city s) as [s' o] eqn:E. cbn [fst]. revert E.
    unfold Mapping.visit_city. unfold bind at 1. cbn [gets].
    unfold Py.contains. rewrite Hc.
    rewrite bool_decide_eq_false_2 by (intros [? ?]; discriminate).
    unfold bind at 1. unfold append_uncached, bind at 1.
    cbn [gets set_uncached_cities modify].
    set (s0 := mkState _ _ _ _ _ _ _).
    pose proof (get_osm_coordinates_preserves_data requests_get float city "Germany"
                  (Some (city_coords_cache s)) default_retries
                  default_backoff_factor s0) as Hd.
    unfold bind at 1.
    destruct (get_osm_coordinates _ _ _ _ _ s0) as [s1 [[la lo]|e]]; cbn [fst] in Hd;
      injection Hd as _ Hd1 Hd2 _; cbn in Hd1, Hd2.
    + destruct (truthy la && truthy lo) eqn:Ht.
      * apply andb_true_iff in Ht as [Hla Hlo].
        unfold bind, gets, set_city_coords, set_city_coords_cache, sleep, modify. cbn.
        intros [= <- _]. right. exists la, lo. cbn. rewrite Hd1, Hd2. auto.
      * intros [= <- _]. left. auto.
    + intros [= <- _]. left. auto.
Qed.

(** The same for the loop body of the maps of the validated rows. *)
Lemma resolve_city_stores city (s : state) :
  let s' := fst (resolve_city city s) in
  (exists v, city_coords_cache s !! city = Some v
             /\ city_coords_cache s' = city_coords_cache s
             /\ city_coords s' = <[city := v]> (city_coords s)
             /\ traffic s' = traffic s)
  \/ (city_coords_cache s !! city = None
      /\ city_coords_cache s' = city_coords_cache s
      /\ city_coords s' = city_coords s)
  \/ (exists la lo,
        city_coords_cache s !! city = None
        /\ truthy la = true /\ truthy lo = true
        /\ city_coords_cache s' = <[city := (la, lo)]> (city_coords_cache s)
        /\ city_coords s' = <[city := (la, lo)]> (city_coords s)).
Proof.
  cbn zeta. destruct (resolve_city city s) as [s' o] eqn:E. cbn [fst]. revert E.
  unfold Mapping.resolve_city. unfold bind at 1. cbn [gets]. unfold Py.contains.
  destruct (city_coords_cache s !! city) as [v|] eqn:Hc.
  - rewrite bool_decide_eq_true_2 by eauto.
    unfold bind, lift, gets, set_city_coords, modify, Py.getitem. rewrite Hc.
    intros [= <- _]. left. exists v. cbn. auto.
  - rewrite bool_decide_eq_false_2 by (intros [? ?]; discriminate).
    pose proof (get_osm_coordinates_preserves_data requests_get float city "Germany"
                  (Some (city_coords_cache s)) default_retries
                  default_backoff_factor s) as Hd.
    unfold bind at 1.
    destruct (get_osm_coordinates _ _ _ _ _ s) as [s1 [[la lo]|e]]; cbn [fst] in Hd;
      injection Hd as _ Hd1 Hd2 _.
    + destruct (truthy la && truthy lo) eqn:Ht.
      * apply andb_true_iff in Ht as [Hla Hlo].
        unfold bind, gets, set_city_coords, set_city_coords_cache, sleep, modify. cbn.
        intros [= <- _]. right. right. exists la, lo. cbn. rewrite Hd1, Hd2. auto.
      * intros [= <- _]. right. left. auto.
    + intros [= <- _]. right. left. auto.
Qed.

(** A property of the cache and of the cities to plot that each visit
    keeps holds when [generate_germany_map] ends, however it ends; and
    the cache file is then the one found, or the cache as it is. *)
Lemma map_stores
    (Q : gmap string (pyval * pyval) -> gmap string (pyval * pyval) -> Prop)
    (df : list company) (s0 : state) :
  (forall city, invariant (fun s : state => Q (city_coords_cache s) (city_coords s))
                  (visit_city city)) ->
  Q (default ∅ (cache_file s0)) ∅ ->
  let r := generate_germany_map df s0 in
  Q (city_coords_cache (fst r)) (city_coords (fst r))
  /\ (if is_ret (snd r)
      then cache_file (fst r) = Some (city_coords_cache (fst r))
      else cache_file (fst r) = cache_file s0).
Proof.
  intros Hv H0. cbn zeta.
  destruct (generate_germany_map df s0) as [sf res] eqn:E. cbn [fst snd]. revert E.
  unfold Mapping.generate_germany_map. unfold bind at 1.
  rewrite (start_map_eq (T:=T)). set (sA := mkState _ _ _ _ _ _ _).
  pose proof (invariant_for_each _ (unique (map City (germany df))) visit_city
                (fun city _ => Hv city) sA H0) as H1.
  pose proof (preserves_for_each cache_file (unique (map City (germany df))) visit_city)
    as Hf.
  unfold bind at 1.
  destruct (for_each (unique (map City (germany df))) visit_city sA) as [s1 [[]|e]] eqn:El;
    cbn [fst] in H1.
  - unfold bind, gets, save_cache, set_cache_file, modify, ret. cbn.
    intros [= <- <-]. cbn. auto.
  - intros [= <- <-]. cbn. split; [exact H1|].
    assert (Hp : preserves cache_file
                   (for_each (unique (map City (germany df))) visit_city)).
    { apply Hf. intros city s. unfold Mapping.visit_city.
      pose proof (get_osm_coordinates_preserves_data requests_get float) as Hd.
      unfold bind at 1. cbn [gets].
      destruct (Py.contains (city_coords_cache s) city).
      - unfold bind, lift, gets, set_city_coords, modify.
        destruct (Py.getitem (city_coords_cache s) city); reflexivity.
      - unfold bind at 1. unfold append_uncached, bind at 1.
        cbn [gets set_uncached_cities modify].
        set (sB := mkState _ _ _ _ _ _ _).
        specialize (Hd city "Germany" (Some (city_coords_cache s)) default_retries
                      default_backoff_factor sB).
        unfold bind at 1.
        destruct (Mapping.get_osm_coordinates _ _ _ _ _ _ _ sB) as [s2 [[la lo]|e2]];
          cbn [fst] in Hd; injection Hd as Hd _ _ _; cbn in Hd.
        + destruct (truthy la && truthy lo); [|exact Hd].
          unfold bind, gets, set_city_coords, set_city_coords_cache, sleep, modify.
          cbn. exact Hd.
        + exact Hd. }
    specialize (Hp sA). rewrite El in Hp. exact Hp.
Qed.

(** When [generate_germany_map] ends, each city to plot is in the cache
    with the coordinates it is plotted at; and when it ends normally the
    cache file is that cache, so every plotted city is saved. *)
Theorem plotted_cities_are_cached (df : list company) (s0 : state) :
  let r := generate_germany_map df s0 in
  city_coords (fst r) ⊆ city_coords_cache (fst r)
  /\ (is_ret (snd r) = true -> cache_file (fst r) = Some (city_coords_cache (fst r))).
Proof.
  cbn zeta.
  destruct (map_stores (fun m c => c ⊆ m) df s0) as [H1 H2].
  - intros city s Hs. cbn beta in *.
    destruct (visit_city_stores city s)
      as [(v & Hc & -> & ->)|[(_ & -> & ->)|(la & lo & _ & _ & _ & -> & ->)]].
    + apply insert_subseteq_l; assumption.
    + exact Hs.
    + apply insert_mono. exact Hs.
  - apply map_empty_subseteq.
  - split; [exact H1|]. intros Hr. rewrite Hr in H2. exact H2.
Qed.

(** [generate_germany_map] never removes or changes an entry of the
    cache: the entries of the file it found are in the cache it ends
    with, and in the file it leaves. *)
Theorem cached_coordinates_kept (df : list company) (s0 : state) :
  let r := generate_germany_map df s0 in
  default ∅ (cache_file s0) ⊆ city_coords_cache (fst r)
  /\ default ∅ (cache_file s0) ⊆ default ∅ (cache_file (fst r)).
Proof.
  cbn zeta.
  destruct (map_stores (fun m _ => default ∅ (cache_file s0) ⊆ m) df s0) as [H1 H2].
  - intros city s Hs. cbn beta in *.
    destruct (visit_city_stores city s)
      as [(v & Hc & -> & _)|[(_ & -> & _)|(la & lo & Hc & _ & _ & -> & _)]];
      [exact Hs | exact Hs |].
    apply insert_subseteq_r; [|exact Hs]. exact (lookup_weaken_None _ _ _ Hc Hs).
  - reflexivity.
  - split; [exact H1|].
    destruct (is_ret (snd (generate_germany_map df s0))); rewrite H2;
      [exact H1 | reflexivity].
Qed.

(** What the run adds to the cache is truthy: an entry of the cache it
    ends with was in the file it found, or is a pair of a latitude and a
    longitude that are both truthy.  A city that was not found, or found
    on the equator or on the zero meridian, is never cached. *)
Theorem only_truthy_coordinates_cached (df : list company) (s0 : state)
    (city : string) (v : pyval * pyval) :
  city_coords_cache (fst (generate_germany_map df s0)) !! city = Some v ->
  default ∅ (cache_file s0) !! city = Some v
  \/ (truthy (fst v) = true /\ truthy (snd v) = true).
Proof.
  destruct (map_stores
              (fun m _ => forall c w, m !! c = Some w ->
                 default ∅ (cache_file s0) !! c = Some w
                 \/ (truthy (fst w) = true /\ truthy (snd w) = true)) df s0)
    as [H1 _].
  - intros c s Hs. cbn beta in *.
    destruct (visit_city_stores c s)
      as [(w & Hc & -> & _)|[(_ & -> & _)|(la & lo & Hc & Hla & Hlo & -> & _)]];
      [exact Hs | exact Hs |].
    intros c' w. destruct (decide (c = c')) as [<-|Hne].
    + rewrite lookup_insert_eq. intros [= <-]. right. auto.
    + rewrite lookup_insert_ne by exact Hne. apply Hs.
  - intros c w Hw. left. exact Hw.
  - intros H. exact (H1 city v H).
Qed.

Lemma unique_from_In seen l x :
  In x (unique_from seen l) <-> In x l /\ x ∉ seen.
Proof.
  revert seen. induction l as [|y l IH]; intros seen; cbn [unique_from In].
  - tauto.
  - case_bool_decide as Hy.
    + rewrite IH. split; [tauto|]. intros [[->|H] Hx]; [contradiction | tauto].
    + cbn [In]. rewrite IH. rewrite not_elem_of_cons. split.
      * intros [->|(H & Hne & Hx)]; tauto.
      * intros [[->|H] Hx]; [tauto|].
        destruct (decide (x = y)) as [->|Hne]; tauto.
Qed.

(** The cities the loop visits are the cities of the rows, each once. *)
Theorem each_city_visited_once (l : list string) :
  NoDup (unique l) /\ forall x, In x (unique l) <-> In x l.
Proof.
  split; [apply unique_NoDup|]. intros x. unfold unique.
  rewrite unique_from_In. split; [tauto|]. intros H. split; [exact H|].
  apply not_elem_of_nil.
Qed.

(** A loop over cities that are all in the cache. *)
Lemma visit_cached_cities cities : forall s : state,
  (forall c, In c cities -> is_Some (city_coords_cache s !! c)) ->
  exists coords,
    for_each cities visit_city s
    = (mkState (net s) (requests s) (sleeps s) (cache_file s) (city_coords_cache s)
         coords (uncached_cities s), Ret tt)
    /\ (forall c, In c cities -> coords !! c = city_coords_cache s !! c)
    /\ (forall c, ~ In c cities -> coords !! c = city_coords s !! c).
Proof.
  induction cities as [|city cities IH]; intros s Hall; cbn [for_each].
  - exists (city_coords s). destruct s; cbn. split; [reflexivity|]. split; [intros c []|auto].
  - destruct (Hall city (or_introl eq_refl)) as [v Hv].
    unfold bind. rewrite (cached_city_taken_from_cache city v s Hv).
    set (s1 := mkState _ _ _ _ _ _ _).
    destruct (IH s1) as (coords & Hrun & Hin & Hout).
    { intros c Hc. apply Hall. right. exact Hc. }
    exists coords. rewrite Hrun. cbn. split; [reflexivity|]. split.
    + intros c [<-|Hc]; [|exact (Hin c Hc)].
      destruct (in_dec string_dec city cities) as [Hc|Hc]; [exact (Hin city Hc)|].
      rewrite (Hout city Hc). cbn. rewrite lookup_insert_eq. symmetry. exact Hv.
    + intros c Hc. rewrite (Hout c) by tauto. cbn.
      apply lookup_insert_ne. intros ->. apply Hc. left. reflexivity.
Qed.

(** When the city of every German row is in the cache file,
    [generate_germany_map] sends no request and makes no sleep; it ends
    normally, every such city is plotted at its cached coordinates, and
    the file is written back with the entries it had. *)
Theorem cached_map_sends_no_request (df : list company) (s0 : state) :
  (forall row, In row (germany df) ->
               is_Some (default ∅ (cache_file s0) !! City row)) ->
  let r := generate_germany_map df s0 in
  is_ret (snd r) = true
  /\ traffic (fst r) = traffic s0
  /\ uncached_cities (fst r) = []
  /\ city_coords_cache (fst r) = default ∅ (cache_file s0)
  /\ cache_file (fst r) = Some (default ∅ (cache_file s0))
  /\ forall row, In row (germany df) ->
        city_coords (fst r) !! City row = default ∅ (cache_file s0) !! City row.
Proof.
  intros Hall. cbn zeta.
  destruct (visit_cached_cities (unique (map City (germany df)))
              (mkState (net s0) (requests s0) (sleeps s0) (cache_file s0)
                 (default ∅ (cache_file s0)) ∅ []))
    as (coords & Hrun & Hin & _).
  { intros c Hc. apply (proj1 (proj2 (each_city_visited_once _) c)) in Hc.
    apply in_map_iff in Hc as (row & <- & Hrow). exact (Hall row Hrow). }
  cbn in Hrun, Hin.
  assert (E : exists maps,
             generate_germany_map df s0
             = (mkState (net s0) (requests s0) (sleeps s0)
                  (Some (default ∅ (cache_file s0))) (default ∅ (cache_file s0))
                  coords [], Ret maps)).
  { eexists. unfold Mapping.generate_germany_map. unfold bind at 1.
    rewrite (start_map_eq (T:=T)). unfold bind at 1. rewrite Hrun. reflexivity. }
  destruct E as [maps ->]. cbn.
  repeat split; try reflexivity.
  intros row Hrow. apply Hin. apply (proj2 (proj2 (each_city_visited_once _) _)).
  apply in_map. exact Hrow.
Qed.

(** A point of the map stands at the coordinates the city has among the
    cities to plot, and its size is fifty times the number of rows with
    its city and its strategy, so at least fifty. *)
Theorem points_are_placed (dfg : list company) (coords : gmap string (pyval * pyval))
    (p : point) :
  In p (combined_points dfg coords) ->
  coords !! point_city p = Some (point_lat p, point_lon p)
  /\ point_size p
     = (Z.of_nat (length (List.filter
                            (fun r => String.eqb (City r) (point_city p)
                                      && String.eqb (RE_Strategy_Names r)
                                           (point_strategy p)) dfg)) * 50)%Z
  /\ (50 <= point_size p)%Z.
Proof.
  unfold combined_points. rewrite in_flat_map. intros (strategy & _ & Hp).
  unfold strategy_points in Hp. rewrite in_flat_map in Hp.
  destruct Hp as (city & _ & Hp).
  destruct (0 <? _)%nat eqn:Hn; [|destruct Hp].
  destruct (coords !! city) as [[la lo]|] eqn:Hc; [|destruct Hp].
  destruct Hp as [<-|[]]. cbn. apply Nat.ltb_lt in Hn.
  split; [exact Hc|]. split; [reflexivity | lia].
Qed.

(** *** The maps of the validated rows *)

(** Without a German row whose agreement holds the word, the two maps of
    the validated rows return at once: the cache file is not read, no
    request is sent and nothing is written. *)
Theorem validation_map_without_rows (df : list judged) (s : state) :
  (matching "Disagree" df = [] ->
   generate_germany_map_with_validation_disagree requests_get float df s = (s, Ret None))
  /\ (matching "Agree" df = [] ->
      generate_germany_map_with_validation_agree requests_get float df s = (s, Ret None)).
Proof.
  unfold generate_germany_map_with_validation_disagree,
    generate_germany_map_with_validation_agree, Mapping.validation_map.
  split; intros ->; reflexivity.
Qed.

Lemma resolve_city_keeps (m0 : gmap string (pyval * pyval)) city :
  invariant (fun s : state => city_coords s ⊆ city_coords_cache s
                              /\ m0 ⊆ city_coords_cache s)
    (resolve_city city).
Proof.
  intros s [H1 H2].
  destruct (resolve_city_stores city s)
    as [(v & Hc & -> & -> & _)|[(_ & -> & ->)|(la & lo & Hc & _ & _ & -> & ->)]].
  - split; [|exact H2]. apply insert_subseteq_l; assumption.
  - auto.
  - split.
    + apply insert_mono. exact H1.
    + apply insert_subseteq_r; [|exact H2]. exact (lookup_weaken_None _ _ _ Hc H2).
Qed.

(** In the maps of the validated rows too, each city to plot is in the
    cache with its coordinates, and the entries of the cache file that
    was found are kept. *)
Theorem validation_map_stores (word : string) (df : list judged) (s0 : state) :
  matching word df <> [] ->
  let r := validation_map word df s0 in
  city_coords (fst r) ⊆ city_coords_cache (fst r)
  /\ default ∅ (cache_file s0) ⊆ city_coords_cache (fst r).
Proof.
  intros Hne. cbn zeta.
  destruct (validation_map word df s0) as [sf res] eqn:E. cbn [fst]. revert E.
  unfold Mapping.validation_map.
  destruct (matching word df) as [|row rows]; [contradiction|].
  unfold bind at 1. cbn [load_cache gets]. unfold bind at 1.
  cbn [set_city_coords_cache modify]. unfold bind at 1. cbn [set_city_coords modify].
  set (sA := mkState _ _ _ _ _ _ _).
  assert (HA : city_coords sA ⊆ city_coords_cache sA
               /\ default ∅ (cache_file s0) ⊆ city_coords_cache sA).
  { cbn. split; [apply map_empty_subseteq | reflexivity]. }
  pose proof (invariant_for_each _ (unique (map City (row :: rows))) resolve_city
                (fun city _ => resolve_city_keeps (default ∅ (cache_file s0)) city)
                sA HA) as Hinv.
  unfold bind at 1.
  destruct (for_each _ resolve_city sA) as [s1 [[]|e]]; cbn [fst] in Hinv.
  - unfold bind, gets, save_cache, set_cache_file, modify, ret. cbn.
    intros [= <- _]. exact Hinv.
  - intros [= <- _]. exact Hinv.
Qed.

End MapMore.

(** ** The further properties at sample inputs *)

Section MoreSamples.

Import Sample.

Local Abbreviation run :=
  (Validation.process_csv_and_save re_strategies construct_prompt agreeing_client).
Local Abbreviation code_step :=
  (Validation.process_code re_strategies construct_prompt agreeing_client).
Local Abbreviation lookup_city :=
  (Mapping.get_osm_coordinates scripted float).
Local Abbreviation berlin_url := (Mapping.search_url "Berlin" "Germany").

(** A [Disagree] answer that ends with a line break has an empty third
    line, and is turned into the sentinel. *)
Example disagree_with_trailing_line_break :
  Validation.parse_openai_response
    ("Agreement: Disagree" ++ Py.LF ++ "Strategy: R3" ++ Py.LF)
  = ("Error", "Error", "Error").
Proof. reflexivity. Qed.

Lemma cache_key_injective_witness :
  Validation.get_cache_key "Acme" "Berlin" "Germany" "R2"
  = Validation.get_cache_key "Acme" "Berlin" "Germany" "R2"
  /\ "Acme" = "Acme" /\ "Berlin" = "Berlin" /\ "Germany" = "Germany" /\ "R2" = "R2".
Proof.
  split; [reflexivity|].
  apply (cache_key_injective "Acme" "Berlin" "Germany" "R2"
           "Acme" "Berlin" "Germany" "R2"); reflexivity.
Defined.

Lemma repeated_code_only_reads_witness :
  exists extra a st e,
    forallb (@Validation.is_read string) extra = true
    /\ Validation.row_agreements (fst (code_step acme "R2" (start None))) = ([] ++ [a])%list
    /\ Validation.row_strategies (fst (code_step acme "R2" (start None))) = ([] ++ [st])%list
    /\ Validation.row_explanations (fst (code_step acme "R2" (start None))) = ([] ++ [e])%list
    /\ code_step acme "R2" (fst (code_step acme "R2" (start None)))
       = (Validation.advance (fst (code_step acme "R2" (start None))) extra [a] [st] [e],
          Ret tt).
Proof.
  assert (H : code_step acme "R2" (start None)
              = (fst (code_step acme "R2" (start None)), Ret tt))
    by (vm_compute; reflexivity).
  exact (repeated_code_only_reads re_strategies construct_prompt agreeing_client
           acme "R2" (start None) _ H).
Defined.

Lemma second_run_reproduces_first_witness :
  Validation.output_csv (fst (run companies (fst (run companies (start None)))))
  = Validation.output_csv (fst (run companies (start None)))
  /\ Validation.client (fst (run companies (fst (run companies (start None)))))
     = Validation.client (fst (run companies (start None))).
Proof.
  assert (Hp : forall a b c d e, is_ret (construct_prompt a b c d e) = true)
    by (intros; reflexivity).
  assert (Hc : forall c p, is_ret (snd (agreeing_client c p)) = true)
    by (intros; reflexivity).
  assert (Hv : Validation.validate_columns companies Validation.required_columns = true)
    by (vm_compute; reflexivity).
  destruct (second_run_reproduces_first re_strategies construct_prompt agreeing_client
              companies (start None) Hp Hc Hv) as (_ & Ho & Hcl & _).
  split; [exact Ho | exact Hcl].
Defined.

Lemma missing_column_writes_nothing_witness :
  run headless (start None) = (start None, Ret tt).
Proof.
  assert (Hin : In "RE_Strategy_Codes" Validation.required_columns)
    by (cbn; tauto).
  assert (Hcol : "RE_Strategy_Codes" ∉ Validation.columns headless)
    by (vm_compute; intros H; repeat (apply elem_of_cons in H as [H|H]; [discriminate|]);
        inversion H).
  exact (missing_column_writes_nothing re_strategies construct_prompt agreeing_client
           headless (start None) "RE_Strategy_Codes" Hin Hcol).
Defined.

Lemma one_entry_per_code_witness :
  exists txt,
    Validation.RE_Strategy_Codes acme = Validation.Text txt
    /\ 0 < length (Py.split txt ", ")
    /\ length (Validation.row_agreements
                 (fst (Validation.row_body re_strategies construct_prompt agreeing_client
                         acme (start None))))
       = length (Py.split txt ", ").
Proof.
  assert (H : Validation.row_body re_strategies construct_prompt agreeing_client
                acme (start None)
              = (fst (Validation.row_body re_strategies construct_prompt agreeing_client
                        acme (start None)), Ret tt))
    by (vm_compute; reflexivity).
  destruct (one_entry_per_code re_strategies construct_prompt agreeing_client
              acme (start None) _ H) as (txt & Htxt & Hpos & Ha & _).
  exists txt. auto.
Defined.

Lemma written_csv_shape_witness :
  snd (run companies (start None)) = Ret tt.
Proof.
  assert (Hv : Validation.validate_columns companies Validation.required_columns = true)
    by (vm_compute; reflexivity).
  exact (proj1 (written_csv_shape re_strategies construct_prompt agreeing_client
                  companies (start None) Hv)).
Defined.

Lemma found_after_failures_witness :
  forallb Mapping.waitable (Mapping.backoffs 1 2) = true
  /\ lookup_city "Berlin" "Germany" None 5 1
       (geo_start [too_many_requests; too_many_requests; berlin_found])
     = (Mapping.mkState [] ([] ++ repeat berlin_url 3) ([] ++ Mapping.backoffs 1 2)
          None ∅ ∅ [],
        Ret (Mapping.PyFloat fifty_two, Mapping.PyFloat thirteen)).
Proof.
  assert (Hk : 2 < Z.to_nat 5) by (vm_compute; lia).
  assert (Hw : forallb Mapping.waitable (Mapping.backoffs 1 2) = true)
    by (vm_compute; reflexivity).
  assert (Hall : Mapping.all_fail scripted berlin_url 2
                   (Mapping.net (geo_start [too_many_requests; too_many_requests;
                                            berlin_found])) = true)
    by (vm_compute; reflexivity).
  assert (Hg : scripted
                 (Mapping.net_after scripted berlin_url 2
                    (Mapping.net (geo_start [too_many_requests; too_many_requests;
                                             berlin_found])))
                 berlin_url = ([], Ret berlin_found))
    by (vm_compute; reflexivity).
  split; [exact Hw|].
  exact (found_after_failures scripted float "Berlin" "Germany" None 5 1
           (geo_start [too_many_requests; too_many_requests; berlin_found])
           2 [] berlin_found (Mapping.mkPlace "52.0" "13.0") [] fifty_two thirteen
           eq_refl Hk Hw Hall Hg eq_refl eq_refl eq_refl eq_refl).
Defined.

Lemma transport_error_not_retried_witness :
  forallb Mapping.waitable (Mapping.backoffs 1 1) = true
  /\ lookup_city "Berlin" "Germany" None 5 1 (geo_start [too_many_requests])
     = (Mapping.mkState [] ([] ++ repeat berlin_url 2) ([] ++ Mapping.backoffs 1 1)
          None ∅ ∅ [],
        Raise connection_refused).
Proof.
  assert (Hk : 1 < Z.to_nat 5) by (vm_compute; lia).
  assert (Hw : forallb Mapping.waitable (Mapping.backoffs 1 1) = true)
    by (vm_compute; reflexivity).
  assert (Hall : Mapping.all_fail scripted berlin_url 1
                   (Mapping.net (geo_start [too_many_requests])) = true)
    by (vm_compute; reflexivity).
  assert (Hg : scripted
                 (Mapping.net_after scripted berlin_url 1
                    (Mapping.net (geo_start [too_many_requests])))
                 berlin_url = ([], Raise connection_refused))
    by (vm_compute; reflexivity).
  split; [exact Hw|].
  exact (transport_error_not_retried scripted float "Berlin" "Germany" None 5 1
           (geo_start [too_many_requests]) 1 [] connection_refused
           eq_refl Hk Hw Hall Hg).
Defined.

Lemma unparsable_coordinate_raises_witness :
  lookup_city "Berlin" "Germany" None 5 1 (geo_start [unparsable])
  = (Mapping.mkState [] ([] ++ [berlin_url]) [] None ∅ ∅ [],
     Raise (mkExn "ValueError" "could not convert string to float: north")).
Proof.
  assert (Hr : (0 < 5)%Z) by lia.
  assert (Hg : scripted (Mapping.net (geo_start [unparsable])) berlin_url
               = ([], Ret unparsable)) by reflexivity.
  assert (He : float (Mapping.lat (Mapping.mkPlace "north" "13.0"))
               = Raise (mkExn "ValueError" "could not convert string to float: north")
               \/ (is_ret (float (Mapping.lat (Mapping.mkPlace "north" "13.0"))) = true
                   /\ float (Mapping.lon (Mapping.mkPlace "north" "13.0"))
                      = Raise (mkExn "ValueError"
                                 "could not convert string to float: north")))
    by (left; vm_compute; reflexivity).
  exact (unparsable_coordinate_raises scripted float "Berlin" "Germany" None 5 1
           (geo_start [unparsable]) [] unparsable (Mapping.mkPlace "north" "13.0") []
           _ eq_refl Hr Hg eq_refl eq_refl He).
Defined.

Lemma waiting_time_when_exhausted_witness :
  forallb Mapping.waitable (Mapping.backoffs 1 (Z.to_nat 5)) = true
  /\ Mapping.total
       (Mapping.sleeps (fst (lookup_city "Berlin" "Germany" None 5 1
                               (geo_start (repeat too_many_requests 5)))))
     = (Mapping.total [] + 1 * (2 ^ 5 - 1))%Z.
Proof.
  assert (Hr : (0 <= 5)%Z) by lia.
  assert (Hw : forallb Mapping.waitable (Mapping.backoffs 1 (Z.to_nat 5)) = true)
    by (vm_compute; reflexivity).
  assert (Hall : Mapping.all_fail scripted berlin_url (Z.to_nat 5)
                   (Mapping.net (geo_start (repeat too_many_requests 5))) = true)
    by (vm_compute; reflexivity).
  split; [exact Hw|].
  exact (proj1 (waiting_time_when_exhausted scripted float "Berlin" "Germany" None 5 1
                  (geo_start (repeat too_many_requests 5)) eq_refl Hr Hw Hall)).
Defined.

Lemma no_attempt_without_retries_witness :
  lookup_city "Berlin" "Germany" None 0 1 (geo_start [berlin_found])
  = (geo_start [berlin_found], Ret (Mapping.PyNone, Mapping.PyNone)).
Proof.
  assert (Hr : (0 <= 0)%Z) by lia.
  exact (no_attempt_without_retries scripted float "Berlin" "Germany" None 0 1
           (geo_start [berlin_found]) eq_refl Hr).
Defined.

Lemma cached_city_taken_from_cache_witness :
  Mapping.visit_city scripted float "Berlin"
    (Mapping.mkState [too_many_requests] [] [] None berlin_cache ∅ [])
  = (Mapping.mkState [too_many_requests] [] [] None berlin_cache
       (<["Berlin" := (Mapping.PyFloat fifty_two, Mapping.PyFloat thirteen)]> ∅) [],
     Ret tt).
Proof.
  assert (H : Mapping.city_coords_cache
                (Mapping.mkState [too_many_requests] [] [] None berlin_cache ∅ [])
              !! "Berlin"
              = Some (Mapping.PyFloat fifty_two, Mapping.PyFloat thirteen))
    by (vm_compute; reflexivity).
  exact (cached_city_taken_from_cache scripted float "Berlin" _ _ H).
Defined.

Lemma found_city_is_stored_witness :
  Mapping.city_coords_cache
    (fst (Mapping.visit_city scripted float "Berlin" (geo_start [berlin_found])))
  = <["Berlin" := (Mapping.PyFloat fifty_two, Mapping.PyFloat thirteen)]> ∅.
Proof.
  set (s := geo_start [berlin_found]).
  assert (Hc : Mapping.city_coords_cache s !! "Berlin" = None) by reflexivity.
  assert (Hg : lookup_city "Berlin" "Germany" (Some (Mapping.city_coords_cache s))
                 Mapping.default_retries Mapping.default_backoff_factor
                 (fst (Mapping.append_uncached "Berlin" s))
               = (Mapping.mkState [] [berlin_url] [] None ∅ ∅ ["Berlin"],
                  Ret (Mapping.PyFloat fifty_two, Mapping.PyFloat thirteen)))
    by (vm_compute; reflexivity).
  rewrite (found_city_is_stored scripted float "Berlin" s _ _ _ Hc Hg eq_refl eq_refl).
  reflexivity.
Defined.

Lemma only_truthy_coordinates_cached_witness :
  Mapping.truthy (Mapping.PyFloat fifty_two) = true
  /\ Mapping.truthy (Mapping.PyFloat thirteen) = true.
Proof.
  assert (H : Mapping.city_coords_cache
                (fst (Mapping.generate_germany_map scripted float berlin_company
                        (geo_start [berlin_found]))) !! "Berlin"
              = Some (Mapping.PyFloat fifty_two, Mapping.PyFloat thirteen))
    by (vm_compute; reflexivity).
  destruct (only_truthy_coordinates_cached scripted float berlin_company
              (geo_start [berlin_found]) "Berlin" _ H) as [H0|H1].
  - vm_compute in H0. discriminate.
  - exact H1.
Defined.

Lemma cached_map_sends_no_request_witness :
  Mapping.requests
    (fst (Mapping.generate_germany_map scripted float berlin_company
            (geo_start_with berlin_cache [too_many_requests]))) = []
  /\ Mapping.sleeps
       (fst (Mapping.generate_germany_map scripted float berlin_company
               (geo_start_with berlin_cache [too_many_requests]))) = [].
Proof.
  assert (H : forall row, In row (Mapping.germany berlin_company) ->
                is_Some (default ∅ (Mapping.cache_file
                                      (geo_start_with berlin_cache [too_many_requests]))
                         !! Mapping.City row)).
  { intros row [<-|[]]. vm_compute. eauto. }
  destruct (cached_map_sends_no_request scripted float berlin_company
              (geo_start_with berlin_cache [too_many_requests]) H)
    as (_ & Ht & _).
  split; [exact (f_equal (fun t => snd (fst t)) Ht) | exact (f_equal snd Ht)].
Defined.

Lemma points_are_placed_witness :
  (50 <= Mapping.point_size
           (Mapping.mkPoint "Berlin" "Reuse" (Mapping.PyFloat thirteen)
              (Mapping.PyFloat fifty_two) 50))%Z.
Proof.
  assert (H : In (Mapping.mkPoint "Berlin" "Reuse" (Mapping.PyFloat thirteen)
                    (Mapping.PyFloat fifty_two) 50)
                (Mapping.combined_points berlin_company berlin_cache))
    by (vm_compute; left; reflexivity).
  exact (proj2 (proj2 (points_are_placed berlin_company berlin_cache _ H))).
Defined.

Lemma validation_map_without_rows_witness :
  Mapping.generate_germany_map_with_validation_disagree scripted float judged_companies
    (geo_start [too_many_requests])
  = (geo_start [too_many_requests], Ret None).
Proof.
  assert (H : Mapping.matching "Disagree" judged_companies = []) by reflexivity.
  exact (proj1 (validation_map_without_rows scripted float judged_companies
                  (geo_start [too_many_requests])) H).
Defined.

Lemma validation_map_stores_witness :
  Mapping.city_coords
    (fst (Mapping.validation_map scripted float "Agree" judged_companies
            (geo_start [berlin_found])))
  ⊆ Mapping.city_coords_cache
      (fst (Mapping.validation_map scripted float "Agree" judged_companies
              (geo_start [berlin_found]))).
Proof.
  assert (H : Mapping.matching "Agree" judged_companies <> []) by discriminate.
  exact (proj1 (validation_map_stores scripted float "Agree" judged_companies
                  (geo_start [berlin_found]) H)).
Defined.

(** The map of the agreed rows for one row in Berlin: one request, the
    city stored and saved, one point drawn. *)
Example agree_map_run :
  let r := Mapping.generate_germany_map_with_validation_agree scripted float
             judged_companies (geo_start [berlin_found]) in
  is_ret (snd r) = true
  /\ length (Mapping.requests (fst r)) = 1
  /\ Mapping.sleeps (fst r) = [1%Z]
  /\ Mapping.cache_file (fst r) = Some berlin_cache.
Proof. vm_compute. repeat split; reflexivity. Qed.

End MoreSamples.
